(** * goagent: tool validation, tool execution, context strategies and the
      tool-calling conversation loop

    A shallow embedding of

      - [internal/tools/interface.go], [internal/tools/base.go],
        [internal/tools/errors.go]      (module [Tools]),
      - [internal/context/*.go]         (module [ContextStrategy]),
      - [internal/services/tool_service.go] and the tool-calling loop of
        the chat service                (module [Services]),

    together with the properties the design document states about them. *)

From Stdlib Require Import ZArith Floats Ascii String Lia.
From stdpp Require Import gmap strings list fin_maps pretty.

Local Open Scope string_scope.
Local Open Scope list_scope.
#[local] Set Warnings "-register-all".

(** ** Go values

    [interface{}] values, as far as the code inspects them: by a type
    switch, by [reflect.Kind] or by comparison with [nil].  A [float32]
    carries the binary64 number it converts to; [VMap] is a
    [map[string]interface{}], [VSlice] a [[]interface{}] and [VMaps] a
    [[]map[string]interface{}]. *)

Inductive value : Type :=
| VNil
| VString (s : string)
| VFloat64 (f : float)
| VFloat32 (f : float)
| VInt (z : Z)
| VInt32 (z : Z)
| VInt64 (z : Z)
| VBool (b : bool)
| VMap (m : list (string * value))
| VStruct (fields : list (string * value))
| VSlice (l : list value)
| VMaps (l : list (list (string * value)))
| VArray (l : list value)
| VOther (descr : string).

Definition is_nil (v : value) : bool :=
  match v with VNil => true | _ => false end.

(** [float64(z)] for an integer [z]: rounding to nearest even. *)
Definition f64_of_Z (z : Z) : float :=
  SF2Prim (binary_normalize 53 1024 z 0 false).

(** [int(f)] for a finite float: truncation toward zero. *)
Definition Z_of_f64 (f : float) : Z :=
  match Prim2SF f with
  | S754_finite s m e =>
      let a := match e with
               | Z0 => Zpos m
               | Zpos k => Z.shiftl (Zpos m) (Zpos k)
               | Zneg k => Z.shiftr (Zpos m) (Zpos k)
               end in
      if s then Z.opp a else a
  | _ => 0%Z
  end.

(** ** The Go runtime and standard library

    What the code calls and this development does not re-implement.
    [MapRange c m] is the order in which one [for k, v := range m]
    statement visits [m]; Go leaves that order unspecified and varies it
    from one statement execution to the next, so every [range] over a map
    takes the runtime's choice [c] as an argument. *)

Class GoRuntime := {
  (** [strconv.ParseFloat(s, 64)]; [None] when it returns an error *)
  ParseFloat : string -> option float;
  (** [regexp.MatchString(pattern, s)]; [None] when the pattern is invalid *)
  MatchString : string -> string -> option bool;
  (** [strings.ToLower] *)
  ToLower : string -> string;
  (** [fmt.Sprintf("%v", v)] *)
  Sprint_v : value -> string;
  (** [fmt.Sprintf("%g", f)] *)
  Sprint_g : float -> string;
  (** [json.Unmarshal] of a string into a [map[string]interface{}]: the
      map, or the text of the error *)
  json_Unmarshal : string -> gmap string value + string;
  (** [json.Marshal]; [None] when it returns an error *)
  json_Marshal : value -> option string;
  MapRange : forall {A : Type}, nat -> gmap string A -> list (string * A);
  MapRange_perm : forall (A : Type) (c : nat) (m : gmap string A),
      MapRange c m ≡ₚ map_to_list m;
  (** whether a [select] with two ready cases takes the first one *)
  SelectFirst : nat -> bool;
  (** the order in which values sent by concurrent goroutines arrive on
      a channel *)
  Arrival : forall {A : Type}, nat -> list A -> list A;
  Arrival_perm : forall (A : Type) (c : nat) (l : list A), Arrival c l ≡ₚ l;
  (** [generateRequestID()], a rendering of the wall clock *)
  generateRequestID : nat -> string;
  (** the capacity [append] gives the array it allocates, from the old
      capacity and the length needed *)
  growcap : nat -> nat -> nat;
  growcap_ge : forall old needed : nat, needed <= growcap old needed
}.

(** ** Calls that take time, panic or never return

    Time is a logical clock in nanoseconds that advances only while a tool
    body runs.  A call either finishes after some time, by returning or
    by panicking, or never returns. *)

Inductive outcome (A : Type) : Type :=
| Returns (a : A)
| Panics (v : value).
Arguments Returns {A} a.
Arguments Panics {A} v.

Inductive behaviour (A : Type) : Type :=
| Finishes (after : Z) (o : outcome A)
| Blocks.
Arguments Finishes {A} after o.
Arguments Blocks {A}.

(** [context.Context]: the time left until its [Done] channel is closed,
    [None] when it never is.  [Done] is already closed when no time is
    left. *)
Record Context := { done_in : option Z }.

Definition Background : Context := {| done_in := None |}.

Definition is_done (ctx : Context) : bool :=
  match done_in ctx with
  | Some t => (t <=? 0)%Z
  | None => false
  end.

(** [context.WithTimeout(parent, timeout)] *)
Definition WithTimeout (parent : Context) (timeout : Z) : Context :=
  {| done_in := Some (match done_in parent with
                      | Some t => Z.min t timeout
                      | None => timeout
                      end) |}.

(** [strings.Contains] on byte strings. *)
Fixpoint Contains (s substr : string) : bool :=
  String.prefix substr s ||
  match s with
  | EmptyString => false
  | String _ rest => Contains rest substr
  end.

(** [fmt.Sprintf("%d", n)] *)
Definition Sprint_d (n : Z) : string := pretty n.

(** [strings.Join(elems, sep)] *)
Definition Join (elems : list string) (sep : string) : string :=
  String.concat sep elems.

(** * Package tools *)

Module Tools.

(** ** Schema (interface.go) *)

(** Go's [Parameter] struct. *)
Record Param := {
  Name : string;
  Type_ : string;
  Description : string;
  Required : bool;
  Default : value;            (* nil when there is no default *)
  Enum : list string;
  Minimum : option float;
  Maximum : option float;
  Pattern : string
}.

Record Schema := {
  SchemaName : string;
  SchemaDescription : string;
  Parameters : list Param
}.

(** ** Errors (errors.go) *)

Record ValidationError := {
  VE_Parameter : string;
  VE_Message : string;
  VE_Value : value
}.

Definition NewValidationError (parameter message : string) (v : value)
  : ValidationError :=
  {| VE_Parameter := parameter; VE_Message := message; VE_Value := v |}.

(** The [Error] method of [ValidationError]. *)
Definition ValidationError_Error (e : ValidationError) : string :=
  "validation error for parameter '" +:+ VE_Parameter e +:+ "': "
    +:+ VE_Message e.

(** ** Validation (interface.go) *)

Section Validation.
Context `{RT : GoRuntime}.

Fixpoint findParameter (parameters : list Param) (name : string)
  : option Param :=
  match parameters with
  | [] => None
  | param :: rest =>
      if String.eqb (Name param) name then Some param
      else findParameter rest name
  end.

Definition validateStringParameter (param : Param) (v : value)
  : option ValidationError :=
  match v with
  | VString str =>
      if (0 <? length (Enum param))%nat
         && negb (existsb (String.eqb str) (Enum param))
      then Some (NewValidationError (Name param)
                   ("value must be one of: " +:+ Join (Enum param) ", ") v)
      else if negb (String.eqb (Pattern param) "") then
        match MatchString (Pattern param) str with
        | None =>
            Some (NewValidationError (Name param)
                    ("invalid regex pattern: " +:+ Pattern param) v)
        | Some false =>
            Some (NewValidationError (Name param)
                    ("value does not match pattern: " +:+ Pattern param) v)
        | Some true => None
        end
      else None
  | _ => Some (NewValidationError (Name param) "expected string value" v)
  end.

(** The type switch of [validateNumberParameter]. *)
Definition number_of (v : value) : option float :=
  match v with
  | VFloat64 f => Some f
  | VFloat32 f => Some f
  | VInt z | VInt32 z | VInt64 z => Some (f64_of_Z z)
  | VString s => ParseFloat s
  | _ => None
  end.

Definition validateNumberParameter (param : Param) (v : value)
  : option ValidationError :=
  match number_of v with
  | None => Some (NewValidationError (Name param) "expected number value" v)
  | Some num =>
      let checkMaximum :=
        match Maximum param with
        | Some hi =>
            if PrimFloat.ltb hi num then
              Some (NewValidationError (Name param)
                      ("value must be <= " +:+ Sprint_g hi) v)
            else None
        | None => None
        end in
      match Minimum param with
      | Some lo =>
          if PrimFloat.ltb num lo then
            Some (NewValidationError (Name param)
                    ("value must be >= " +:+ Sprint_g lo) v)
          else checkMaximum
      | None => checkMaximum
      end
  end.

Definition validateBooleanParameter (param : Param) (v : value)
  : option ValidationError :=
  match v with
  | VBool _ => None
  | VString s =>
      let lower := ToLower s in
      if String.eqb lower "true" || String.eqb lower "false" then None
      else Some (NewValidationError (Name param) "expected boolean value" v)
  | _ => Some (NewValidationError (Name param) "expected boolean value" v)
  end.

Definition validateObjectParameter (param : Param) (v : value)
  : option ValidationError :=
  match v with
  | VMap _ => None
  | VStruct _ => None
  | _ => Some (NewValidationError (Name param) "expected object value" v)
  end.

Definition validateArrayParameter (param : Param) (v : value)
  : option ValidationError :=
  match v with
  | VSlice _ | VMaps _ | VArray _ => None
  | _ => Some (NewValidationError (Name param) "expected array value" v)
  end.

Definition validateParameter (param : Param) (v : value)
  : option ValidationError :=
  if is_nil v then
    if Required param then
      Some (NewValidationError (Name param)
              "required parameter cannot be nil" v)
    else None
  else if String.eqb (Type_ param) "string" then
    validateStringParameter param v
  else if String.eqb (Type_ param) "number" then
    validateNumberParameter param v
  else if String.eqb (Type_ param) "boolean" then
    validateBooleanParameter param v
  else if String.eqb (Type_ param) "object" then
    validateObjectParameter param v
  else if String.eqb (Type_ param) "array" then
    validateArrayParameter param v
  else
    Some (NewValidationError (Name param)
            ("unsupported parameter type: " +:+ Type_ param) v).

(** First loop of [ValidateInput]: required parameters, in schema order. *)
Fixpoint checkRequired (parameters : list Param) (input : gmap string value)
  : option ValidationError :=
  match parameters with
  | [] => None
  | param :: rest =>
      if Required param then
        match input !! Name param with
        | None =>
            Some (NewValidationError (Name param)
                    "required parameter missing" VNil)
        | Some _ => checkRequired rest input
        end
      else checkRequired rest input
  end.

(** Second loop of [ValidateInput], over the entries in the order the
    [range] yields them. *)
Fixpoint checkProvided (parameters : list Param)
    (entries : list (string * value)) : option ValidationError :=
  match entries with
  | [] => None
  | (key, v) :: rest =>
      match findParameter parameters key with
      | None => Some (NewValidationError key "unknown parameter" v)
      | Some param =>
          match validateParameter param v with
          | Some err => Some err
          | None => checkProvided parameters rest
          end
      end
  end.

Definition ValidateInput (schema : Schema) (input : gmap string value)
    (c : nat) : option ValidationError :=
  match checkRequired (Parameters schema) input with
  | Some err => Some err
  | None => checkProvided (Parameters schema) (MapRange c input)
  end.

(** ** Sanitizing (interface.go) *)

Definition convertValue (expectedType : string) (v : value)
  : value + string :=
  if is_nil v then inl VNil
  else if String.eqb expectedType "string" then
    match v with
    | VString str => inl (VString str)
    | _ => inl (VString (Sprint_v v))
    end
  else if String.eqb expectedType "number" then
    match v with
    | VFloat64 _ | VFloat32 _ | VInt _ | VInt32 _ | VInt64 _ => inl v
    | VString s =>
        match ParseFloat s with
        | Some parsed => inl (VFloat64 parsed)
        | None => inr "cannot convert to number"
        end
    | _ => inr "cannot convert to number"
    end
  else if String.eqb expectedType "boolean" then
    match v with
    | VBool _ => inl v
    | VString s =>
        let lower := ToLower s in
        if String.eqb lower "true" then inl (VBool true)
        else if String.eqb lower "false" then inl (VBool false)
        else inr "cannot convert to boolean"
    | _ => inr "cannot convert to boolean"
    end
  else inl v.

(** The loop of [SanitizeInput], threading the map built so far. *)
Fixpoint sanitizeLoop (parameters : list Param) (input : gmap string value)
    (sanitized : gmap string value) : gmap string value + ValidationError :=
  match parameters with
  | [] => inl sanitized
  | param :: rest =>
      match input !! Name param with
      | None =>
          if negb (is_nil (Default param)) then
            sanitizeLoop rest input (<[Name param := Default param]> sanitized)
          else sanitizeLoop rest input sanitized
      | Some v =>
          match convertValue (Type_ param) v with
          | inr msg => inr (NewValidationError (Name param) msg v)
          | inl converted =>
              sanitizeLoop rest input (<[Name param := converted]> sanitized)
          end
      end
  end.

Definition SanitizeInput (schema : Schema) (input : gmap string value)
  : gmap string value + ValidationError :=
  sanitizeLoop (Parameters schema) input ∅.

End Validation.

(** ** Results, execution contexts and the Tool interface (interface.go) *)

Record Result := {
  Success : bool;
  Data : value;
  Error : string;
  ErrorCode : string;
  Metadata : gmap string value;
  Duration : Z
}.

Definition with_Duration (r : Result) (d : Z) : Result :=
  {| Success := Success r; Data := Data r; Error := Error r;
     ErrorCode := ErrorCode r; Metadata := Metadata r; Duration := d |}.

Record ExecutionContext := {
  Ctx : Context;
  SessionID : string;
  AgentID : string;
  UserID : string;
  RequestID : string;
  Timeout : Z;
  EC_Metadata : gmap string value
}.

Record CallInfo := {
  ToolName : string;
  Arguments : gmap string value;
  CallID : string
}.

(** The [Tool] interface.  The number handed to [Validate] and [Execute]
    stands for the runtime's choices during the call; [Execute] may return
    a nil result, panic or never return. *)
Record Tool := {
  Tool_Name : string;
  Tool_Schema : Schema;
  Tool_Validate : gmap string value -> nat -> option ValidationError;
  Tool_Execute :
    ExecutionContext -> gmap string value -> nat -> behaviour (option Result);
  Tool_IsAvailable : Context -> bool
}.

(** [SuccessResult] and [ErrorResult] (base.go), without metadata. *)
Definition SuccessResult (data : value) : Result :=
  {| Success := true; Data := data; Error := ""; ErrorCode := "";
     Metadata := ∅; Duration := 0 |}.

Definition ErrorResult (errorCode message : string) : Result :=
  {| Success := false; Data := VNil; Error := message;
     ErrorCode := errorCode; Metadata := ∅; Duration := 0 |}.

(** ** BaseTool (base.go) *)

(** [executeFunc] is [None] for a nil function, as [NewHTTPBaseTool]
    passes. *)
Record BaseTool := {
  name : string;
  schema : Schema;
  executeFunc :
    option (ExecutionContext -> gmap string value -> behaviour (option Result));
  available : Context -> bool
}.

Definition NewBaseTool (name : string) (schema : Schema)
    (executeFunc :
       option (ExecutionContext -> gmap string value ->
               behaviour (option Result)))
  : BaseTool :=
  {| name := name; schema := schema; executeFunc := executeFunc;
     available := fun _ => true |}.

(** The panic of calling a nil function. *)
Definition nil_dereference : value :=
  VOther "runtime error: invalid memory address or nil pointer dereference".

Section Execution.
Context `{RT : GoRuntime}.

Definition BaseTool_Validate (bt : BaseTool) (input : gmap string value)
    (c : nat) : option ValidationError :=
  ValidateInput (schema bt) input c.

(** The goroutine of [BaseTool.Execute]: what it sends on [done], and
    when.  A recovered panic value that is nil sends nothing. *)
Definition execute_task (bt : BaseTool) (ctx : ExecutionContext)
    (sanitized : gmap string value) : option (Z * Result) :=
  let run :=
    match executeFunc bt with
    | Some f => f ctx sanitized
    | None => Finishes 0 (Panics nil_dereference)
    end in
  match run with
  | Finishes d (Panics r) =>
      if is_nil r then None
      else Some (d, {| Success := false; Data := VNil;
                       Error := "tool execution panicked";
                       ErrorCode := "PANIC";
                       Metadata := {[ "panic" := r ]};
                       Duration := d |})
  | Finishes d (Returns None) =>
      Some (d, {| Success := false; Data := VNil;
                  Error := "tool returned nil result";
                  ErrorCode := "NIL_RESULT";
                  Metadata := ∅;
                  Duration := d |})
  | Finishes d (Returns (Some result)) => Some (d, result)
  | Blocks => None
  end.

Definition timeout_result (d : Z) : Result :=
  {| Success := false; Data := VNil; Error := "execution timeout";
     ErrorCode := "TIMEOUT"; Metadata := ∅; Duration := d |}.

(** The final [select] of [BaseTool.Execute]: the result sent on [done]
    against [ctx.Context.Done()]. *)
Definition await (sent : option (Z * Result)) (ctx : Context) (c : nat)
  : behaviour (option Result) :=
  match sent, done_in ctx with
  | Some (d, result), None => Finishes d (Returns (Some result))
  | Some (d, result), Some t =>
      if (d <? t)%Z then Finishes d (Returns (Some result))
      else if (t <? d)%Z then Finishes t (Returns (Some (timeout_result t)))
      else if SelectFirst c then Finishes d (Returns (Some result))
      else Finishes t (Returns (Some (timeout_result t)))
  | None, Some t => Finishes t (Returns (Some (timeout_result t)))
  | None, None => Blocks
  end.

Definition BaseTool_Execute (bt : BaseTool) (ctx : ExecutionContext)
    (input : gmap string value) (c : nat) : behaviour (option Result) :=
  match SanitizeInput (schema bt) input with
  | inr err =>
      Finishes 0 (Returns (Some
        {| Success := false; Data := VNil;
           Error := ValidationError_Error err;
           ErrorCode := "VALIDATION_ERROR"; Metadata := ∅;
           Duration := 0 |}))
  | inl sanitized =>
      if is_done (Ctx ctx) then
        Finishes 0 (Returns (Some
          {| Success := false; Data := VNil;
             Error := "execution cancelled";
             ErrorCode := "CANCELLED"; Metadata := ∅; Duration := 0 |}))
      else await (execute_task bt ctx sanitized) (Ctx ctx) c
  end.

(** A [BaseTool] seen through the [Tool] interface. *)
Definition BaseTool_Tool (bt : BaseTool) : Tool :=
  {| Tool_Name := name bt;
     Tool_Schema := schema bt;
     Tool_Validate := BaseTool_Validate bt;
     Tool_Execute := BaseTool_Execute bt;
     Tool_IsAvailable := available bt |}.

(** ** Executor (interface.go) *)

Record Executor := {
  registry : gmap string Tool;
  timeout : Z
}.

Definition NewExecutor (registry : gmap string Tool) (timeout : Z)
  : Executor :=
  {| registry := registry; timeout := timeout |}.

(** The execution context [Executor.Execute] builds, with a deadline
    [timeout e] from now. *)
Definition newExecutionContext (e : Executor) (ctx : Context)
    (sessionID : string) (c : nat) : ExecutionContext :=
  {| Ctx := WithTimeout ctx (timeout e);
     SessionID := sessionID;
     AgentID := "default-agent";
     UserID := "";
     RequestID := generateRequestID c;
     Timeout := timeout e;
     EC_Metadata := ∅ |}.

(** [Executor.Execute].  Writing [result.Duration] through a nil result
    panics; a panic of the tool's [Execute] is not recovered here. *)
Definition Execute (e : Executor) (ctx : Context)
    (toolName sessionID : string) (input : gmap string value) (c : nat)
  : behaviour Result :=
  match registry e !! toolName with
  | None =>
      Finishes 0 (Returns
        {| Success := false; Data := VNil; Error := "tool not found";
           ErrorCode := "TOOL_NOT_FOUND"; Metadata := ∅; Duration := 0 |})
  | Some tool =>
      if negb (Tool_IsAvailable tool ctx) then
        Finishes 0 (Returns
          {| Success := false; Data := VNil; Error := "tool not available";
             ErrorCode := "TOOL_UNAVAILABLE"; Metadata := ∅; Duration := 0 |})
      else
        match Tool_Validate tool input c with
        | Some err =>
            Finishes 0 (Returns
              {| Success := false; Data := VNil;
                 Error := ValidationError_Error err;
                 ErrorCode := "VALIDATION_ERROR"; Metadata := ∅;
                 Duration := 0 |})
        | None =>
            let executionContext := newExecutionContext e ctx sessionID c in
            match Tool_Execute tool executionContext input c with
            | Finishes d (Returns (Some result)) =>
                Finishes d (Returns (with_Duration result d))
            | Finishes d (Returns None) => Finishes d (Panics nil_dereference)
            | Finishes d (Panics v) => Finishes d (Panics v)
            | Blocks => Blocks
            end
        end
  end.

(** The goroutines of [ExecuteMultiple], one per call, each with its own
    runtime choices [cs i]: what they send on [resultChan].  A panic in
    one of them, the earliest if there are several, ends the program; a
    call that never returns leaves the collecting loop waiting. *)
Fixpoint spawn (e : Executor) (ctx : Context) (sessionID : string)
    (calls : list CallInfo) (cs : nat -> nat) (i : nat)
  : behaviour (list (string * Result)) :=
  match calls with
  | [] => Finishes 0 (Returns [])
  | call :: rest =>
      match Execute e ctx (ToolName call) sessionID (Arguments call) (cs i),
            spawn e ctx sessionID rest cs (S i) with
      | Finishes d (Returns result), Finishes d' (Returns sent) =>
          Finishes (Z.max d d') (Returns ((CallID call, result) :: sent))
      | Finishes d (Panics v), Finishes d' (Panics v') =>
          if (d <=? d')%Z then Finishes d (Panics v)
          else Finishes d' (Panics v')
      | Finishes d (Panics v), Finishes d' (Returns _) =>
          Finishes d (Panics v)
      | Finishes d (Returns _), Finishes d' (Panics v) =>
          Finishes d' (Panics v)
      | Finishes d (Panics v), Blocks => Finishes d (Panics v)
      | Finishes d (Returns _), Blocks => Blocks
      | Blocks, Finishes d' (Panics v) => Finishes d' (Panics v)
      | Blocks, _ => Blocks
      end
  end.

(** The collecting loop: [results[res.callID] = res.result] for each
    value received, in order of arrival. *)
Definition collect (received : list (string * Result))
  : gmap string Result :=
  foldl (fun results res => <[res.1 := res.2]> results) ∅ received.

(** [Executor.ExecuteMultiple].  [c] chooses the order of arrival. *)
Definition ExecuteMultiple (e : Executor) (ctx : Context)
    (sessionID : string) (calls : list CallInfo) (cs : nat -> nat) (c : nat)
  : behaviour (gmap string Result) :=
  match spawn e ctx sessionID calls cs 0 with
  | Finishes d (Returns sent) =>
      Finishes d (Returns (collect (Arrival c sent)))
  | Finishes d (Panics v) => Finishes d (Panics v)
  | Blocks => Blocks
  end.

End Execution.

(** ** Registry (interface.go, errors.go) *)

(** The error values of errors.go, compared by identity. *)
Inductive error : Type :=
| ErrNilTool
| ErrEmptyToolName
| ErrToolAlreadyExists
| ErrToolNotFound
| ErrInvalidParameter
| ErrMissingParameter
| ErrParameterType
| ErrExecutionTimeout
| ErrExecutionFailed
| ErrNotAvailable
| ErrInvalidInput.

Definition error_Error (e : error) : string :=
  match e with
  | ErrNilTool => "tool cannot be nil"
  | ErrEmptyToolName => "tool name cannot be empty"
  | ErrToolAlreadyExists => "tool already exists"
  | ErrToolNotFound => "tool not found"
  | ErrInvalidParameter => "invalid parameter"
  | ErrMissingParameter => "missing required parameter"
  | ErrParameterType => "parameter type mismatch"
  | ErrExecutionTimeout => "tool execution timeout"
  | ErrExecutionFailed => "tool execution failed"
  | ErrNotAvailable => "tool not available"
  | ErrInvalidInput => "invalid input"
  end.

(** The [tools] map of a [Registry].  A method that updates the registry
    returns the new map beside its result. *)
Abbreviation Registry := (gmap string Tool).

Definition NewRegistry : Registry := ∅.

(** [Register]; [None] is a nil [Tool]. *)
Definition Register (r : Registry) (tool : option Tool)
  : Registry * option error :=
  match tool with
  | None => (r, Some ErrNilTool)
  | Some tool =>
      let name := Tool_Name tool in
      if String.eqb name "" then (r, Some ErrEmptyToolName)
      else
        match r !! name with
        | Some _ => (r, Some ErrToolAlreadyExists)
        | None => (<[name := tool]> r, None)
        end
  end.

Definition Get (r : Registry) (name : string) : option Tool := r !! name.

Definition Remove (r : Registry) (name : string) : Registry * bool :=
  match r !! name with
  | Some _ => (delete name r, true)
  | None => (r, false)
  end.

Definition Clear (r : Registry) : Registry := ∅.

Definition Count (r : Registry) : nat := size r.

Section RegistryRange.
Context `{RT : GoRuntime}.

(** [List], in the order [c] of the [range] over the map. *)
Definition List (r : Registry) (c : nat) : list string :=
  (MapRange c r).*1.

(** [GetSchemas(toolNames...)]: every schema when no name is given. *)
Definition GetSchemas (r : Registry) (toolNames : list string) (c : nat)
  : list Schema :=
  match toolNames with
  | [] => (fun entry => Tool_Schema entry.2) <$> MapRange c r
  | _ => omap (fun name => Tool_Schema <$> r !! name) toolNames
  end.

End RegistryRange.

(** Every tool is filed under the name it reports, which is not empty. *)
Definition filed_by_name (r : Registry) : Prop :=
  forall name tool, r !! name = Some tool ->
    Tool_Name tool = name /\ name <> "".

(** ** What the design document calls a schema-conforming value

    A value conforms to a parameter when its runtime shape matches the
    declared type (numbers also from numeric-looking strings, booleans
    also from "true"/"false" in any case), it is one of the enumerated
    strings when there are any, it matches the pattern when there is one,
    and it is not below the minimum nor above the maximum.  An optional
    parameter may also be bound to nil. *)

Section Conformance.
Context `{RT : GoRuntime}.

Inductive denotes_number : value -> float -> Prop :=
| dn_float64 f : denotes_number (VFloat64 f) f
| dn_float32 f : denotes_number (VFloat32 f) f
| dn_int z : denotes_number (VInt z) (f64_of_Z z)
| dn_int32 z : denotes_number (VInt32 z) (f64_of_Z z)
| dn_int64 z : denotes_number (VInt64 z) (f64_of_Z z)
| dn_string s f : ParseFloat s = Some f -> denotes_number (VString s) f.

Definition in_range (param : Param) (num : float) : Prop :=
  (forall lo, Minimum param = Some lo -> PrimFloat.ltb num lo = false) /\
  (forall hi, Maximum param = Some hi -> PrimFloat.ltb hi num = false).

Inductive conforms (param : Param) : value -> Prop :=
| conforms_nil :
    Required param = false -> conforms param VNil
| conforms_string s :
    Type_ param = "string" ->
    (Enum param = [] \/ s ∈ Enum param) ->
    (Pattern param = "" \/ MatchString (Pattern param) s = Some true) ->
    conforms param (VString s)
| conforms_number v num :
    Type_ param = "number" ->
    denotes_number v num -> in_range param num ->
    conforms param v
| conforms_bool b :
    Type_ param = "boolean" -> conforms param (VBool b)
| conforms_bool_string s :
    Type_ param = "boolean" ->
    (ToLower s = "true" \/ ToLower s = "false") ->
    conforms param (VString s)
| conforms_map m :
    Type_ param = "object" -> conforms param (VMap m)
| conforms_struct fields :
    Type_ param = "object" -> conforms param (VStruct fields)
| conforms_slice l :
    Type_ param = "array" -> conforms param (VSlice l)
| conforms_maps l :
    Type_ param = "array" -> conforms param (VMaps l)
| conforms_array l :
    Type_ param = "array" -> conforms param (VArray l).

End Conformance.

End Tools.

(** * Package context *)

Module ContextStrategy.

(** ** Messages, pointers and slices

    The strategies work on [[]*models.Message]: slices of pointers.  The
    store holds the message behind every pointer and the backing array
    behind every slice, so that sharing between the history handed in and
    the context handed back, and any write through either, is visible. *)

(** [models.Message], without its timestamps and its session
    relationship. *)
Record Message := {
  ID : string;
  SessionID : string;
  Role : string;
  Content : string;
  Metadata : gmap string value
}.

(** A pointer to a message: a cell of the store, or nil. *)
Abbreviation ptr := (option nat).

(** A slice header: backing array, offset in it, length and capacity. *)
Record slice := {
  s_arr : nat;
  s_off : nat;
  s_len : nat;
  s_cap : nat
}.

Record store := {
  cells : list Message;
  arrays : list (list ptr)
}.

(** A computation on the store; [None] is a panic (nil dereference,
    slice bounds out of range). *)
Definition M (A : Type) : Type := store -> option (A * store).

#[export] Instance M_ret : MRet M := fun A a h => Some (a, h).
#[export] Instance M_bind : MBind M := fun A B f m h =>
  match m h with
  | Some (a, h') => f a h'
  | None => None
  end.

(** [&models.Message{...}] *)
Definition new_message (m : Message) : M ptr := fun h =>
  Some (Some (length (cells h)),
        {| cells := (cells h ++ [m])%list; arrays := arrays h |}).

(** [*p] *)
Definition load (p : ptr) : M Message := fun h =>
  match p with
  | Some a => (fun m => (m, h)) <$> cells h !! a
  | None => None
  end.

(** The elements of a slice, as the store has them. *)
Definition view (h : store) (s : slice) : option (list ptr) :=
  if (s_len s =? 0)%nat then Some []
  else
    match arrays h !! s_arr s with
    | Some a =>
        if (s_off s + s_len s <=? length a)%nat
        then Some (take (s_len s) (drop (s_off s) a))
        else None
    | None => None
    end.

Definition elements (s : slice) : M (list ptr) := fun h =>
  (fun l => (l, h)) <$> view h s.

(** A slice literal [[]*models.Message{e1, ..., en}]. *)
Definition slice_literal (elems : list ptr) : M slice := fun h =>
  Some ({| s_arr := length (arrays h); s_off := 0;
           s_len := length elems; s_cap := length elems |},
        {| cells := cells h; arrays := (arrays h ++ [elems])%list |}).

(** [s[lo:hi]]; panics unless [0 <= lo <= hi <= cap(s)]. *)
Definition subslice (s : slice) (lo hi : Z) : M slice := fun h =>
  if ((0 <=? lo) && (lo <=? hi) && (hi <=? Z.of_nat (s_cap s)))%Z then
    Some ({| s_arr := s_arr s; s_off := s_off s + Z.to_nat lo;
             s_len := Z.to_nat hi - Z.to_nat lo;
             s_cap := s_cap s - Z.to_nat lo |}, h)
  else None.

(** Overwriting an array from position [i] on. *)
Definition write (a : list ptr) (i : nat) (elems : list ptr) : list ptr :=
  (take i a ++ elems ++ drop (i + length elems) a)%list.

Section Slices.
Context `{RT : GoRuntime}.

(** [append(s, elems...)]: in place when the capacity suffices, into a
    newly allocated array otherwise. *)
Definition append (s : slice) (elems : list ptr) : M slice := fun h =>
  match elems with
  | [] => Some (s, h)
  | _ =>
      if (s_len s + length elems <=? s_cap s)%nat then
        match arrays h !! s_arr s with
        | Some a =>
            Some ({| s_arr := s_arr s; s_off := s_off s;
                     s_len := s_len s + length elems; s_cap := s_cap s |},
                  {| cells := cells h;
                     arrays := <[s_arr s :=
                                   write a (s_off s + s_len s) elems]>
                                 (arrays h) |})
        | None => None
        end
      else
        match view h s with
        | Some old =>
            let needed := (s_len s + length elems)%nat in
            let newcap := growcap (s_cap s) needed in
            Some ({| s_arr := length (arrays h); s_off := 0;
                     s_len := needed; s_cap := newcap |},
                  {| cells := cells h;
                     arrays :=
                       (arrays h ++
                        [old ++ elems ++ replicate (newcap - needed) None])
                       %list |})
        | None => None
        end
  end.

End Slices.

(** The messages a slice points to. *)
Fixpoint load_all (ps : list ptr) : M (list Message) :=
  match ps with
  | [] => mret []
  | p :: rest =>
      m ← load p;
      ms ← load_all rest;
      mret (m :: ms)
  end.

(** What a list of pointers points to in a store, and the messages of a
    slice. *)
Fixpoint deref (h : store) (ps : list ptr) : option (list Message) :=
  match ps with
  | [] => Some []
  | p :: rest =>
      match p ≫= (fun a => cells h !! a), deref h rest with
      | Some m, Some ms => Some (m :: ms)
      | _, _ => None
      end
  end.

Definition contents (h : store) (s : slice) : option (list Message) :=
  view h s ≫= deref h.

(** The messages and the error of a [BuildContext] call, read in the
    store it leaves. *)
Definition run (call : M (slice * option string)) (h : store)
  : option (list Message * option string) :=
  match call h with
  | Some ((s, err), h') => (fun l => (l, err)) <$> contents h' s
  | None => None
  end.

(** Every cell and every array of [h0] is in [h], unchanged. *)
Definition extends (h0 h : store) : Prop :=
  cells h0 `prefix_of` cells h /\ arrays h0 `prefix_of` arrays h.

(** ** last_n.go *)

Definition buildSystemMessage (systemPrompt agentPrompt : string) : string :=
  if String.eqb systemPrompt "" && String.eqb agentPrompt "" then
    "You are a helpful AI assistant."
  else if String.eqb systemPrompt "" then agentPrompt
  else if String.eqb agentPrompt "" then systemPrompt
  else systemPrompt +:+ String (ascii_of_nat 10) (String (ascii_of_nat 10) "")
         +:+ agentPrompt.

(** Reading an integer setting: an [int], or a [float64] truncated. *)
Definition config_int (config : gmap string value) (key : string)
    (default : Z) : Z :=
  match config !! key with
  | Some (VInt z) => z
  | Some (VFloat64 f) => Z_of_f64 f
  | _ => default
  end.

Definition system_message (systemPrompt agentPrompt : string) : Message :=
  {| ID := ""; SessionID := ""; Role := "system";
     Content := buildSystemMessage systemPrompt agentPrompt;
     Metadata := ∅ |}.

Section Strategies.
Context `{RT : GoRuntime}.

(** What [BuildContext] returns on a bad configuration: an empty slice
    and an error. *)
Definition fail (msg : string) : M (slice * option string) :=
  s ← slice_literal [];
  mret (s, Some msg).

Definition LastN_BuildContext (systemPrompt agentPrompt : string)
    (messages : slice) (config : gmap string value)
  : M (slice * option string) :=
  let count := config_int config "count" 10 in
  if (count <=? 0)%Z then fail "count must be positive"
  else
    sys ← new_message (system_message systemPrompt agentPrompt);
    contextMessages ← slice_literal [sys];
    let startIndex :=
      if (count <? Z.of_nat (s_len messages))%Z
      then (Z.of_nat (s_len messages) - count)%Z else 0%Z in
    tail ← subslice messages startIndex (Z.of_nat (s_len messages));
    elems ← elements tail;
    contextMessages ← append contextMessages elems;
    mret (contextMessages, None).

(** ** sliding_window.go *)

Definition SlidingWindow_BuildContext (systemPrompt agentPrompt : string)
    (messages : slice) (config : gmap string value)
  : M (slice * option string) :=
  let windowSize := config_int config "window_size" 5 in
  let overlap := config_int config "overlap" 2 in
  if (windowSize <=? 0)%Z then fail "window_size must be positive"
  else if ((overlap <? 0) || (windowSize <=? overlap))%Z then
    fail "overlap must be between 0 and window_size-1"
  else
    sys ← new_message (system_message systemPrompt agentPrompt);
    contextMessages ← slice_literal [sys];
    if (Z.of_nat (s_len messages) <=? windowSize)%Z then
      elems ← elements messages;
      contextMessages ← append contextMessages elems;
      mret (contextMessages, None)
    else
      let start := (Z.of_nat (s_len messages) - windowSize)%Z in
      let '(start, windowSize) :=
        if (overlap <? start)%Z
        then ((start - overlap)%Z, (windowSize + overlap)%Z)
        else (0%Z, Z.of_nat (s_len messages)) in
      window ← subslice messages start (start + windowSize);
      elems ← elements window;
      contextMessages ← append contextMessages elems;
      mret (contextMessages, None).

(** ** summarize.go *)

Definition topicWords : gmap string bool :=
  <["code" := false]> (<["programming" := false]> (<["bug" := false]>
  (<["error" := false]> (<["help" := false]> (<["question" := false]>
  (<["problem" := false]> (<["solution" := false]> ∅))))))).

(** The first loop of [extractTopics] for one message: the topics found
    in its content are marked, visiting the map in the order [c]. *)
Definition markTopics (words : gmap string bool) (msg : Message) (c : nat)
  : gmap string bool :=
  let content := ToLower (Content msg) in
  foldl (fun words topic =>
           if Contains content topic then <[topic := true]> words
           else words)
        words (MapRange c words).*1.

Fixpoint markAll (words : gmap string bool) (messages : list Message)
    (rnd : nat -> nat) (i : nat) : gmap string bool :=
  match messages with
  | [] => words
  | msg :: rest => markAll (markTopics words msg (rnd i)) rest rnd (S i)
  end.

(** [extractTopics]; [rnd i] is the runtime's choice at the [i]-th
    [range] over the map the call executes. *)
Definition extractTopics (messages : list Message) (rnd : nat -> nat)
  : list string :=
  let words := markAll topicWords messages rnd 0 in
  (filter (fun entry => entry.2 = true)
     (MapRange (rnd (length messages)) words)).*1.

Definition count_role (role : string) (messages : list Message) : nat :=
  length (filter (fun msg => Role msg = role) messages).

Definition createSimpleSummary (messages : list Message) (rnd : nat -> nat)
  : string :=
  match messages with
  | [] => ""
  | _ =>
      let userMessages := count_role "user" messages in
      let assistantMessages := count_role "assistant" messages in
      let topics := extractTopics messages rnd in
      "The conversation included " +:+ Sprint_d (Z.of_nat userMessages)
        +:+ " user messages and " +:+ Sprint_d (Z.of_nat assistantMessages)
        +:+ " assistant responses"
        +:+ (if (0 <? length topics)%nat
             then ". Topics discussed: " +:+ Join topics ", " else "")
        +:+ "."
  end.

Definition summary_message (summary : string) : Message :=
  {| ID := ""; SessionID := ""; Role := "system";
     Content := "Previous conversation summary: " +:+ summary;
     Metadata := ∅ |}.

Definition Summarize_BuildContext (systemPrompt agentPrompt : string)
    (messages : slice) (config : gmap string value) (rnd : nat -> nat)
  : M (slice * option string) :=
  let maxContextLength := config_int config "max_context_length" 20 in
  let keepRecent := config_int config "keep_recent" 5 in
  if ((maxContextLength <=? 0) || (keepRecent <=? 0))%Z then
    fail "max_context_length and keep_recent must be positive"
  else
    sys ← new_message (system_message systemPrompt agentPrompt);
    contextMessages ← slice_literal [sys];
    if (Z.of_nat (s_len messages) <=? maxContextLength)%Z then
      elems ← elements messages;
      contextMessages ← append contextMessages elems;
      mret (contextMessages, None)
    else
      let messagesToSummarize := (Z.of_nat (s_len messages) - keepRecent)%Z in
      if (messagesToSummarize <=? 0)%Z then
        elems ← elements messages;
        contextMessages ← append contextMessages elems;
        mret (contextMessages, None)
      else
        oldMessages ← subslice messages 0 messagesToSummarize;
        recentMessages ←
          subslice messages messagesToSummarize (Z.of_nat (s_len messages));
        old ← elements oldMessages;
        oldValues ← load_all old;
        let summary := createSimpleSummary oldValues rnd in
        contextMessages ←
          (if negb (String.eqb summary "") then
             p ← new_message (summary_message summary);
             append contextMessages [p]
           else mret contextMessages);
        recent ← elements recentMessages;
        contextMessages ← append contextMessages recent;
        mret (contextMessages, None).

(** ** strategy.go *)

(** The [ContextStrategy] interface.  [BuildContext] takes the runtime's
    choices for the maps it ranges over. *)
Record Strategy := {
  Strategy_Name : string;
  Strategy_DefaultConfig : gmap string value;
  Strategy_BuildContext :
    string -> string -> slice -> gmap string value -> (nat -> nat) ->
    M (slice * option string)
}.

Definition LastNStrategy : Strategy :=
  {| Strategy_Name := "last_n";
     Strategy_DefaultConfig := {[ "count" := VInt 10 ]};
     Strategy_BuildContext := fun systemPrompt agentPrompt messages config _ =>
       LastN_BuildContext systemPrompt agentPrompt messages config |}.

Definition SlidingWindowStrategy : Strategy :=
  {| Strategy_Name := "sliding_window";
     Strategy_DefaultConfig :=
       <["window_size" := VInt 5]> (<["overlap" := VInt 2]> ∅);
     Strategy_BuildContext := fun systemPrompt agentPrompt messages config _ =>
       SlidingWindow_BuildContext systemPrompt agentPrompt messages config |}.

Definition SummarizeStrategy : Strategy :=
  {| Strategy_Name := "summarize";
     Strategy_DefaultConfig :=
       <["max_context_length" := VInt 20]>
       (<["keep_recent" := VInt 5]>
       (<["summary_model" := VString "gpt-3.5-turbo"]> ∅));
     Strategy_BuildContext := Summarize_BuildContext |}.

(** The [strategies] map of a [StrategyRegistry]. *)
Abbreviation StrategyRegistry := (gmap string Strategy).

(** [Register]: a strategy of the same name is replaced. *)
Definition Register (r : StrategyRegistry) (strategy : Strategy)
  : StrategyRegistry :=
  <[Strategy_Name strategy := strategy]> r.

Definition NewStrategyRegistry : StrategyRegistry :=
  Register (Register (Register ∅ LastNStrategy) SlidingWindowStrategy)
    SummarizeStrategy.

Definition Get (r : StrategyRegistry) (name : string) : option Strategy :=
  r !! name.

Definition List (r : StrategyRegistry) (c : nat) : list string :=
  (MapRange c r).*1.

End Strategies.

(** ** Ownership of the context slice *)

(** A slice the call owns: well-formed in [h] and backed by an array
    allocated after [h0]. *)
Definition fresh (h0 h : store) (s : slice) : Prop :=
  extends h0 h /\ length (arrays h0) <= s_arr s /\
  exists a, arrays h !! s_arr s = Some a /\
    s_off s + s_cap s <= length a /\ s_len s <= s_cap s.

(** The store after the system message and the context slice holding it
    have been allocated. *)
Definition with_system (h : store) (m : Message) : store :=
  {| cells := cells h ++ [m];
     arrays := arrays h ++ [[Some (length (cells h))]] |}.

Definition system_slice (h : store) : slice :=
  {| s_arr := length (arrays h); s_off := 0; s_len := 1; s_cap := 1 |}.

(** ** What the design document says the strategies return

    On the messages of the history, without the store. *)

Section StrategySpecs.
Context `{RT : GoRuntime}.

(** The last [n] elements of a list, all of it when it is shorter. *)
Definition last_n {A : Type} (n : Z) (l : list A) : list A :=
  drop (length l - Z.to_nat n) l.

Definition LastN_spec (systemPrompt agentPrompt : string)
    (history : list Message) (config : gmap string value)
  : list Message * option string :=
  let count := config_int config "count" 10 in
  if (count <=? 0)%Z then ([], Some "count must be positive")
  else (system_message systemPrompt agentPrompt :: last_n count history, None).

Definition SlidingWindow_spec (systemPrompt agentPrompt : string)
    (history : list Message) (config : gmap string value)
  : list Message * option string :=
  let windowSize := config_int config "window_size" 5 in
  let overlap := config_int config "overlap" 2 in
  if (windowSize <=? 0)%Z then ([], Some "window_size must be positive")
  else if ((overlap <? 0) || (windowSize <=? overlap))%Z then
    ([], Some "overlap must be between 0 and window_size-1")
  else (system_message systemPrompt agentPrompt
          :: last_n (windowSize + overlap) history, None).

Definition Summarize_spec (systemPrompt agentPrompt : string)
    (history : list Message) (config : gmap string value) (rnd : nat -> nat)
  : list Message * option string :=
  let maxContextLength := config_int config "max_context_length" 20 in
  let keepRecent := config_int config "keep_recent" 5 in
  if ((maxContextLength <=? 0) || (keepRecent <=? 0))%Z then
    ([], Some "max_context_length and keep_recent must be positive")
  else if (Z.of_nat (length history) <=? maxContextLength)%Z
          || (Z.of_nat (length history) <=? keepRecent)%Z then
    (system_message systemPrompt agentPrompt :: history, None)
  else
    let old := take (length history - Z.to_nat keepRecent) history in
    (system_message systemPrompt agentPrompt
       :: summary_message (createSimpleSummary old rnd)
       :: last_n keepRecent history, None).

End StrategySpecs.

(** ** What every context has in common

    With an error the context is empty.  Without one it starts with the
    system message, whose content is not empty; what follows, after a
    summary if there is one, is a suffix of the history, so that the
    context ends with the latest message of a history that has one. *)
Definition well_shaped (sp ap : string) (hist : list Message)
    (out : list Message * option string) : Prop :=
  match out.2 with
  | Some _ => out.1 = []
  | None =>
      exists rest kept,
        out.1 = system_message sp ap :: rest /\
        Content (system_message sp ap) <> "" /\
        (forall m, last hist = Some m -> last out.1 = Some m) /\
        kept `suffix_of` hist /\
        (rest = kept \/
         exists summary, rest = summary :: kept /\ Role summary = "system")
  end.

End ContextStrategy.

(** * Package services: tool calls inside a conversation turn *)

Module Services.
Import Tools.

Abbreviation Message := ContextStrategy.Message.

(** ** Models (models/session.go, llm) *)

(** [models.LLMToolCall], with its [Function] fields inlined. *)
Record LLMToolCall := {
  tc_ID : string;
  tc_Type : string;
  tc_Name : string;
  tc_Arguments : string        (* a JSON string *)
}.

Record ToolCallResult := {
  r_ID : string;
  r_ToolName : string;
  r_Success : bool;
  r_Result : value;
  r_Error : string;
  r_Duration : Z                (* milliseconds *)
}.

Record ToolMessage := {
  tm_Role : string;
  tm_Content : string;
  tm_ToolCallID : string
}.

(** [models.ToolDefinition]; it carries the tool's schema where the code
    has its JSON-Schema rendering. *)
Record ToolDefinition := {
  td_Type : string;
  td_Name : string;
  td_Description : string;
  td_Parameters : Schema
}.

Record ChatMessage := { cm_Role : string; cm_Content : string }.

Record Usage := {
  PromptTokens : Z;
  CompletionTokens : Z;
  TotalTokens : Z
}.

(** [llm.ChatRequest]; [req_Tools] and [req_ToolChoice] are the entries
    "tools" and "tool_choice" of its options. *)
Record ChatRequest := {
  req_Model : string;
  req_Messages : list ChatMessage;
  req_Temperature : float;
  req_MaxTokens : Z;
  req_Stream : bool;
  req_Options : gmap string value;
  req_Tools : list ToolDefinition;
  req_ToolChoice : string
}.

Record ChatResponse := {
  resp_Content : string;
  resp_Model : string;
  resp_Usage : option Usage;
  resp_Metadata : gmap string value;
  resp_FinishReason : string
}.

Record Agent := {
  ag_ID : string;
  ag_Provider : string;
  ag_Model : string;
  ag_SystemPrompt : string;
  ag_Temperature : float;
  ag_MaxTokens : Z;
  ag_Config : gmap string value
}.

Record ChatSession := {
  cs_ID : string;
  cs_AgentID : string;
  cs_ContextStrategy : string;
  cs_ContextConfig : gmap string value;
  cs_Agent : Agent
}.

Record EnhancedChatRequest := {
  ecr_Message : string;
  ecr_Tools : list string;
  ecr_ToolChoice : string;
  ecr_Stream : bool;
  ecr_MaxTokens : option Z;
  ecr_Temperature : option float
}.

Record EnhancedChatResponse := {
  UserMessageID : string;
  AssistantMessageID : string;
  Response : string;
  ToolCalls : list ToolCallResult;
  ResponseMetadata : gmap string value;
  FinishReason : string
}.

(** [models.ToolTestRequest]; [timeout_seconds] is optional. *)
Record ToolTestRequest := {
  ttr_ToolName : string;
  ttr_Arguments : gmap string value;
  ttr_Timeout : option Z
}.

(** [models.ValidationError], an entry of a test response. *)
Record ModelsValidationError := {
  mve_Parameter : string;
  mve_Message : string;
  mve_Value : string
}.

Record ToolTestResponse := {
  tt_Success : bool;
  tt_Result : value;
  tt_Error : string;
  tt_Duration : Z;              (* milliseconds *)
  tt_Validation : list ModelsValidationError
}.

(** ** Collaborators

    The ports the chat service is built on.  The number handed to a
    collaborator counts its earlier calls in the turn, or is the runtime's
    choice for the call. *)

(** [context.ContextStrategy], on the messages of the history. *)
Record Strategy := {
  BuildContext :
    string -> string -> list Message -> gmap string value -> nat ->
    list Message * option string
}.

(** [llm.Provider] *)
Record Provider := {
  IsAvailable : nat -> bool;
  Chat : nat -> ChatRequest -> ChatResponse + string
}.

Record World := {
  (** [repo.Session().GetByID] *)
  w_session : string -> option ChatSession + string;
  (** [repo.Message().ListBySessionID(ctx, id, 1000, 0)] *)
  w_history : string -> list Message + string;
  (** the error of the n-th [repo.Message().Create], if it fails *)
  w_create : nat -> option string;
  (** the n-th [uuid.New().String()] *)
  w_uuid : nat -> string;
  (** the context strategy registry *)
  w_strategies : gmap string Strategy;
  (** the LLM provider registry *)
  w_providers : gmap string Provider;
  (** [PromptService.BuildSystemPrompt] *)
  w_BuildSystemPrompt : string -> list string -> string;
  (** [json.Unmarshal] into a [[]models.LLMToolCall] *)
  w_unmarshal_calls : string -> option (list LLMToolCall);
  (** the tool registry of the tool service *)
  w_tools : gmap string Tool;
  (** the caller's context *)
  w_ctx : Context
}.

(** What a turn has done so far. *)
Record State := {
  conversationMessages : list Message;
  allToolCalls : list ToolCallResult;
  stored : list Message;        (* messages persisted, in order *)
  creates : nat;                (* calls of Create *)
  uuids : nat;                  (* identifiers drawn *)
  chats : nat;                  (* calls of the provider's Chat *)
  executions : nat              (* tool calls executed *)
}.

Definition with_conversation (st : State) (l : list Message) : State :=
  {| conversationMessages := l; allToolCalls := allToolCalls st;
     stored := stored st; creates := creates st; uuids := uuids st;
     chats := chats st; executions := executions st |}.

(** The provider was called. *)
Definition after_chat (st : State) : State :=
  {| conversationMessages := conversationMessages st;
     allToolCalls := allToolCalls st; stored := stored st;
     creates := creates st; uuids := uuids st;
     chats := S (chats st); executions := executions st |}.

(** [drawn] identifiers were drawn. *)
Definition after_parse (st : State) (drawn : nat) : State :=
  {| conversationMessages := conversationMessages st;
     allToolCalls := allToolCalls st; stored := stored st;
     creates := creates st; uuids := uuids st + drawn;
     chats := chats st; executions := executions st |}.

(** The tool calls were executed, with these results. *)
Definition after_tools (st : State) (toolResults : list ToolCallResult)
  : State :=
  {| conversationMessages := conversationMessages st;
     allToolCalls := allToolCalls st ++ toolResults; stored := stored st;
     creates := creates st; uuids := uuids st;
     chats := chats st;
     executions := executions st + length toolResults |}.

(** How a step of a turn ends: with a value, with an error, or with a
    tool that panicked or never returned. *)
Inductive result (A : Type) : Type :=
| Ok (a : A)
| Err (msg : string)
| Crashed (v : value)
| Hung.
Arguments Ok {A} a.
Arguments Err {A} msg.
Arguments Crashed {A} v.
Arguments Hung {A}.

(** The error of a turn that used up its iterations, which the design
    document calls MAX_ITERATIONS_EXCEEDED. *)
Definition MAX_ITERATIONS_EXCEEDED : string :=
  "exceeded maximum tool call iterations".

Section ChatService.
Context `{RT : GoRuntime}.
Variable w : World.

(** [repo.Message().Create]: the hook draws an identifier for a message
    without one; the message is stored unless the call fails. *)
Definition Create (st : State) (m : Message) : (Message + string) * State :=
  let '(m, drawn) :=
    if String.eqb (ContextStrategy.ID m) "" then
      ({| ContextStrategy.ID := w_uuid w (uuids st);
          ContextStrategy.SessionID := ContextStrategy.SessionID m;
          ContextStrategy.Role := ContextStrategy.Role m;
          ContextStrategy.Content := ContextStrategy.Content m;
          ContextStrategy.Metadata := ContextStrategy.Metadata m |}, 1)
    else (m, 0) in
  match w_create w (creates st) with
  | Some err =>
      (inr err,
       {| conversationMessages := conversationMessages st;
          allToolCalls := allToolCalls st; stored := stored st;
          creates := S (creates st); uuids := uuids st + drawn;
          chats := chats st; executions := executions st |})
  | None =>
      (inl m,
       {| conversationMessages := conversationMessages st;
          allToolCalls := allToolCalls st; stored := stored st ++ [m];
          creates := S (creates st); uuids := uuids st + drawn;
          chats := chats st; executions := executions st |})
  end.

(** ** tool_service.go *)

Definition getAgentIDFromSession (sessionID : string) : string + string :=
  match w_session w sessionID with
  | inr err => inr ("failed to get session: " +:+ err)
  | inl None => inr "session not found"
  | inl (Some session) => inl (cs_AgentID session)
  end.

Definition second : Z := 1000000000.

Definition executeToolWithContext (toolName sessionID agentID : string)
    (arguments : gmap string value) (c : nat) : behaviour (option Result) :=
  match w_tools w !! toolName with
  | None =>
      Finishes 0 (Returns (Some (ErrorResult "TOOL_NOT_FOUND"
        ("Tool '" +:+ toolName +:+ "' not found"))))
  | Some tool =>
      if negb (Tool_IsAvailable tool (w_ctx w)) then
        Finishes 0 (Returns (Some (ErrorResult "TOOL_UNAVAILABLE"
          ("Tool '" +:+ toolName +:+ "' is not available"))))
      else
        let execCtx :=
          {| Ctx := w_ctx w;
             SessionID := sessionID;
             AgentID := agentID;
             UserID := "";
             RequestID := "req-" +:+ sessionID +:+ "-" +:+ toolName;
             Timeout := 60 * second;
             EC_Metadata := ∅ |} in
        Tool_Execute tool execCtx arguments c
  end.

Definition failedCall (toolCall : LLMToolCall) (message : string)
  : ToolCallResult :=
  {| r_ID := tc_ID toolCall; r_ToolName := tc_Name toolCall;
     r_Success := false; r_Result := VNil; r_Error := message;
     r_Duration := 0 |}.

Definition executeSingleToolCall (sessionID : string) (toolCall : LLMToolCall)
    (c : nat) : behaviour ToolCallResult :=
  match json_Unmarshal (tc_Arguments toolCall) with
  | inr err =>
      Finishes 0 (Returns
        (failedCall toolCall ("Invalid tool arguments: " +:+ err)))
  | inl arguments =>
      match getAgentIDFromSession sessionID with
      | inr err =>
          Finishes 0 (Returns
            (failedCall toolCall ("Failed to get agent ID: " +:+ err)))
      | inl agentID =>
          match executeToolWithContext (tc_Name toolCall) sessionID agentID
                  arguments c with
          | Finishes d (Returns (Some result)) =>
              Finishes d (Returns
                {| r_ID := tc_ID toolCall; r_ToolName := tc_Name toolCall;
                   r_Success := Success result; r_Result := Data result;
                   r_Error := Error result;
                   r_Duration := (d `quot` 1000000)%Z |})
          | Finishes d (Returns None) => Finishes d (Panics nil_dereference)
          | Finishes d (Panics v) => Finishes d (Panics v)
          | Blocks => Blocks
          end
      end
  end.

(** [ExecuteToolCalls]: one call after the other; its error is always
    nil.  [c] is the runtime's choice for the first call. *)
Fixpoint ExecuteToolCalls (sessionID : string) (toolCalls : list LLMToolCall)
    (c : nat) : behaviour (list ToolCallResult) :=
  match toolCalls with
  | [] => Finishes 0 (Returns [])
  | toolCall :: rest =>
      match executeSingleToolCall sessionID toolCall c with
      | Finishes d (Returns result) =>
          match ExecuteToolCalls sessionID rest (S c) with
          | Finishes d' (Returns results) =>
              Finishes (d + d') (Returns (result :: results))
          | Finishes d' (Panics v) => Finishes (d + d') (Panics v)
          | Blocks => Blocks
          end
      | Finishes d (Panics v) => Finishes d (Panics v)
      | Blocks => Blocks
      end
  end.

Definition GetToolDefinitions (toolNames : list string)
  : list ToolDefinition :=
  let toolNames :=
    match toolNames with
    | [] => (map_to_list (w_tools w)).*1
    | _ => toolNames
    end in
  omap (fun name =>
          match w_tools w !! name with
          | Some tool =>
              if Tool_IsAvailable tool (w_ctx w) then
                Some {| td_Type := "function";
                        td_Name := SchemaName (Tool_Schema tool);
                        td_Description :=
                          SchemaDescription (Tool_Schema tool);
                        td_Parameters := Tool_Schema tool |}
              else None
          | None => None
          end) toolNames.

Definition CreateToolResultMessages (results : list ToolCallResult)
  : list ToolMessage :=
  (fun result =>
     let content :=
       if r_Success result
       then VMap [("result", r_Result result); ("success", VBool true)]
       else VMap [("error", VString (r_Error result));
                  ("success", VBool false)] in
     {| tm_Role := "tool";
        tm_Content := default "" (json_Marshal content);
        tm_ToolCallID := r_ID result |}) <$> results.

(** ** The chat service *)

Definition ConvertMessages (messages : list Message) : list ChatMessage :=
  (fun msg => {| cm_Role := ContextStrategy.Role msg;
                 cm_Content := ContextStrategy.Content msg |}) <$> messages.

Definition lookup_field (fields : list (string * value)) (key : string)
  : option value :=
  snd <$> find (fun field => String.eqb field.1 key) fields.

(** The first branch of [parseToolCallsFromResponse]: one call for every
    entry that has a "function" map, with identifiers drawn from [ids]
    on. *)
Fixpoint parseOllama (toolCallsArray : list (list (string * value)))
    (ids : nat) : list LLMToolCall :=
  match toolCallsArray with
  | [] => []
  | tcData :: rest =>
      match lookup_field tcData "function" with
      | Some (VMap function) =>
          let name :=
            match lookup_field function "name" with
            | Some (VString name) => name
            | _ => ""
            end in
          let arguments :=
            match lookup_field function "arguments" with
            | Some (VMap arguments) => VMap arguments
            | _ => VNil
            end in
          match json_Marshal arguments with
          | None => parseOllama rest ids
          | Some argumentsJSON =>
              {| tc_ID := w_uuid w ids; tc_Type := ""; tc_Name := name;
                 tc_Arguments := argumentsJSON |}
                :: parseOllama rest (S ids)
          end
      | _ => parseOllama rest ids
      end
  end.

(** [parseToolCallsFromResponse]: the calls, and how many identifiers
    were drawn for them. *)
Definition parseToolCallsFromResponse (content : string)
    (metadata : gmap string value) (ids : nat) : list LLMToolCall * nat :=
  match metadata !! "tool_calls" with
  | Some (VMaps toolCallsArray) =>
      let toolCalls := parseOllama toolCallsArray ids in
      (toolCalls, length toolCalls)
  | Some (VString toolCallsJSON) =>
      match w_unmarshal_calls w toolCallsJSON with
      | Some toolCalls => (toolCalls, 0)
      | None => ([], 0)
      end
  | _ => ([], 0)
  end.

Definition usage_value (u : Usage) : value :=
  VMap [("completion_tokens", VInt (CompletionTokens u));
        ("prompt_tokens", VInt (PromptTokens u));
        ("total_tokens", VInt (TotalTokens u))].

Definition with_usage (llmResponse : ChatResponse)
    (metadata : gmap string value) : gmap string value :=
  match resp_Usage llmResponse with
  | Some u => <["usage" := usage_value u]> metadata
  | None => metadata
  end.

Definition assistant_message (sessionID : string) (llmResponse : ChatResponse)
    (metadata : gmap string value) : Message :=
  {| ContextStrategy.ID := "";
     ContextStrategy.SessionID := sessionID;
     ContextStrategy.Role := "assistant";
     ContextStrategy.Content := resp_Content llmResponse;
     ContextStrategy.Metadata := resp_Metadata llmResponse ∪ metadata |}.

Definition saveAssistantMessage (st : State) (sessionID : string)
    (llmResponse : ChatResponse) (contextLength : nat) (strategy : string)
    (toolsAvailable : bool) : (Message + string) * State :=
  let metadata : gmap string value :=
    with_usage llmResponse
      (<["provider" := VString (resp_Model llmResponse)]>
       (<["model" := VString (resp_Model llmResponse)]>
       (<["context_length" := VInt (Z.of_nat contextLength)]>
       (<["strategy" := VString strategy]>
       (<["tools_available" := VBool toolsAvailable]>
       (<["finish_reason" := VString (resp_FinishReason llmResponse)]>
        ∅)))))) in
  Create st (assistant_message sessionID llmResponse metadata).

Definition tool_call_details (toolCalls : list LLMToolCall)
    (toolResults : list ToolCallResult) : list (list (string * value)) :=
  imap (fun i call =>
          [("id", VString (tc_ID call));
           ("tool_name", VString (tc_Name call))] ++
          match toolResults !! i with
          | Some result =>
              [("success", VBool (r_Success result));
               ("duration_ms", VInt64 (r_Duration result))]
          | None => []
          end) toolCalls.

Definition saveAssistantMessageWithToolCalls (st : State) (sessionID : string)
    (llmResponse : ChatResponse) (toolCalls : list LLMToolCall)
    (toolResults : list ToolCallResult) (contextLength : nat)
    (strategy : string) : (Message + string) * State :=
  let metadata : gmap string value :=
    <["tool_call_details" :=
        VMaps (tool_call_details toolCalls toolResults)]>
    (with_usage llmResponse
      (<["provider" := VString (resp_Model llmResponse)]>
       (<["model" := VString (resp_Model llmResponse)]>
       (<["context_length" := VInt (Z.of_nat contextLength)]>
       (<["strategy" := VString strategy]>
       (<["tool_calls" := VInt (Z.of_nat (length toolCalls))]>
       (<["finish_reason" := VString "tool_calls"]> ∅))))))) in
  Create st (assistant_message sessionID llmResponse metadata).

Definition getFinishReason (llmResponse : ChatResponse) (hasToolCalls : bool)
  : string :=
  if hasToolCalls then "tool_calls"
  else if negb (String.eqb (resp_FinishReason llmResponse) "")
  then resp_FinishReason llmResponse
  else "stop".

Definition tool_message (sessionID : string) (toolMsg : ToolMessage)
  : Message :=
  {| ContextStrategy.ID := "";
     ContextStrategy.SessionID := sessionID;
     ContextStrategy.Role := "tool";
     ContextStrategy.Content := tm_Content toolMsg;
     ContextStrategy.Metadata :=
       <["tool_call_id" := VString (tm_ToolCallID toolMsg)]>
       (<["tool_result" := VBool true]> ∅) |}.

(** The last loop of an iteration: every tool message is saved, and joins
    the conversation when it was. *)
Fixpoint appendToolMessages (st : State) (sessionID : string)
    (toolMessages : list ToolMessage) : State :=
  match toolMessages with
  | [] => st
  | toolMsg :: rest =>
      match Create st (tool_message sessionID toolMsg) with
      | (inr _, st) => appendToolMessages st sessionID rest
      | (inl toolMessage, st) =>
          appendToolMessages
            (with_conversation st (conversationMessages st ++ [toolMessage]))
            sessionID rest
      end
  end.

(** How one iteration of the loop ends. *)
Inductive step : Type :=
| Continue (st : State)
| Return (r : result EnhancedChatResponse) (st : State).

(** The body of the loop of [processWithToolCalls]. *)
Definition iteration (session : ChatSession) (userMessage : Message)
    (availableTools : list string) (req : EnhancedChatRequest)
    (st : State) : step :=
  match w_strategies w !! cs_ContextStrategy session with
  | None =>
      Return (Err ("unknown context strategy: "
                     +:+ cs_ContextStrategy session)) st
  | Some strategy =>
      let enhancedSystemPrompt :=
        w_BuildSystemPrompt w (ag_SystemPrompt (cs_Agent session))
          availableTools in
      match BuildContext strategy enhancedSystemPrompt ""
              (conversationMessages st) (cs_ContextConfig session)
              (chats st) with
      | (_, Some err) => Return (Err ("failed to build context: " +:+ err)) st
      | (contextMessages, None) =>
          let toolDefinitions :=
            if (0 <? length availableTools)%nat
               && negb (String.eqb (ecr_ToolChoice req) "none")
            then GetToolDefinitions availableTools else [] in
          match w_providers w !! ag_Provider (cs_Agent session) with
          | None =>
              Return (Err ("unsupported LLM provider: "
                             +:+ ag_Provider (cs_Agent session))) st
          | Some provider =>
              if negb (IsAvailable provider (chats st)) then
                Return (Err ("LLM provider "
                               +:+ ag_Provider (cs_Agent session)
                               +:+ " is not available")) st
              else
                let llmRequest :=
                  {| req_Model := ag_Model (cs_Agent session);
                     req_Messages := ConvertMessages contextMessages;
                     req_Temperature :=
                       default (ag_Temperature (cs_Agent session))
                               (ecr_Temperature req);
                     req_MaxTokens :=
                       default (ag_MaxTokens (cs_Agent session))
                               (ecr_MaxTokens req);
                     req_Stream := ecr_Stream req;
                     req_Options := ag_Config (cs_Agent session);
                     req_Tools := toolDefinitions;
                     req_ToolChoice :=
                       if (0 <? length toolDefinitions)%nat
                       then ecr_ToolChoice req else "" |} in
                let st1 := after_chat st in
                match Chat provider (chats st) llmRequest with
                | inr err => Return (Err ("LLM request failed: " +:+ err)) st1
                | inl llmResponse =>
                    let '(toolCalls, drawn) :=
                      parseToolCallsFromResponse (resp_Content llmResponse)
                        (resp_Metadata llmResponse) (uuids st1) in
                    let st2 := after_parse st1 drawn in
                    match toolCalls with
                    | [] =>
                        match saveAssistantMessage st2 (cs_ID session)
                                llmResponse (length contextMessages)
                                (cs_ContextStrategy session)
                                (0 <? length toolDefinitions)%nat with
                        | (inr err, st3) =>
                            Return (Err ("failed to save assistant message: "
                                           +:+ err)) st3
                        | (inl assistantMessage, st3) =>
                            Return (Ok
                              {| UserMessageID :=
                                   ContextStrategy.ID userMessage;
                                 AssistantMessageID :=
                                   ContextStrategy.ID assistantMessage;
                                 Response := resp_Content llmResponse;
                                 ToolCalls := allToolCalls st3;
                                 ResponseMetadata :=
                                   ContextStrategy.Metadata assistantMessage;
                                 FinishReason :=
                                   getFinishReason llmResponse false |}) st3
                        end
                    | _ =>
                        match ExecuteToolCalls (cs_ID session) toolCalls
                                (executions st2) with
                        | Blocks => Return Hung st2
                        | Finishes _ (Panics v) => Return (Crashed v) st2
                        | Finishes _ (Returns toolResults) =>
                            let st3 := after_tools st2 toolResults in
                            match saveAssistantMessageWithToolCalls st3
                                    (cs_ID session) llmResponse toolCalls
                                    toolResults (length contextMessages)
                                    (cs_ContextStrategy session) with
                            | (inr err, st4) =>
                                Return (Err
                                  ("failed to save assistant message with tool calls: "
                                     +:+ err)) st4
                            | (inl assistantMessage, st4) =>
                                let st5 :=
                                  with_conversation st4
                                    (conversationMessages st4
                                       ++ [assistantMessage]) in
                                Continue
                                  (appendToolMessages st5 (cs_ID session)
                                     (CreateToolResultMessages toolResults))
                            end
                        end
                    end
                end
          end
      end
  end.

Definition maxIterations : nat := 5.

(** [for iteration := 0; iteration < maxIterations; iteration++]:
    [remaining] iterations are left. *)
Fixpoint loop (remaining : nat) (session : ChatSession)
    (userMessage : Message) (availableTools : list string)
    (req : EnhancedChatRequest) (st : State)
  : result EnhancedChatResponse * State :=
  match remaining with
  | 0 => (Err MAX_ITERATIONS_EXCEEDED, st)
  | S remaining =>
      match iteration session userMessage availableTools req st with
      | Continue st => loop remaining session userMessage availableTools req st
      | Return r st => (r, st)
      end
  end.

Definition processWithToolCalls (session : ChatSession)
    (userMessage : Message) (availableTools : list string)
    (req : EnhancedChatRequest) (st : State)
  : result EnhancedChatResponse * State :=
  match w_history w (cs_ID session) with
  | inr err => (Err ("failed to get message history: " +:+ err), st)
  | inl messages =>
      loop maxIterations session userMessage availableTools req
        (with_conversation st messages)
  end.

(** The books of a step from [st] to [st']: tool results and stored
    messages are only added, and when every message can be stored there
    is one stored message for every provider call and every tool
    result. *)
Definition accounted (st st' : State) : Prop :=
  allToolCalls st `prefix_of` allToolCalls st' /\
  stored st `prefix_of` stored st' /\
  chats st <= chats st' /\
  ((forall n, w_create w n = None) ->
   length (stored st') + chats st + length (allToolCalls st)
   = length (stored st) + chats st' + length (allToolCalls st')).

(** ** Testing a tool (tool_service.go) *)

(** A product of two [int64]s as Go computes it, modulo 2^64. *)
Definition int64 (z : Z) : Z :=
  ((z + 2 ^ 63) mod 2 ^ 64 - 2 ^ 63)%Z.

(** The timeout [TestTool] gives its executor: 30 seconds unless the
    request sets [timeout_seconds]. *)
Definition testTimeout (req : ToolTestRequest) : Z :=
  match ttr_Timeout req with
  | Some seconds => int64 (seconds * second)
  | None => (30 * second)%Z
  end.

(** [TestTool]; its error is always nil. *)
Definition TestTool (req : ToolTestRequest) (c : nat)
  : behaviour ToolTestResponse :=
  let testExecutor := NewExecutor (w_tools w) (testTimeout req) in
  match Execute testExecutor (w_ctx w) (ttr_ToolName req) "test-session"
          (ttr_Arguments req) c with
  | Finishes d (Returns result) =>
      Finishes d (Returns
        {| tt_Success := Success result;
           tt_Result := Data result;
           tt_Error := Error result;
           tt_Duration := (Duration result `quot` 1000000)%Z;
           tt_Validation :=
             if negb (Success result)
                && String.eqb (ErrorCode result) "VALIDATION_ERROR"
             then [{| mve_Parameter := "unknown";
                      mve_Message := Error result;
                      mve_Value := "" |}]
             else [] |})
  | Finishes d (Panics v) => Finishes d (Panics v)
  | Blocks => Blocks
  end.

(** Every registered tool answers every call with a result: it neither
    panics nor fails to return. *)
Definition tools_return : Prop :=
  forall name tool execCtx input c,
    w_tools w !! name = Some tool ->
    exists d r, Tool_Execute tool execCtx input c
                = Finishes d (Returns (Some r)).

(** A call that cannot succeed: its tool is not registered, its arguments
    are not a JSON object, or the [BaseTool] registered under its name
    rejects the arguments. *)
Definition doomed (toolCall : LLMToolCall) : Prop :=
  w_tools w !! tc_Name toolCall = None \/
  (exists err, json_Unmarshal (tc_Arguments toolCall) = inr err) \/
  (exists bt arguments err,
     w_tools w !! tc_Name toolCall = Some (BaseTool_Tool bt) /\
     json_Unmarshal (tc_Arguments toolCall) = inl arguments /\
     SanitizeInput (schema bt) arguments = inr err).

(** A tool-result message as the provider is sent it. *)
Definition tool_chat_message (toolMsg : ToolMessage) : ChatMessage :=
  {| cm_Role := "tool"; cm_Content := tm_Content toolMsg |}.

End ChatService.

End Services.

(** * A runtime to evaluate the definitions on concrete inputs

    [strconv.ParseFloat] restricted to unsigned decimal integers,
    patterns matched as literal strings, ASCII lower-casing, and maps
    visited in key order or, for an odd choice, in the reverse order. *)

Module TestRuntime.

Definition lower_ascii (a : ascii) : ascii :=
  let n := nat_of_ascii a in
  if (65 <=? n)%nat && (n <=? 90)%nat then ascii_of_nat (n + 32) else a.

Fixpoint to_lower (s : string) : string :=
  match s with
  | EmptyString => EmptyString
  | String a rest => String (lower_ascii a) (to_lower rest)
  end.

Fixpoint parse_digits (s : string) (acc : Z) : option Z :=
  match s with
  | EmptyString => Some acc
  | String a rest =>
      let n := nat_of_ascii a in
      if (48 <=? n)%nat && (n <=? 57)%nat
      then parse_digits rest (10 * acc + Z.of_nat (n - 48))%Z
      else None
  end.

Definition parse_float (s : string) : option float :=
  match s with
  | EmptyString => None
  | _ => f64_of_Z <$> parse_digits s 0%Z
  end.

Definition sprint_v (v : value) : string :=
  match v with
  | VNil => "<nil>"
  | VString s => s
  | VInt z | VInt32 z | VInt64 z => Sprint_d z
  | VFloat64 f | VFloat32 f => Sprint_d (Z_of_f64 f)
  | VBool true => "true"
  | VBool false => "false"
  | _ => "?"
  end.

(** JSON, for the few shapes the samples need: the empty object, and
    objects with string values written without spaces. *)
Definition marshal (v : value) : option string :=
  match v with
  | VNil => Some "null"
  | VBool true => Some "true"
  | VBool false => Some "false"
  | VString s => Some (String (ascii_of_nat 34) s +:+ String (ascii_of_nat 34) "")
  | VInt z | VInt32 z | VInt64 z => Some (Sprint_d z)
  | VMap [] => Some "{}"
  | _ => None
  end.

Definition unmarshal (s : string) : gmap string value + string :=
  if String.eqb s "{}" then inl ∅
  else if String.eqb s "null" then inl ∅
  else inr "invalid character".

Definition map_range {A : Type} (c : nat) (m : gmap string A)
  : list (string * A) :=
  if Nat.even c then map_to_list m else reverse (map_to_list m).

Definition map_range_perm (A : Type) (c : nat) (m : gmap string A)
  : map_range c m ≡ₚ map_to_list m :=
  match Nat.even c as b
    return (if b then map_to_list m else reverse (map_to_list m))
           ≡ₚ map_to_list m
  with
  | true => reflexivity _
  | false => reverse_Permutation _
  end.

Definition arrival {A : Type} (c : nat) (l : list A) : list A :=
  if Nat.even c then l else reverse l.

Definition arrival_perm (A : Type) (c : nat) (l : list A)
  : arrival c l ≡ₚ l :=
  match Nat.even c as b return (if b then l else reverse l) ≡ₚ l with
  | true => reflexivity _
  | false => reverse_Permutation _
  end.

Definition runtime : GoRuntime := {|
  ParseFloat := parse_float;
  MatchString := fun pattern s => Some (String.eqb pattern s);
  ToLower := to_lower;
  Sprint_v := sprint_v;
  Sprint_g := fun f => Sprint_d (Z_of_f64 f);
  json_Unmarshal := unmarshal;
  json_Marshal := marshal;
  MapRange := @map_range;
  MapRange_perm := map_range_perm;
  SelectFirst := Nat.even;
  Arrival := @arrival;
  Arrival_perm := arrival_perm;
  generateRequestID := fun c => "20060102150405-000";
  growcap := fun old needed => Nat.max needed (2 * old);
  growcap_ge := fun old needed => Nat.le_max_l needed (2 * old)
|}.

End TestRuntime.

(** * Concrete schemas and inputs *)

Module Samples.
Import Tools ContextStrategy.

(** From [TestValidateInput] in validation_test.go. *)
Definition test_schema : Schema := {|
  SchemaName := "test_tool"; SchemaDescription := "A test tool";
  Parameters := [
    {| Name := "required_string"; Type_ := "string";
       Description := "A required string parameter"; Required := true;
       Default := VNil; Enum := []; Minimum := None; Maximum := None;
       Pattern := "" |};
    {| Name := "optional_number"; Type_ := "number";
       Description := "An optional number parameter"; Required := false;
       Default := VNil; Enum := []; Minimum := Some 0%float;
       Maximum := Some 100%float; Pattern := "" |} ] |}.

Definition out_of_range_input : gmap string value :=
  <["required_string" := VString "test"]>
  (<["optional_number" := VFloat64 150%float]> ∅).


Definition valid_input : gmap string value :=
  <["required_string" := VString "test"]>
  (<["optional_number" := VFloat64 50%float]> ∅).


(** From [TestSanitizeInput] in validation_test.go. *)
Definition sanitize_schema : Schema := {|
  SchemaName := ""; SchemaDescription := "";
  Parameters := [
    {| Name := "string_param"; Type_ := "string"; Description := "";
       Required := true; Default := VNil; Enum := []; Minimum := None;
       Maximum := None; Pattern := "" |};
    {| Name := "number_param"; Type_ := "number"; Description := "";
       Required := false; Default := VFloat64 42%float; Enum := [];
       Minimum := None; Maximum := None; Pattern := "" |};
    {| Name := "boolean_param"; Type_ := "boolean"; Description := "";
       Required := false; Default := VNil; Enum := []; Minimum := None;
       Maximum := None; Pattern := "" |};
    {| Name := "optional_param"; Type_ := "string"; Description := "";
       Required := false; Default := VNil; Enum := []; Minimum := None;
       Maximum := None; Pattern := "" |} ] |}.

Definition defaults_input : gmap string value :=
  <["string_param" := VString "test"]> ∅.

Definition number_param : Param :=
  {| Name := "number_param"; Type_ := "number"; Description := "";
       Required := false; Default := VFloat64 42%float; Enum := [];
       Minimum := None; Maximum := None; Pattern := "" |}.


(** The mock tool of interface_test.go, which implements [Tool] without
    [BaseTool], and the tools of its executor tests. *)
Section ExecutorSamples.
Context `{RT : GoRuntime}.

Record mockTool := {
  mock_name : string;
  mock_schema : Schema;
  mock_executeFunc :
    option (ExecutionContext -> gmap string value -> behaviour (option Result));
  mock_available : bool
}.

Definition mockTool_Tool (m : mockTool) : Tool :=
  {| Tool_Name := mock_name m;
     Tool_Schema := mock_schema m;
     Tool_Validate := ValidateInput (mock_schema m);
     Tool_Execute := fun ctx input _ =>
       match mock_executeFunc m with
       | Some f => f ctx input
       | None => Finishes 0 (Returns (Some (SuccessResult (VString "mock result"))))
       end;
     Tool_IsAvailable := fun _ => mock_available m |}.

Definition empty_schema (name : string) : Schema :=
  {| SchemaName := name; SchemaDescription := ""; Parameters := [] |}.

Definition millisecond : Z := 1000000.

(** The body of "slow_tool": sleeps 200ms, then succeeds. *)
Definition slow_body (ctx : ExecutionContext) (input : gmap string value)
  : behaviour (option Result) :=
  Finishes (200 * millisecond)
    (Returns (Some (SuccessResult (VString "should not reach")))).

Definition slow_tool : mockTool :=
  {| mock_name := "slow_tool"; mock_schema := empty_schema "slow_tool";
     mock_executeFunc := Some slow_body; mock_available := true |}.

Definition panic_body (ctx : ExecutionContext) (input : gmap string value)
  : behaviour (option Result) :=
  Finishes 0 (Panics (VString "boom")).

Definition nil_body (ctx : ExecutionContext) (input : gmap string value)
  : behaviour (option Result) :=
  Finishes 0 (Returns None).

Definition panic_tool : mockTool :=
  {| mock_name := "panic_tool"; mock_schema := empty_schema "panic_tool";
     mock_executeFunc := Some panic_body; mock_available := true |}.

Definition nil_tool : mockTool :=
  {| mock_name := "nil_tool"; mock_schema := empty_schema "nil_tool";
     mock_executeFunc := Some nil_body; mock_available := true |}.

Definition mock_executor : Executor :=
  NewExecutor
    (<["slow_tool" := mockTool_Tool slow_tool]>
     (<["panic_tool" := mockTool_Tool panic_tool]>
      (<["nil_tool" := mockTool_Tool nil_tool]> ∅)))
    (100 * millisecond).

Definition base_executor : Executor :=
  NewExecutor
    (<["slow_tool" :=
         BaseTool_Tool (NewBaseTool "slow_tool" (empty_schema "slow_tool")
                          (Some slow_body))]>
     (<["panic_tool" :=
         BaseTool_Tool (NewBaseTool "panic_tool" (empty_schema "panic_tool")
                          (Some panic_body))]>
      (<["nil_tool" :=
         BaseTool_Tool (NewBaseTool "nil_tool" (empty_schema "nil_tool")
                          (Some nil_body))]> ∅)))
    (100 * millisecond).

Definition duplicate_calls : list CallInfo :=
  [ {| ToolName := "nil_tool"; Arguments := ∅; CallID := "" |};
    {| ToolName := "unknown_tool"; Arguments := ∅; CallID := "" |} ].

Definition distinct_calls : list CallInfo :=
  [ {| ToolName := "nil_tool"; Arguments := ∅; CallID := "call0" |};
    {| ToolName := "unknown_tool"; Arguments := ∅; CallID := "call1" |};
    {| ToolName := "slow_tool"; Arguments := ∅; CallID := "call2" |} ].
End ExecutorSamples.


(** Histories and configurations for the context strategies. *)
Definition msg (role content : string) : Message :=
  {| ID := ""; SessionID := ""; Role := role; Content := content;
     Metadata := ∅ |}.

(** A store holding a history and nothing else, and the slice over it. *)
Definition history_store (history : list Message) : store :=
  {| cells := history; arrays := [Some <$> seq 0 (length history)] |}.

Definition history_slice (history : list Message) : slice :=
  {| s_arr := 0; s_off := 0; s_len := length history;
     s_cap := length history |}.

(** The history of [TestSlidingWindowStrategy_BuildContext]. *)
Definition twelve : list Message :=
  [ msg "user" "Message 1"; msg "assistant" "Response 1";
    msg "user" "Message 2"; msg "assistant" "Response 2";
    msg "user" "Message 3"; msg "assistant" "Response 3";
    msg "user" "Message 4"; msg "assistant" "Response 4";
    msg "user" "Message 5"; msg "assistant" "Response 5";
    msg "user" "Message 6"; msg "assistant" "Response 6" ].

Definition three : list Message :=
  [ msg "user" "I have a bug in my code";
    msg "assistant" "Show me the error";
    msg "user" "Here it is" ].

Definition window_3_overlap_1 : gmap string value :=
  <["window_size" := VInt 3]> (<["overlap" := VInt 1]> ∅).

Definition max_2_keep_1 : gmap string value :=
  <["max_context_length" := VInt 2]> (<["keep_recent" := VInt 1]> ∅).

Definition max_1_keep_5 : gmap string value :=
  <["max_context_length" := VInt 1]> (<["keep_recent" := VInt 5]> ∅).


(** A turn whose provider asks for tools every time. *)
Section TurnSamples.
Import Services.

Definition echo_body (ctx : ExecutionContext) (input : gmap string value)
  : behaviour (option Result) :=
  Finishes millisecond (Returns (Some (SuccessResult (VString "echo")))).

Definition echo : BaseTool :=
  NewBaseTool "echo" (empty_schema "echo") (Some echo_body).

(** A strategy that hands the whole history on. *)
Definition keep_all : Strategy :=
  {| BuildContext := fun _ _ history _ _ => (history, None) |}.

(** Three requests: a tool that is not registered, arguments that are
    not JSON, and a call that succeeds. *)
Definition requested_calls : list LLMToolCall :=
  [ {| tc_ID := "call-1"; tc_Type := "function"; tc_Name := "nope";
       tc_Arguments := "{}" |};
    {| tc_ID := "call-2"; tc_Type := "function"; tc_Name := "echo";
       tc_Arguments := "{" |};
    {| tc_ID := "call-3"; tc_Type := "function"; tc_Name := "echo";
       tc_Arguments := "{}" |} ].

Definition insistent_response : ChatResponse :=
  {| resp_Content := "calling tools"; resp_Model := "test-model";
     resp_Usage := None;
     resp_Metadata := {[ "tool_calls" := VString "[3 calls]" ]};
     resp_FinishReason := "tool_calls" |}.

(** A provider that answers every request with the same tool calls. *)
Definition insistent : Provider :=
  {| IsAvailable := fun _ => true;
     Chat := fun _ _ => inl insistent_response |}.

Definition test_agent : Agent :=
  {| ag_ID := "agent-1"; ag_Provider := "ollama"; ag_Model := "test-model";
     ag_SystemPrompt := "You are a helpful assistant.";
     ag_Temperature := 0%float; ag_MaxTokens := 256; ag_Config := ∅ |}.

Definition test_session : ChatSession :=
  {| cs_ID := "session-1"; cs_AgentID := "agent-1";
     cs_ContextStrategy := "keep_all"; cs_ContextConfig := ∅;
     cs_Agent := test_agent |}.

Definition test_world : World :=
  {| w_session := fun _ => inl (Some test_session);
     w_history := fun _ => inl [];
     w_create := fun _ => None;
     w_uuid := fun n => "uuid-" +:+ pretty n;
     w_strategies := {[ "keep_all" := keep_all ]};
     w_providers := {[ "ollama" := insistent ]};
     w_BuildSystemPrompt := fun systemPrompt _ => systemPrompt;
     w_unmarshal_calls := fun _ => Some requested_calls;
     w_tools := {[ "echo" := BaseTool_Tool (RT:=TestRuntime.runtime) echo ]};
     w_ctx := Background |}.

Definition user_message : Message :=
  {| ContextStrategy.ID := "m1"; ContextStrategy.SessionID := "session-1";
     ContextStrategy.Role := "user";
     ContextStrategy.Content := "use your tools";
     ContextStrategy.Metadata := ∅ |}.

Definition test_request : EnhancedChatRequest :=
  {| ecr_Message := "use your tools"; ecr_Tools := ["echo"];
     ecr_ToolChoice := "auto"; ecr_Stream := false;
     ecr_MaxTokens := None; ecr_Temperature := None |}.

Definition start : State :=
  {| conversationMessages := [user_message]; allToolCalls := [];
     stored := []; creates := 0; uuids := 0; chats := 0; executions := 0 |}.

End TurnSamples.

(** The tool of the test "Execute Tool with Validation Error", built on
    [BaseTool], and an executor that holds it. *)
Definition validation_schema : Schema := {|
  SchemaName := "validation_tool"; SchemaDescription := "";
  Parameters := [
    {| Name := "required_param"; Type_ := "string"; Description := "";
       Required := true; Default := VNil; Enum := []; Minimum := None;
       Maximum := None; Pattern := "" |} ] |}.

Definition validation_tool : BaseTool :=
  NewBaseTool "validation_tool" validation_schema (Some echo_body).

Definition validating_executor : Executor :=
  NewExecutor
    {[ "validation_tool" :=
         BaseTool_Tool (RT:=TestRuntime.runtime) validation_tool ]}
    (5000 * millisecond).

Definition with_required_param : gmap string value :=
  {[ "required_param" := VString "value" ]}.

(** A turn whose provider answers at once, and a test of a tool with a
    timeout of zero seconds. *)
Section AnswerSamples.
Import Services.

Definition plain_response : ChatResponse :=
  {| resp_Content := "Hello!"; resp_Model := "test-model";
     resp_Usage := None; resp_Metadata := ∅; resp_FinishReason := "" |}.

Definition plain : Provider :=
  {| IsAvailable := fun _ => true;
     Chat := fun _ _ => inl plain_response |}.

Definition quiet_world : World :=
  {| w_session := fun _ => inl (Some test_session);
     w_history := fun _ => inl [user_message];
     w_create := fun _ => None;
     w_uuid := fun n => "uuid-" +:+ pretty n;
     w_strategies := {[ "keep_all" := keep_all ]};
     w_providers := {[ "ollama" := plain ]};
     w_BuildSystemPrompt := fun systemPrompt _ => systemPrompt;
     w_unmarshal_calls := fun _ => None;
     w_tools := {[ "echo" := BaseTool_Tool (RT:=TestRuntime.runtime) echo ]};
     w_ctx := Background |}.

Definition zero_timeout_request : ToolTestRequest :=
  {| ttr_ToolName := "echo"; ttr_Arguments := ∅; ttr_Timeout := Some 0%Z |}.

End AnswerSamples.

End Samples.

(** * Properties *)

(** ** Validation and sanitizing *)

Module ToolsProps.
Import Tools Samples.

Section ValidationFacts.
Context `{RT : GoRuntime}.

Lemma checkRequired_Some parameters input err :
  checkRequired parameters input = Some err ->
  VE_Message err = "required parameter missing" /\
  exists param, param ∈ parameters /\ Required param = true /\
    input !! Name param = None /\ VE_Parameter err = Name param.
Proof.
  induction parameters as [|p ps IH]; simpl; [done|].
  destruct (Required p) eqn:Hreq.
  - destruct (input !! Name p) eqn:Hin.
    + intros H. destruct (IH H) as (Hm & q & Hq & ?). split; [done|].
      exists q. split; [by right | done].
    + intros [= <-]. split; [done|]. exists p. split; [by left | done].
  - intros H. destruct (IH H) as (Hm & q & Hq & ?). split; [done|].
    exists q. split; [by right | done].
Qed.

Lemma checkRequired_None parameters input :
  checkRequired parameters input = None <->
  forall param, param ∈ parameters -> Required param = true ->
    is_Some (input !! Name param).
Proof.
  induction parameters as [|p ps IH]; simpl.
  - split; [|done]. intros _ q Hq. by apply elem_of_nil in Hq.
  - destruct (Required p) eqn:Hreq.
    + destruct (input !! Name p) eqn:Hin.
      * rewrite IH. split.
        -- intros H q [->|Hq]%elem_of_cons Hr; [by rewrite Hin | by apply H].
        -- intros H q Hq. apply H. by right.
      * split; [done|]. intros H.
        destruct (H p) as [v Hv]; [by left | done | congruence].
    + rewrite IH. split.
      * intros H q [->|Hq]%elem_of_cons Hr; [congruence | by apply H].
      * intros H q Hq. apply H. by right.
Qed.

Lemma findParameter_Some parameters name param :
  findParameter parameters name = Some param ->
  param ∈ parameters /\ Name param = name.
Proof.
  induction parameters as [|p ps IH]; simpl; [done|].
  destruct (String.eqb_spec (Name p) name) as [Heq|Hne].
  - intros [= <-]. split; [by left | done].
  - intros H. destruct (IH H). split; [by right | done].
Qed.

Lemma findParameter_None parameters name :
  findParameter parameters name = None <->
  forall param, param ∈ parameters -> Name param <> name.
Proof.
  induction parameters as [|p ps IH]; simpl.
  - split; [|done]. intros _ q Hq. by apply elem_of_nil in Hq.
  - destruct (String.eqb_spec (Name p) name) as [Heq|Hne].
    + split; [done|]. intros H. exfalso. apply (H p); [by left | done].
    + rewrite IH. split.
      * intros H q [->|Hq]%elem_of_cons; [done | by apply H].
      * intros H q Hq. apply H. by right.
Qed.

Lemma findParameter_NoDup parameters param :
  NoDup (Name <$> parameters) -> param ∈ parameters ->
  findParameter parameters (Name param) = Some param.
Proof.
  induction parameters as [|p ps IH]; simpl.
  - intros _ H. by apply elem_of_nil in H.
  - intros [Hnotin Hnd]%NoDup_cons [->|Hin]%elem_of_cons.
    + by rewrite String.eqb_refl.
    + destruct (String.eqb_spec (Name p) (Name param)) as [Heq|Hne].
      * exfalso. apply Hnotin. rewrite Heq. by apply list_elem_of_fmap_2.
      * by apply IH.
Qed.


Lemma existsb_eqb_elem_of (str : string) (l : list string) :
  existsb (String.eqb str) l = true <-> str ∈ l.
Proof.
  rewrite existsb_exists. split.
  - intros (x & Hx & Heq). apply String.eqb_eq in Heq. subst.
    by apply list_elem_of_In.
  - intros H. exists str. split; [by apply list_elem_of_In | apply String.eqb_refl].
Qed.

Lemma number_of_denotes v num :
  number_of v = Some num <-> denotes_number v num.
Proof.
  split.
  - destruct v; simpl; intros H; try discriminate;
      try (injection H as <-); by constructor.
  - by destruct 1.
Qed.

Lemma validateStringParameter_None param v :
  validateStringParameter param v = None <->
  exists s, v = VString s /\
    (Enum param = [] \/ s ∈ Enum param) /\
    (Pattern param = "" \/ MatchString (Pattern param) s = Some true).
Proof.
  unfold validateStringParameter. split.
  - destruct v as [|s| | | | | | | | | | | |]; try discriminate.
    intros H. exists s. split; [done|].
    destruct (Enum param) as [|e es] eqn:HE; simpl in H.
    + split; [by left|].
      destruct (String.eqb_spec (Pattern param) ""); simpl in H; [by left|].
      right. by destruct (MatchString (Pattern param) s) as [[]|].
    + destruct (existsb (String.eqb s) (e :: es)) eqn:Hex; simpl in H.
      2:{ simpl in Hex. rewrite Hex in H. done. }
      simpl in Hex. rewrite Hex in H. simpl in H.
      split; [right; by apply existsb_eqb_elem_of|].
      destruct (String.eqb_spec (Pattern param) ""); simpl in H; [by left|].
      right. by destruct (MatchString (Pattern param) s) as [[]|].
  - intros (s & -> & HE & HP).
    assert (((0 <? length (Enum param))%nat
             && negb (existsb (String.eqb s) (Enum param))) = false) as ->.
    { destruct HE as [-> | Hin]; [done|].
      apply existsb_eqb_elem_of in Hin. rewrite Hin. apply andb_false_r. }
    destruct HP as [-> | ->]; [done|].
    by destruct (negb _).
Qed.

Lemma validateNumberParameter_None param v :
  validateNumberParameter param v = None <->
  exists num, denotes_number v num /\ in_range param num.
Proof.
  unfold validateNumberParameter, in_range. split.
  - destruct (number_of v) as [num|] eqn:Hn; [|done].
    intros H. exists num. split; [by apply number_of_denotes|].
    destruct (Minimum param) as [lo|], (Maximum param) as [hi|];
      repeat match type of H with
             | (if ?b then _ else _) = _ => destruct b eqn:?; try discriminate
             end;
      split; intros ? [= <-]; done.
  - intros (num & Hn%number_of_denotes & Hlo & Hhi). rewrite Hn.
    destruct (Minimum param) as [lo|], (Maximum param) as [hi|];
      rewrite ?(Hlo _ eq_refl), ?(Hhi _ eq_refl); done.
Qed.

Local Arguments validateStringParameter : simpl never.
Local Arguments validateNumberParameter : simpl never.

Lemma validateParameter_conforms param v :
  validateParameter param v = None <-> conforms param v.
Proof.
  unfold validateParameter. split.
  - destruct (is_nil v) eqn:Hnil.
    { destruct v; try discriminate.
      destruct (Required param) eqn:?; [done|]. intros _. by constructor. }
    destruct (String.eqb_spec (Type_ param) "string").
    { intros (s' & -> & ? & ?)%validateStringParameter_None.
      by apply conforms_string. }
    destruct (String.eqb_spec (Type_ param) "number").
    { intros (num & ? & ?)%validateNumberParameter_None.
      by eapply conforms_number. }
    destruct (String.eqb_spec (Type_ param) "boolean").
    { destruct v; simpl; try discriminate; [|intros _; by constructor].
      destruct (String.eqb_spec (ToLower s) "true");
        [intros _; apply conforms_bool_string; auto|].
      destruct (String.eqb_spec (ToLower s) "false");
        [intros _; apply conforms_bool_string; auto|]. done. }
    destruct (String.eqb_spec (Type_ param) "object").
    { destruct v; simpl; try discriminate; intros _; by constructor. }
    destruct (String.eqb_spec (Type_ param) "array").
    { destruct v; simpl; try discriminate; intros _; by constructor. }
    done.
  - destruct 1
      as [Hr|s Ht HE HP|v num Ht Hn Hr|b Ht|s Ht Hs|m Ht|f Ht|l Ht|l Ht|l Ht];
      simpl; rewrite ?Hr, ?Ht; simpl; try done.
    + apply validateStringParameter_None. eauto.
    + assert (is_nil v = false) as -> by by destruct Hn.
      apply validateNumberParameter_None. eauto.
    + by destruct Hs as [-> | ->].
Qed.


Lemma checkProvided_None parameters entries :
  checkProvided parameters entries = None <->
  forall k v, (k, v) ∈ entries ->
    exists param, findParameter parameters k = Some param /\ conforms param v.
Proof.
  induction entries as [|[k v] rest IH]; simpl.
  - split; [|done]. intros _ k v H. by apply elem_of_nil in H.
  - destruct (findParameter parameters k) as [param|] eqn:Hfind.
    + destruct (validateParameter param v) as [err|] eqn:Hval.
      * split; [done|]. intros H.
        destruct (H k v) as (q & Hq & Hc); [by left|].
        rewrite Hfind in Hq. injection Hq as <-.
        apply validateParameter_conforms in Hc. congruence.
      * rewrite IH. split.
        -- intros H k' v' [[= -> ->]|Hin]%elem_of_cons; [|by apply H].
           exists param. split; [done | by apply validateParameter_conforms].
        -- intros H k' v' Hin. apply H. by right.
    + split; [done|]. intros H.
      destruct (H k v) as (q & Hq & _); [by left | congruence].
Qed.

Lemma ValidateInput_None schema input c :
  ValidateInput schema input c = None <->
  (forall param, param ∈ Parameters schema -> Required param = true ->
     is_Some (input !! Name param)) /\
  (forall k v, input !! k = Some v ->
     exists param, findParameter (Parameters schema) k = Some param /\
       conforms param v).
Proof.
  unfold ValidateInput.
  destruct (checkRequired (Parameters schema) input) as [err|] eqn:Hreq.
  - split; [done|]. intros [H _].
    pose proof (proj2 (checkRequired_None _ _) H). congruence.
  - rewrite checkProvided_None.
    pose proof (proj1 (checkRequired_None _ _) Hreq) as Hreq'.
    split.
    + intros H. split; [done|]. intros k v Hkv. apply H.
      rewrite MapRange_perm. by apply elem_of_map_to_list.
    + intros [_ H] k v Hin. apply H.
      rewrite MapRange_perm in Hin. by apply elem_of_map_to_list in Hin.
Qed.

(** Claim C9 (as amended).  In a schema with unique parameter names,
    [ValidateInput] rejects every input that lacks a required parameter,
    whatever the other values are, and accepts every input that supplies
    all required parameters and binds each of its keys, required or
    optional, to a value conforming to the declared parameter of that
    name (so that it has no unknown key).  This holds for every order in
    which the input map is visited. *)
Theorem validate_required_and_conforming schema input c :
  NoDup (Name <$> Parameters schema) ->
  (forall param, param ∈ Parameters schema -> Required param = true ->
     input !! Name param = None ->
     exists err, ValidateInput schema input c = Some err /\
       VE_Message err = "required parameter missing") /\
  ((forall param, param ∈ Parameters schema -> Required param = true ->
      is_Some (input !! Name param)) ->
   (forall k v, input !! k = Some v ->
      exists param, param ∈ Parameters schema /\ Name param = k /\
        conforms param v) ->
   ValidateInput schema input c = None).
Proof.
  intros Hnd. split.
  - intros param Hin Hreq Hmiss. unfold ValidateInput.
    destruct (checkRequired (Parameters schema) input) as [err|] eqn:Hc.
    + exists err. split; [done|]. by apply checkRequired_Some in Hc as [? _].
    + pose proof (proj1 (checkRequired_None _ _) Hc) as Hc'.
      destruct (Hc' param Hin Hreq). congruence.
  - intros Hreq Hconf. apply ValidateInput_None. split; [done|].
    intros k v Hkv. destruct (Hconf k v Hkv) as (param & Hin & <- & Hc).
    exists param. split; [by apply findParameter_NoDup | done].
Qed.

End ValidationFacts.

(** Claim C9 as stated fails: the input of the test "Number Out of
    Range" supplies the only required parameter with a conforming value
    and has no unknown key, and is rejected because the optional
    [optional_number] is above its maximum. *)
Lemma validate_optional_out_of_range :
  (forall param, param ∈ Parameters test_schema -> Required param = true ->
     exists v, out_of_range_input !! Name param = Some v /\
       conforms (RT:=TestRuntime.runtime) param v) /\
  (forall k, is_Some (out_of_range_input !! k) ->
     exists param, param ∈ Parameters test_schema /\ Name param = k) /\
  ValidateInput (RT:=TestRuntime.runtime) test_schema out_of_range_input 0
  = Some (NewValidationError "optional_number" "value must be <= 100"
            (VFloat64 150%float)).
Proof.
  split; [|split].
  - intros param Hin Hreq. simpl in Hin.
    apply elem_of_cons in Hin as [->|Hin].
    + exists (VString "test"). split; [done|].
      apply conforms_string; [done | by left | by left].
    + apply list_elem_of_singleton in Hin as ->. discriminate.
  - intros k [v Hv]. unfold out_of_range_input in Hv.
    apply lookup_insert_Some in Hv as [[<- _]|[_ Hv]].
    { eexists. split; [by left | done]. }
    apply lookup_insert_Some in Hv as [[<- _]|[_ Hv]].
    { eexists. split; [right; by left | done]. }
    by rewrite lookup_empty in Hv.
  - by vm_compute.
Qed.

Lemma validate_required_and_conforming_witness :
  NoDup (Name <$> Parameters test_schema) /\
  ValidateInput (RT:=TestRuntime.runtime) test_schema valid_input 1 = None.
Proof.
  assert (NoDup (Name <$> Parameters test_schema)) as Hnd.
  { apply (bool_decide_unpack _). by vm_compute. }
  split; [exact Hnd|].
  destruct (validate_required_and_conforming (RT:=TestRuntime.runtime)
              test_schema valid_input 1 Hnd) as [_ Hacc].
  apply Hacc.
  - intros param Hin Hreq. simpl in Hin.
    apply elem_of_cons in Hin as [->|Hin]; [by eexists|].
    apply list_elem_of_singleton in Hin as ->. discriminate.
  - intros k v Hv. unfold valid_input in Hv.
    apply lookup_insert_Some in Hv as [[<- <-]|[_ Hv]].
    { eexists. split; [by left|]. split; [done|].
      apply conforms_string; [done | by left | by left]. }
    apply lookup_insert_Some in Hv as [[<- <-]|[_ Hv]].
    { eexists. split; [right; by left|]. split; [done|].
      eapply conforms_number; [done | constructor |].
      split; intros ? [= <-]; by vm_compute. }
    by rewrite lookup_empty in Hv.
Defined.

Section SanitizeFacts.
Context `{RT : GoRuntime}.

(** Keys no parameter is named after keep the binding they had. *)
Lemma sanitizeLoop_other parameters input acc m k :
  sanitizeLoop parameters input acc = inl m ->
  (forall param, param ∈ parameters -> Name param <> k) ->
  m !! k = acc !! k.
Proof.
  revert acc. induction parameters as [|p ps IH]; simpl; intros acc Hrun Hk.
  - by injection Hrun as <-.
  - assert (Name p <> k) as Hp by (apply Hk; by left).
    assert (forall q, q ∈ ps -> Name q <> k) as Hps
      by (intros q Hq; apply Hk; by right).
    destruct (input !! Name p) as [v|].
    + destruct (convertValue (Type_ p) v) as [converted|msg]; [|done].
      rewrite (IH _ Hrun Hps). by apply lookup_insert_ne.
    + destruct (negb (is_nil (Default p))).
      * rewrite (IH _ Hrun Hps). by apply lookup_insert_ne.
      * by apply IH.
Qed.

Lemma sanitizeLoop_keys parameters input acc m k :
  sanitizeLoop parameters input acc = inl m ->
  is_Some (m !! k) ->
  is_Some (acc !! k) \/ exists param, param ∈ parameters /\ Name param = k.
Proof.
  revert acc. induction parameters as [|p ps IH]; simpl; intros acc Hrun Hk.
  - injection Hrun as <-. by left.
  - destruct (decide (Name p = k)) as [Heq|Hne].
    { right. exists p. split; [by left | done]. }
    assert (forall acc', sanitizeLoop ps input acc' = inl m ->
              acc' !! k = acc !! k ->
              is_Some (acc !! k) \/
              exists param, param ∈ p :: ps /\ Name param = k) as Hstep.
    { intros acc' Hrun' Hacc'.
      destruct (IH _ Hrun' Hk) as [Hs|(q & Hq & Hqk)].
      - left. by rewrite <- Hacc'.
      - right. exists q. split; [by right | done]. }
    destruct (input !! Name p) as [v|].
    + destruct (convertValue (Type_ p) v) as [converted|msg]; [|done].
      apply (Hstep _ Hrun). by apply lookup_insert_ne.
    + destruct (negb (is_nil (Default p))).
      * apply (Hstep _ Hrun). by apply lookup_insert_ne.
      * by apply (Hstep _ Hrun).
Qed.

(** An entry under an undeclared key is never read. *)
Lemma sanitizeLoop_insert_unknown parameters input acc k v :
  (forall param, param ∈ parameters -> Name param <> k) ->
  sanitizeLoop parameters (<[k := v]> input) acc
  = sanitizeLoop parameters input acc.
Proof.
  revert acc. induction parameters as [|p ps IH]; simpl; intros acc Hk; [done|].
  assert (Name p <> k) as Hp by (apply Hk; by left).
  assert (forall q, q ∈ ps -> Name q <> k) as Hps
    by (intros q Hq; apply Hk; by right).
  rewrite lookup_insert_ne by done.
  destruct (input !! Name p) as [w|].
  - destruct (convertValue (Type_ p) w); [by apply IH | done].
  - destruct (negb (is_nil (Default p))); by apply IH.
Qed.

Lemma sanitizeLoop_absent parameters input acc m param :
  NoDup (Name <$> parameters) ->
  sanitizeLoop parameters input acc = inl m ->
  param ∈ parameters -> input !! Name param = None ->
  m !! Name param =
    if is_nil (Default param) then acc !! Name param
    else Some (Default param).
Proof.
  revert acc. induction parameters as [|p ps IH]; simpl;
    intros acc Hnd Hrun Hin Habs.
  - by apply elem_of_nil in Hin.
  - apply NoDup_cons in Hnd as [Hfresh Hnd].
    apply elem_of_cons in Hin as [->|Hin].
    + assert (forall q, q ∈ ps -> Name q <> Name p) as Hps.
      { intros q Hq Heq. apply Hfresh. rewrite <- Heq.
        by apply list_elem_of_fmap_2. }
      rewrite Habs in Hrun.
      destruct (is_nil (Default p)); simpl in Hrun.
      * by apply (sanitizeLoop_other _ _ _ _ _ Hrun).
      * rewrite (sanitizeLoop_other _ _ _ _ _ Hrun Hps).
        apply lookup_insert_eq.
    + assert (Name p <> Name param) as Hne.
      { intros Heq. apply Hfresh. rewrite Heq. by apply list_elem_of_fmap_2. }
      destruct (input !! Name p) as [v|].
      * destruct (convertValue (Type_ p) v) as [converted|msg]; [|done].
        rewrite (IH _ Hnd Hrun Hin Habs).
        by rewrite lookup_insert_ne.
      * destruct (negb (is_nil (Default p))).
        -- rewrite (IH _ Hnd Hrun Hin Habs). by rewrite lookup_insert_ne.
        -- by apply IH.
Qed.

(** Claim C10.  In a schema with unique parameter names, the map
    [SanitizeInput] returns has only declared parameter names as keys; an
    input key that is not declared is dropped without an error (the result
    is the same with or without it); every absent parameter with a default
    is bound to that default, and every absent parameter without one is
    left out. *)
Theorem sanitize_declared_keys_and_defaults schema input m :
  NoDup (Name <$> Parameters schema) ->
  SanitizeInput schema input = inl m ->
  (forall k, is_Some (m !! k) ->
     exists param, param ∈ Parameters schema /\ Name param = k) /\
  (forall k v, (forall param, param ∈ Parameters schema -> Name param <> k) ->
     SanitizeInput schema (<[k := v]> input) = inl m /\ m !! k = None) /\
  (forall param, param ∈ Parameters schema -> input !! Name param = None ->
     Default param <> VNil -> m !! Name param = Some (Default param)) /\
  (forall param, param ∈ Parameters schema -> input !! Name param = None ->
     Default param = VNil -> m !! Name param = None).
Proof.
  unfold SanitizeInput. intros Hnd Hrun. repeat split.
  - intros k Hk.
    destruct (sanitizeLoop_keys _ _ _ _ _ Hrun Hk) as [[? Hempty]|?]; [|done].
    by rewrite lookup_empty in Hempty.
  - by rewrite sanitizeLoop_insert_unknown.
  - by rewrite (sanitizeLoop_other _ _ _ _ _ Hrun).
  - intros param Hin Habs Hdef.
    rewrite (sanitizeLoop_absent _ _ _ _ _ Hnd Hrun Hin Habs).
    by destruct (Default param).
  - intros param Hin Habs Hdef.
    rewrite (sanitizeLoop_absent _ _ _ _ _ Hnd Hrun Hin Habs).
    by rewrite Hdef.
Qed.

End SanitizeFacts.


Lemma sanitize_declared_keys_and_defaults_witness :
  NoDup (Name <$> Parameters sanitize_schema) /\
  exists m,
    SanitizeInput (RT:=TestRuntime.runtime) sanitize_schema defaults_input
      = inl m /\
    SanitizeInput (RT:=TestRuntime.runtime) sanitize_schema
      (<["extra" := VInt 1]> defaults_input) = inl m /\
    m !! "extra" = None /\
    m !! "number_param" = Some (VFloat64 42%float).
Proof.
  assert (NoDup (Name <$> Parameters sanitize_schema)) as Hnd.
  { apply (bool_decide_unpack _). by vm_compute. }
  split; [exact Hnd|].
  destruct (SanitizeInput (RT:=TestRuntime.runtime) sanitize_schema
              defaults_input) as [m|err] eqn:Hrun; [|by vm_compute in Hrun].
  exists m.
  destruct (sanitize_declared_keys_and_defaults (RT:=TestRuntime.runtime)
              sanitize_schema defaults_input m Hnd Hrun)
    as (_ & Hunknown & Hdefault & _).
  destruct (Hunknown "extra" (VInt 1)) as [Hsame Hgone].
  { intros param Hin. simpl in Hin.
    repeat (apply elem_of_cons in Hin as [->|Hin]; [done|]).
    by apply elem_of_nil in Hin. }
  repeat split; [done | done |].
  apply (Hdefault number_param); [| done | done].
  simpl. right. by left.
Defined.

End ToolsProps.

(** ** Tool execution *)

Module ExecutorProps.
Import Tools Samples.

Section ExecutionFacts.
Context `{RT : GoRuntime}.

(** *** The collecting loop *)

Lemma collect_snoc received res :
  collect (received ++ [res]) = <[res.1 := res.2]> (collect received).
Proof. unfold collect. by rewrite foldl_snoc. Qed.

Lemma collect_lookup received k r :
  NoDup received.*1 ->
  collect received !! k = Some r <-> (k, r) ∈ received.
Proof.
  induction received as [|[k' r'] received IH] using rev_ind.
  - intros _. unfold collect. simpl. rewrite lookup_empty.
    split; [done | by intros ?%elem_of_nil].
  - rewrite fmap_app. intros [Hnd [Hfresh _]]%NoDup_app.
    rewrite collect_snoc, elem_of_app, list_elem_of_singleton. simpl.
    destruct (decide (k' = k)) as [->|Hne].
    + rewrite lookup_insert_eq. split.
      * intros [= ->]. by right.
      * intros [Hin|[= ->]]; [|done]. exfalso.
        apply (Hfresh k); [|by left].
        by apply (list_elem_of_fmap_2 fst _ (k, r)).
    + rewrite lookup_insert_ne by done. rewrite (IH Hnd).
      split; [by left|]. intros [?|[= -> ->]]; done.
Qed.

Lemma collect_size received :
  NoDup received.*1 -> size (collect received) = length received.
Proof.
  induction received as [|[k' r'] received IH] using rev_ind.
  - intros _. unfold collect. simpl. apply map_size_empty.
  - rewrite fmap_app. intros [Hnd [Hfresh _]]%NoDup_app.
    rewrite collect_snoc, length_app. simpl.
    rewrite map_size_insert_None; [rewrite (IH Hnd); lia|].
    destruct (collect received !! k') as [r|] eqn:Hl; [|done].
    apply (collect_lookup _ _ _ Hnd) in Hl. exfalso.
    apply (Hfresh k'); [|by left].
    by apply (list_elem_of_fmap_2 fst _ (k', r)).
Qed.

(** *** The goroutines *)

Lemma spawn_returns e ctx sessionID calls cs i0 :
  (forall i call, calls !! i = Some call ->
     exists d r, Execute e ctx (ToolName call) sessionID (Arguments call)
                   (cs (i0 + i)) = Finishes d (Returns r)) ->
  exists d sent,
    spawn e ctx sessionID calls cs i0 = Finishes d (Returns sent) /\
    sent.*1 = CallID <$> calls /\
    forall i call, calls !! i = Some call ->
      exists d' r, Execute e ctx (ToolName call) sessionID (Arguments call)
                     (cs (i0 + i)) = Finishes d' (Returns r) /\
                   sent !! i = Some (CallID call, r).
Proof.
  revert i0. induction calls as [|call rest IH]; intros i0 Hall; simpl.
  - exists 0%Z, []. repeat split. intros i call Hi. by rewrite lookup_nil in Hi.
  - destruct (Hall 0 call eq_refl) as (d0 & r0 & H0).
    rewrite Nat.add_0_r in H0. rewrite H0.
    destruct (IH (S i0)) as (d & sent & Hsp & Hids & Hres).
    { intros i c' Hi. destruct (Hall (S i) c' Hi) as (d' & r & H').
      exists d', r. by rewrite Nat.add_succ_comm. }
    rewrite Hsp. exists (Z.max d0 d), ((CallID call, r0) :: sent).
    split; [done|]. split; [rewrite !fmap_cons; by rewrite Hids|].
    intros [|i] c' Hi; simpl in Hi.
    + injection Hi as <-. exists d0, r0. by rewrite Nat.add_0_r.
    + destruct (Hres i c' Hi) as (d' & r & H' & Hs).
      exists d', r. by rewrite <- Nat.add_succ_comm.
Qed.

(** Claim C1 (as amended).  For a batch of calls with pairwise distinct
    call ids, each of which returns a result, [ExecuteMultiple] returns
    a map with exactly as many entries as there are calls, and the entry
    under a call's id is the result [Execute] gives for that call on its
    own: it depends on no other call of the batch, failed or not, and on
    no order of arrival. *)
Theorem ExecuteMultiple_one_result_per_call e ctx sessionID calls cs c :
  NoDup (CallID <$> calls) ->
  (forall i call, calls !! i = Some call ->
     exists d r, Execute e ctx (ToolName call) sessionID (Arguments call)
                   (cs i) = Finishes d (Returns r)) ->
  exists d results,
    ExecuteMultiple e ctx sessionID calls cs c = Finishes d (Returns results) /\
    size results = length calls /\
    forall i call, calls !! i = Some call ->
      exists d' r, Execute e ctx (ToolName call) sessionID (Arguments call)
                     (cs i) = Finishes d' (Returns r) /\
                   results !! CallID call = Some r.
Proof.
  intros Hnd Hall.
  destruct (spawn_returns e ctx sessionID calls cs 0 Hall)
    as (d & sent & Hsp & Hids & Hres).
  unfold ExecuteMultiple. rewrite Hsp. exists d, (collect (Arrival c sent)).
  assert (NoDup (Arrival c sent).*1) as Hnd'.
  { rewrite (Arrival_perm _ c sent), Hids. exact Hnd. }
  split; [done|]. split.
  - rewrite (collect_size _ Hnd'), (Arrival_perm _ c sent).
    by rewrite <- (length_fmap fst sent), Hids, length_fmap.
  - intros i call Hi. destruct (Hres i call Hi) as (d' & r & Hex & Hs).
    exists d', r. split; [done|].
    apply (collect_lookup _ _ _ Hnd'). rewrite (Arrival_perm _ c sent).
    by eapply list_elem_of_lookup_2.
Qed.


(** *** BaseTool under a deadline *)

Lemma await_deadline sent ctx c t :
  done_in ctx = Some t ->
  exists d r, await sent ctx c = Finishes d (Returns (Some r)).
Proof.
  intros Ht. unfold await. rewrite Ht. destruct sent as [[d r]|]; [|by eauto].
  destruct (d <? t)%Z; [by eauto|]. destruct (t <? d)%Z; [by eauto|].
  destruct (SelectFirst c); by eauto.
Qed.

Lemma await_in_time d r ctx c :
  (forall t, done_in ctx = Some t -> (d < t)%Z) ->
  await (Some (d, r)) ctx c = Finishes d (Returns (Some r)).
Proof.
  intros Hd. unfold await. destruct (done_in ctx) as [t|]; [|done].
  specialize (Hd t eq_refl). apply Z.ltb_lt in Hd. by rewrite Hd.
Qed.

Lemma await_late sent ctx c t :
  done_in ctx = Some t ->
  (sent = None \/ exists d r, sent = Some (d, r) /\ (t < d)%Z) ->
  await sent ctx c = Finishes t (Returns (Some (timeout_result t))).
Proof.
  intros Ht [->|(d & r & -> & Hd)]; unfold await; rewrite Ht; [done|].
  assert ((d <? t)%Z = false) as -> by (apply Z.ltb_ge; lia).
  apply Z.ltb_lt in Hd. by rewrite Hd.
Qed.

Lemma BaseTool_Execute_returns bt ctx input c t :
  done_in (Ctx ctx) = Some t ->
  exists d r, BaseTool_Execute bt ctx input c = Finishes d (Returns (Some r)).
Proof.
  intros Ht. unfold BaseTool_Execute.
  destruct (SanitizeInput (schema bt) input); [|by eauto].
  destruct (is_done (Ctx ctx)); [by eauto|]. by eapply await_deadline.
Qed.

(** [Executor.Execute] on a registered, available [BaseTool] whose input
    validates is [BaseTool.Execute] with the duration overwritten. *)
Lemma Execute_BaseTool e ctx bt toolName sessionID input c d r :
  registry e !! toolName = Some (BaseTool_Tool bt) ->
  available bt ctx = true ->
  ValidateInput (schema bt) input c = None ->
  BaseTool_Execute bt (newExecutionContext e ctx sessionID c) input c
    = Finishes d (Returns (Some r)) ->
  Execute e ctx toolName sessionID input c
    = Finishes d (Returns (with_Duration r d)).
Proof.
  intros Hreg Hav Hval Hrun. unfold Execute. rewrite Hreg. simpl.
  rewrite Hav. simpl. unfold BaseTool_Validate. by rewrite Hval, Hrun.
Qed.

Lemma Execute_BaseTool_returns e ctx bt toolName sessionID input c :
  registry e !! toolName = Some (BaseTool_Tool bt) ->
  exists d r, Execute e ctx toolName sessionID input c = Finishes d (Returns r).
Proof.
  intros Hreg. unfold Execute. rewrite Hreg. simpl.
  destruct (available bt ctx); simpl; [|by eauto].
  destruct (BaseTool_Validate bt input c); [by eauto|].
  destruct (BaseTool_Execute_returns bt
              (newExecutionContext e ctx sessionID c) input c
              (match done_in ctx with
               | Some t => Z.min t (timeout e)
               | None => timeout e
               end) eq_refl) as (d & r & ->).
  by eauto.
Qed.

(** Claim C2 (as amended).  For a tool built on [BaseTool],
    [Executor.Execute] always returns a result and never panics; when the
    input validates and sanitizes, the context is not done and the body
    panics (with a non-nil value) before the deadline, the result is a
    failure with code PANIC, and when the body returns nil before the
    deadline, a failure with code NIL_RESULT. *)
Theorem Execute_BaseTool_contains_panic e ctx bt toolName sessionID input c :
  registry e !! toolName = Some (BaseTool_Tool bt) ->
  (exists d r,
     Execute e ctx toolName sessionID input c = Finishes d (Returns r)) /\
  forall sanitized f t d,
    available bt ctx = true ->
    ValidateInput (schema bt) input c = None ->
    SanitizeInput (schema bt) input = inl sanitized ->
    executeFunc bt = Some f ->
    done_in (WithTimeout ctx (timeout e)) = Some t ->
    (0 < t)%Z -> (d < t)%Z ->
    (forall v, v <> VNil ->
       f (newExecutionContext e ctx sessionID c) sanitized
         = Finishes d (Panics v) ->
       exists r,
         Execute e ctx toolName sessionID input c = Finishes d (Returns r) /\
         Success r = false /\ ErrorCode r = "PANIC") /\
    (f (newExecutionContext e ctx sessionID c) sanitized
       = Finishes d (Returns None) ->
     exists r,
       Execute e ctx toolName sessionID input c = Finishes d (Returns r) /\
       Success r = false /\ ErrorCode r = "NIL_RESULT").
Proof.
  intros Hreg. split; [by eapply Execute_BaseTool_returns|].
  intros sanitized f t d Hav Hval Hsan Hf Ht Hpos Hd.
  assert (forall r0,
            execute_task bt (newExecutionContext e ctx sessionID c) sanitized
              = Some (d, r0) ->
            Execute e ctx toolName sessionID input c
              = Finishes d (Returns (with_Duration r0 d))) as Hrun.
  { intros r0 Htask. apply (Execute_BaseTool _ _ bt); try done.
    unfold BaseTool_Execute. rewrite Hsan.
    assert (is_done (Ctx (newExecutionContext e ctx sessionID c)) = false)
      as ->.
    { unfold is_done. cbn [Ctx newExecutionContext]. rewrite Ht.
      apply Z.leb_gt. lia. }
    rewrite Htask. apply await_in_time.
    cbn [Ctx newExecutionContext]. rewrite Ht. by intros ? [= <-]. }
  split.
  - intros v Hv Hbody. eexists. split.
    + apply Hrun. unfold execute_task. rewrite Hf, Hbody.
      assert (is_nil v = false) as -> by by destruct v. done.
    + done.
  - intros Hbody. eexists. split.
    + apply Hrun. unfold execute_task. by rewrite Hf, Hbody.
    + done.
Qed.

(** Claim C3 (as amended).  For a tool built on [BaseTool], with a
    positive time [t] left until the deadline (at most the configured
    timeout), an input that validates and sanitizes, and a body that
    never returns or runs longer than [t], [Executor.Execute] returns at
    time [t], without waiting for the body, a failure with code
    TIMEOUT. *)
Theorem Execute_BaseTool_timeout e ctx bt toolName sessionID input c
    sanitized f t :
  registry e !! toolName = Some (BaseTool_Tool bt) ->
  available bt ctx = true ->
  ValidateInput (schema bt) input c = None ->
  SanitizeInput (schema bt) input = inl sanitized ->
  executeFunc bt = Some f ->
  done_in (WithTimeout ctx (timeout e)) = Some t ->
  (0 < t)%Z ->
  (f (newExecutionContext e ctx sessionID c) sanitized = Blocks \/
   exists d o, f (newExecutionContext e ctx sessionID c) sanitized
                 = Finishes d o /\ (t < d)%Z) ->
  (t <= timeout e)%Z /\
  exists r,
    Execute e ctx toolName sessionID input c = Finishes t (Returns r) /\
    Success r = false /\ ErrorCode r = "TIMEOUT".
Proof.
  intros Hreg Hav Hval Hsan Hf Ht Hpos Hbody. split.
  { simpl in Ht. injection Ht as <-. destruct (done_in ctx); lia. }
  exists (with_Duration (timeout_result t) t). split; [|done].
  apply (Execute_BaseTool _ _ bt); try done.
  unfold BaseTool_Execute. rewrite Hsan.
  assert (is_done (Ctx (newExecutionContext e ctx sessionID c)) = false) as ->.
  { unfold is_done. cbn [Ctx newExecutionContext]. rewrite Ht.
    apply Z.leb_gt. lia. }
  apply await_late; [done|].
  unfold execute_task. rewrite Hf.
  destruct Hbody as [->|(d & o & -> & Hd)]; [by left|].
  destruct o as [[r|]|v]; [right; by eauto | right; by eauto |].
  destruct (is_nil v); [by left | right; by eauto].
Qed.

End ExecutionFacts.


Local Abbreviation TR := TestRuntime.runtime.

(** Claim C1 as stated fails: two calls that leave out the call id are
    both keyed by the empty id, and the map of two calls has one entry. *)
Lemma ExecuteMultiple_duplicate_call_ids :
  length duplicate_calls = 2 /\
  exists results,
    ExecuteMultiple (RT:=TR) (base_executor (RT:=TR)) Background
      "test-session" duplicate_calls (fun _ => 0) 0
    = Finishes 0 (Returns results) /\
    size results = 1.
Proof.
  split; [done|]. eexists. split; [by vm_compute | by vm_compute].
Qed.

Lemma ExecuteMultiple_one_result_per_call_witness :
  NoDup (CallID <$> distinct_calls) /\
  exists d results,
    ExecuteMultiple (RT:=TR) (base_executor (RT:=TR)) Background
      "test-session" distinct_calls (fun _ => 0) 1
    = Finishes d (Returns results) /\
    size results = 3 /\
    ErrorCode <$> results !! "call0" = Some "NIL_RESULT" /\
    ErrorCode <$> results !! "call1" = Some "TOOL_NOT_FOUND" /\
    ErrorCode <$> results !! "call2" = Some "TIMEOUT".
Proof.
  assert (NoDup (CallID <$> distinct_calls)) as Hnd.
  { apply (bool_decide_unpack _). by vm_compute. }
  split; [exact Hnd|].
  destruct (ExecuteMultiple_one_result_per_call (RT:=TR)
              (base_executor (RT:=TR)) Background "test-session"
              distinct_calls (fun _ => 0) 1 Hnd)
    as (d & results & Hrun & Hsize & Hres).
  { intros [|[|[|i]]] call Hi; simpl in Hi; try discriminate;
      injection Hi as <-; eexists _, _; by vm_compute. }
  exists d, results. split; [done|]. split; [done|].
  split; [|split].
  - destruct (Hres 0 _ eq_refl) as (d' & r & Hex & Hr).
    simpl in Hr. rewrite Hr. vm_compute in Hex. by injection Hex as _ <-.
  - destruct (Hres 1 _ eq_refl) as (d' & r & Hex & Hr).
    simpl in Hr. rewrite Hr. vm_compute in Hex. by injection Hex as _ <-.
  - destruct (Hres 2 _ eq_refl) as (d' & r & Hex & Hr).
    simpl in Hr. rewrite Hr. vm_compute in Hex. by injection Hex as _ <-.
Defined.

(** Claim C2 as stated fails for a tool that implements [Execute]
    itself, as the mock tool of the tests does: its panic leaves
    [Executor.Execute], and so does the nil dereference after a nil
    result. *)
Lemma Execute_mock_tool_panics :
  Execute (RT:=TR) (mock_executor (RT:=TR)) Background "panic_tool"
    "test-session" ∅ 0
  = Finishes 0 (Panics (VString "boom")) /\
  Execute (RT:=TR) (mock_executor (RT:=TR)) Background "nil_tool"
    "test-session" ∅ 0
  = Finishes 0 (Panics nil_dereference).
Proof. split; by vm_compute. Qed.

Lemma Execute_BaseTool_contains_panic_witness :
  (exists r,
     Execute (RT:=TR) (base_executor (RT:=TR)) Background "panic_tool"
       "test-session" ∅ 0 = Finishes 0 (Returns r) /\
     Success r = false /\ ErrorCode r = "PANIC") /\
  (exists r,
     Execute (RT:=TR) (base_executor (RT:=TR)) Background "nil_tool"
       "test-session" ∅ 0 = Finishes 0 (Returns r) /\
     Success r = false /\ ErrorCode r = "NIL_RESULT").
Proof.
  split.
  - destruct (Execute_BaseTool_contains_panic (RT:=TR)
                (base_executor (RT:=TR)) Background
                (NewBaseTool "panic_tool" (empty_schema "panic_tool")
                   (Some panic_body))
                "panic_tool" "test-session" ∅ 0) as [_ H]; [reflexivity|].
    destruct (H ∅ panic_body (100 * millisecond)%Z 0%Z) as [Hpanic _];
      [reflexivity | by vm_compute | by vm_compute | reflexivity
      | by vm_compute | by vm_compute | by vm_compute |].
    apply (Hpanic (VString "boom")); [discriminate | reflexivity].
  - destruct (Execute_BaseTool_contains_panic (RT:=TR)
                (base_executor (RT:=TR)) Background
                (NewBaseTool "nil_tool" (empty_schema "nil_tool")
                   (Some nil_body))
                "nil_tool" "test-session" ∅ 0) as [_ H]; [reflexivity|].
    destruct (H ∅ nil_body (100 * millisecond)%Z 0%Z) as [_ Hnil];
      [reflexivity | by vm_compute | by vm_compute | reflexivity
      | by vm_compute | by vm_compute | by vm_compute |].
    apply Hnil. reflexivity.
Defined.

(** Claim C3 as stated fails for the tool of the test "Execute Tool
    with Timeout": with a timeout of 100ms and a body that sleeps 200ms,
    [Executor.Execute] returns the body's success after 200ms. *)
Lemma Execute_mock_tool_outlives_timeout :
  timeout (mock_executor (RT:=TR)) = (100 * millisecond)%Z /\
  Execute (RT:=TR) (mock_executor (RT:=TR)) Background "slow_tool"
    "test-session" ∅ 0
  = Finishes (200 * millisecond)
      (Returns (with_Duration (SuccessResult (VString "should not reach"))
                  (200 * millisecond))).
Proof. split; by vm_compute. Qed.

Lemma Execute_BaseTool_timeout_witness :
  exists r,
    Execute (RT:=TR) (base_executor (RT:=TR)) Background "slow_tool"
      "test-session" ∅ 0 = Finishes (100 * millisecond) (Returns r) /\
    Success r = false /\ ErrorCode r = "TIMEOUT".
Proof.
  destruct (Execute_BaseTool_timeout (RT:=TR)
              (base_executor (RT:=TR)) Background
              (NewBaseTool "slow_tool" (empty_schema "slow_tool")
                 (Some slow_body))
              "slow_tool" "test-session" ∅ 0 ∅ slow_body
              (100 * millisecond)%Z) as [_ H];
    [reflexivity | reflexivity | by vm_compute | by vm_compute | reflexivity
    | by vm_compute | by vm_compute | | exact H].
  right. eexists (200 * millisecond)%Z, _. split; [reflexivity | by vm_compute].
Defined.

End ExecutorProps.


(** ** Context strategies *)

Module ContextProps.
Import ContextStrategy Samples.

Section StoreFacts.
Context `{RT : GoRuntime}.

Lemma extends_refl h : extends h h.
Proof. by split. Qed.

Lemma extends_trans h0 h1 h2 : extends h0 h1 -> extends h1 h2 -> extends h0 h2.
Proof. intros [? ?] [? ?]. split; by etrans. Qed.

Lemma view_extends h0 h s l :
  extends h0 h -> view h0 s = Some l -> view h s = Some l.
Proof.
  intros [_ Harr]. unfold view. destruct (s_len s =? 0)%nat; [done|].
  destruct (arrays h0 !! s_arr s) as [a|] eqn:Ha; [|done].
  by rewrite (prefix_lookup_Some _ _ _ _ Ha Harr).
Qed.

Lemma deref_extends h0 h ps ms :
  extends h0 h -> deref h0 ps = Some ms -> deref h ps = Some ms.
Proof.
  intros [Hcells _]. revert ms. induction ps as [|p ps IH]; simpl; [done|].
  intros ms. destruct p as [a|]; simpl; [|done].
  destruct (cells h0 !! a) as [m|] eqn:Hm; [|done].
  rewrite (prefix_lookup_Some _ _ _ _ Hm Hcells).
  destruct (deref h0 ps) as [ms'|]; [|done].
  by rewrite (IH ms' eq_refl).
Qed.

Lemma deref_app h ps qs :
  deref h (ps ++ qs) =
    match deref h ps, deref h qs with
    | Some ms, Some ns => Some (ms ++ ns)
    | _, _ => None
    end.
Proof.
  induction ps as [|p ps IH]; simpl.
  - by destruct (deref h qs).
  - rewrite IH. destruct (p ≫= _), (deref h ps), (deref h qs); done.
Qed.

Lemma deref_length h ps ms : deref h ps = Some ms -> length ms = length ps.
Proof.
  revert ms. induction ps as [|p ps IH]; simpl; intros ms.
  - by intros [= <-].
  - destruct (p ≫= _); [|done]. destruct (deref h ps) as [ms'|]; [|done].
    intros [= <-]. simpl. by rewrite (IH ms' eq_refl).
Qed.

Lemma deref_take h ps ms n :
  deref h ps = Some ms -> deref h (take n ps) = Some (take n ms).
Proof.
  revert ms n. induction ps as [|p ps IH]; simpl; intros ms n.
  - intros [= <-]. by destruct n.
  - destruct (p ≫= _) as [m|] eqn:Hp; [|done].
    destruct (deref h ps) as [ms'|]; [|done].
    intros [= <-]. destruct n as [|n]; simpl; [done|].
    by rewrite Hp, (IH ms' n eq_refl).
Qed.

Lemma deref_drop h ps ms n :
  deref h ps = Some ms -> deref h (drop n ps) = Some (drop n ms).
Proof.
  revert ms n. induction ps as [|p ps IH]; simpl; intros ms n.
  - intros [= <-]. by destruct n.
  - destruct (p ≫= _) as [m|] eqn:Hp; [|done].
    destruct (deref h ps) as [ms'|] eqn:Hps; [|done].
    intros [= <-]. destruct n as [|n]; simpl.
    + by rewrite Hp, Hps.
    + by apply IH.
Qed.

Lemma load_all_deref ps h :
  load_all ps h = (fun ms => (ms, h)) <$> deref h ps.
Proof.
  induction ps as [|p ps IH]; simpl; [done|].
  unfold mbind, M_bind, load. destruct p as [a|]; simpl; [|done].
  destruct (cells h !! a) as [m|]; simpl; [|done].
  rewrite IH. by destruct (deref h ps).
Qed.

(** The view of a well-formed slice. *)
Lemma view_wf h s a :
  arrays h !! s_arr s = Some a -> s_off s + s_cap s <= length a ->
  s_len s <= s_cap s ->
  view h s = Some (take (s_len s) (drop (s_off s) a)).
Proof.
  intros Ha Hcap Hlen. unfold view.
  destruct (Nat.eqb_spec (s_len s) 0) as [->|_]; [done|].
  rewrite Ha. destruct (Nat.leb_spec (s_off s + s_len s) (length a)); [done|lia].
Qed.

Lemma view_mk cs arrs arr off len cap a :
  arrs !! arr = Some a -> off + cap <= length a -> len <= cap ->
  view {| cells := cs; arrays := arrs |}
       {| s_arr := arr; s_off := off; s_len := len; s_cap := cap |}
  = Some (take len (drop off a)).
Proof. intros. by apply view_wf. Qed.

Lemma view_length h s l : view h s = Some l -> length l = s_len s.
Proof.
  unfold view. destruct (Nat.eqb_spec (s_len s) 0) as [->|_].
  { by intros [= <-]. }
  destruct (arrays h !! s_arr s) as [a|]; [|done].
  destruct (Nat.leb_spec (s_off s + s_len s) (length a)); [|done].
  intros [= <-]. rewrite length_take, length_drop. lia.
Qed.

Lemma prefix_insert_ge {A} (l0 l : list A) i x :
  l0 `prefix_of` l -> length l0 <= i -> l0 `prefix_of` <[i := x]> l.
Proof.
  intros [k ->] Hi. rewrite insert_app_r_alt by done. by eexists.
Qed.

Lemma write_length a i (elems : list ptr) :
  i + length elems <= length a -> length (write a i elems) = length a.
Proof.
  intros H. unfold write. rewrite !length_app, length_take, length_drop. lia.
Qed.

Lemma write_view a off len (elems : list ptr) :
  off + len + length elems <= length a ->
  take (len + length elems) (drop off (write a (off + len) elems))
  = take len (drop off a) ++ elems.
Proof.
  intros H. unfold write.
  rewrite drop_app_le by (rewrite length_take; lia).
  rewrite <- take_drop_commute, app_assoc.
  apply take_app_length'. rewrite length_app, length_take, length_drop. lia.
Qed.

Lemma slice_literal_fresh h0 h elems :
  extends h0 h ->
  exists s h', slice_literal elems h = Some (s, h') /\
    fresh h0 h' s /\ view h' s = Some elems /\ cells h' = cells h.
Proof.
  intros [Hc Ha]. eexists _, _. split; [done|]. split; [|split; [|done]].
  - split; [|split]; simpl.
    + split; simpl; [done | by apply prefix_app_r].
    + by apply prefix_length.
    + exists elems. split; [|lia].
      rewrite lookup_app_r by done. by rewrite Nat.sub_diag.
  - unfold view. simpl.
    destruct (Nat.eqb_spec (length elems) 0) as [H0|_].
    { by destruct elems. }
    rewrite lookup_app_r by done. rewrite Nat.sub_diag. simpl.
    rewrite Nat.leb_refl. by rewrite take_ge.
Qed.

Lemma new_message_extends h0 h m :
  extends h0 h ->
  exists h', new_message m h = Some (Some (length (cells h)), h') /\
    extends h0 h' /\ cells h' = cells h ++ [m] /\ arrays h' = arrays h.
Proof.
  intros [Hc Ha]. eexists. split; [done|]. split; [|done].
  split; simpl; [by apply prefix_app_r | done].
Qed.

Lemma append_fresh h0 h s old elems :
  fresh h0 h s -> view h s = Some old ->
  exists s' h', append s elems h = Some (s', h') /\
    fresh h0 h' s' /\ view h' s' = Some (old ++ elems) /\ cells h' = cells h.
Proof.
  intros (Hext & Hfresh & a & Ha & Hcap & Hlen) Hview.
  rewrite (view_wf _ _ _ Ha Hcap Hlen) in Hview. injection Hview as <-.
  unfold append. destruct elems as [|e elems'] eqn:Helems.
  { exists s, h. split; [done|]. rewrite app_nil_r.
    split; [|split; [by apply view_wf | done]].
    split; [done|]. split; [done|]. by exists a. }
  rewrite <- Helems. assert (0 < length elems) as Hpos by (subst; simpl; lia).
  clear Helems e elems'.
  destruct (Nat.leb_spec (s_len s + length elems) (s_cap s)) as [Hfit|Hgrow].
  - rewrite Ha. eexists _, _. split; [done|].
    assert (s_arr s < length (arrays h)) as Hlt by by eapply lookup_lt_Some.
    assert (<[s_arr s := write a (s_off s + s_len s) elems]> (arrays h)
              !! s_arr s = Some (write a (s_off s + s_len s) elems)) as Ha'
      by by apply list_lookup_insert_eq.
    split; [|split; [|done]].
    + destruct Hext as [Hc Harr]. split; [|split]; simpl.
      * split; simpl; [done | by apply prefix_insert_ge].
      * done.
      * eexists. split; [exact Ha'|]. rewrite write_length; lia.
    + rewrite (view_mk _ _ _ _ _ _ _ Ha');
        [| rewrite write_length; lia | lia].
      f_equal. apply write_view. lia.
  - rewrite (view_wf _ _ _ Ha Hcap Hlen).
    set (needed := s_len s + length elems).
    pose proof (growcap_ge (s_cap s) needed) as Hge.
    set (newcap := growcap (s_cap s) needed) in *.
    set (old := take (s_len s) (drop (s_off s) a)).
    assert (length old = s_len s) as Hold
      by (unfold old; rewrite length_take, length_drop; lia).
    eexists _, _. split; [done|].
    assert ((arrays h ++ [old ++ elems ++ replicate (newcap - needed) None])
              !! length (arrays h)
            = Some (old ++ elems ++ replicate (newcap - needed) None)) as Ha'.
    { rewrite lookup_app_r by done. by rewrite Nat.sub_diag. }
    split; [|split; [|done]].
    + destruct Hext as [Hc Harr]. split; [|split]; simpl.
      * split; simpl; [done | by apply prefix_app_r].
      * by apply prefix_length.
      * eexists. split; [exact Ha'|].
        rewrite !length_app, length_replicate. unfold needed in *. lia.
    + rewrite (view_mk _ _ _ _ _ _ _ Ha');
        [| rewrite !length_app, length_replicate; unfold needed in *; lia
         | done].
      f_equal. rewrite app_assoc. apply take_app_length'.
      rewrite length_app. unfold needed. lia.
Qed.

(** [s[lo:hi]] within the length of a slice. *)
Lemma subslice_view h s l (lo hi : Z) :
  view h s = Some l -> s_len s <= s_cap s ->
  (0 <= lo)%Z -> (lo <= hi)%Z -> (hi <= Z.of_nat (s_len s))%Z ->
  exists s', subslice s lo hi h = Some (s', h) /\
    view h s' = Some (take (Z.to_nat hi - Z.to_nat lo) (drop (Z.to_nat lo) l)).
Proof.
  intros Hview Hcap Hlo Hhi Hlen. unfold subslice.
  assert (((0 <=? lo) && (lo <=? hi) && (hi <=? Z.of_nat (s_cap s)))%Z = true)
    as ->.
  { rewrite !andb_true_iff, !Z.leb_le. lia. }
  eexists. split; [done|]. unfold view in *. simpl.
  destruct (Nat.eqb_spec (Z.to_nat hi - Z.to_nat lo) 0) as [->|Hne]; [done|].
  destruct (Nat.eqb_spec (s_len s) 0) as [H0|_]; [lia|].
  destruct (arrays h !! s_arr s) as [a|]; [|done].
  destruct (Nat.leb_spec (s_off s + s_len s) (length a)); [|done].
  injection Hview as <-.
  destruct (Nat.leb_spec (s_off s + Z.to_nat lo + (Z.to_nat hi - Z.to_nat lo))
              (length a)); [|lia].
  f_equal.
  replace (s_len s) with (Z.to_nat lo + (s_len s - Z.to_nat lo)) by lia.
  rewrite <- take_drop_commute, take_take, drop_drop.
  f_equal. lia.
Qed.


Lemma contents_Some h s hist :
  contents h s = Some hist <->
  exists ps, view h s = Some ps /\ deref h ps = Some hist.
Proof.
  unfold contents. destruct (view h s) as [ps|]; simpl.
  - split; [by eauto|]. by intros (? & [= <-] & ?).
  - split; [done|]. by intros (? & ? & ?).
Qed.

Lemma system_slice_fresh h m :
  fresh h (with_system h m) (system_slice h) /\
  view (with_system h m) (system_slice h) = Some [Some (length (cells h))].
Proof.
  assert (arrays (with_system h m) !! s_arr (system_slice h)
          = Some [Some (length (cells h))]) as Ha.
  { simpl. rewrite lookup_app_r by done. by rewrite Nat.sub_diag. }
  split.
  - split; [|split].
    + split; simpl; by apply prefix_app_r.
    + done.
    + eexists. split; [exact Ha | simpl; lia].
  - by rewrite (view_wf _ _ _ Ha) by (simpl; lia).
Qed.

(** The common end of the three strategies: the elements of [t] are
    appended to the context slice, which is returned without an error. *)
Lemma finish h0 h cm cur t elems :
  fresh h0 h cm -> view h cm = Some cur -> view h t = Some elems ->
  exists s' h',
    (elems ← elements t;
     contextMessages ← append cm elems;
     mret (contextMessages, None)) h
    = Some ((s', @None string), h') /\
    extends h0 h' /\ view h' s' = Some (cur ++ elems) /\ cells h' = cells h.
Proof.
  intros Hfresh Hcm Ht.
  destruct (append_fresh h0 h cm cur elems Hfresh Hcm)
    as (s' & h' & Happ & (Hext & _) & Hview & Hcells).
  exists s', h'. split; [|done].
  unfold mbind, M_bind, elements. rewrite Ht. simpl. by rewrite Happ.
Qed.

Lemma fail_run h msg :
  exists s h', fail msg h = Some ((s, Some msg), h') /\
    extends h h' /\ contents h' s = Some [].
Proof.
  eexists _, _. split; [done|]. split.
  - split; simpl; [done | by apply prefix_app_r].
  - done.
Qed.

(** Reading a context slice that starts with the new system message and
    goes on with pointers of the history. *)
Lemma contents_system h h' s m qs ms :
  extends h h' ->
  cells h' !! length (cells h) = Some m ->
  view h' s = Some (Some (length (cells h)) :: qs) ->
  deref h qs = Some ms ->
  contents h' s = Some (m :: ms).
Proof.
  intros Hext Hm Hview Hqs. apply contents_Some. eexists. split; [done|].
  simpl. rewrite Hm. by rewrite (deref_extends _ _ _ _ Hext Hqs).
Qed.

Lemma lookup_snoc_length {A} (l : list A) x k :
  (l ++ x :: k) !! length l = Some x.
Proof. rewrite lookup_app_r by done. by rewrite Nat.sub_diag. Qed.

Lemma LastN_correct h messages hist sp ap config :
  contents h messages = Some hist -> s_len messages <= s_cap messages ->
  exists s h',
    LastN_BuildContext sp ap messages config h
      = Some ((s, (LastN_spec sp ap hist config).2), h') /\
    extends h h' /\
    contents h' s = Some (LastN_spec sp ap hist config).1.
Proof.
  intros (ps & Hview & Hderef)%contents_Some Hcap.
  unfold LastN_BuildContext, LastN_spec.
  destruct (Z.leb_spec (config_int config "count" 10) 0) as [Hbad|Hcount].
  { apply fail_run. }
  set (count := config_int config "count" 10) in *.
  pose proof (view_length _ _ _ Hview) as Hlen.
  pose proof (deref_length _ _ _ Hderef) as Hlen'.
  set (m := system_message sp ap).
  destruct (system_slice_fresh h m) as [Hfresh Hcm].
  set (startIndex := if (count <? Z.of_nat (s_len messages))%Z
                     then (Z.of_nat (s_len messages) - count)%Z else 0%Z).
  assert (0 <= startIndex <= Z.of_nat (s_len messages))%Z as Hstart.
  { unfold startIndex. destruct (Z.ltb_spec count (Z.of_nat (s_len messages))); lia. }
  assert (Z.to_nat startIndex = length ps - Z.to_nat count) as Hidx.
  { unfold startIndex. destruct (Z.ltb_spec count (Z.of_nat (s_len messages))); lia. }
  destruct (subslice_view (with_system h m) messages ps startIndex
              (Z.of_nat (s_len messages))) as (tl & Hsub & Htl);
    [by eapply view_extends; [apply Hfresh|] | lia | lia | lia | lia |].
  rewrite take_ge in Htl by (rewrite length_drop; lia).
  destruct (finish _ _ _ _ _ _ Hfresh Hcm Htl)
    as (s' & h' & Hrun & Hext & Hview' & Hcells).
  exists s', h'. split; [|split].
  - unfold mbind at 1 2 3, M_bind at 1 2 3. simpl.
    fold (with_system h m). fold (system_slice h). fold startIndex.
    by rewrite Hsub.
  - done.
  - simpl. eapply contents_system; [done | | exact Hview' |].
    { rewrite Hcells. apply lookup_snoc_length. }
    unfold last_n. rewrite Hidx, Hlen'. by apply deref_drop.
Qed.


Lemma SlidingWindow_correct h messages hist sp ap config :
  contents h messages = Some hist -> s_len messages <= s_cap messages ->
  exists s h',
    SlidingWindow_BuildContext sp ap messages config h
      = Some ((s, (SlidingWindow_spec sp ap hist config).2), h') /\
    extends h h' /\
    contents h' s = Some (SlidingWindow_spec sp ap hist config).1.
Proof.
  intros (ps & Hview & Hderef)%contents_Some Hcap.
  unfold SlidingWindow_BuildContext, SlidingWindow_spec.
  set (w := config_int config "window_size" 5).
  set (o := config_int config "overlap" 2).
  destruct (Z.leb_spec w 0) as [Hbad|Hw]; [apply fail_run|].
  destruct (Z.ltb_spec o 0) as [Hbad|Ho]; [apply fail_run|].
  destruct (Z.leb_spec w o) as [Hbad|How]; [apply fail_run|]. simpl orb. cbv iota.
  pose proof (view_length _ _ _ Hview) as Hlen.
  pose proof (deref_length _ _ _ Hderef) as Hlen'.
  set (m := system_message sp ap).
  destruct (system_slice_fresh h m) as [Hfresh Hcm].
  assert (view (with_system h m) messages = Some ps) as Hview2
    by (eapply view_extends; [apply Hfresh | done]).
  assert (exists s' h',
            (sys ← new_message m;
             contextMessages ← slice_literal [sys];
             if (Z.of_nat (s_len messages) <=? w)%Z then
               elems ← elements messages;
               contextMessages ← append contextMessages elems;
               mret (contextMessages, None)
             else
               let start := (Z.of_nat (s_len messages) - w)%Z in
               let '(start, windowSize) :=
                 if (o <? start)%Z
                 then ((start - o)%Z, (w + o)%Z)
                 else (0%Z, Z.of_nat (s_len messages)) in
               window ← subslice messages start (start + windowSize);
               elems ← elements window;
               contextMessages ← append contextMessages elems;
               mret (contextMessages, None)) h
            = Some ((s', @None string), h') /\
            extends h h' /\
            view h' s' = Some ([Some (length (cells h))]
                               ++ drop (length ps - Z.to_nat (w + o)) ps) /\
            cells h' = cells (with_system h m)) as (s' & h' & Hrun & Hext & Hv & Hc).
  { unfold mbind at 1 2, M_bind at 1 2. simpl.
    fold (with_system h m). fold (system_slice h).
    destruct (Z.leb_spec (Z.of_nat (s_len messages)) w) as [Hshort|Hlong].
    - replace (length ps - Z.to_nat (w + o)) with 0 by lia.
      destruct (finish _ _ _ _ _ _ Hfresh Hcm Hview2)
        as (s' & h' & Hrun & Hext & Hview' & Hcells).
      by exists s', h'.
    - destruct (Z.ltb_spec o (Z.of_nat (s_len messages) - w)) as [Hov|Hov].
      + destruct (subslice_view (with_system h m) messages ps
                    (Z.of_nat (s_len messages) - w - o)
                    (Z.of_nat (s_len messages) - w - o + (w + o)))
          as (win & Hsub & Hwin); [done | lia | lia | lia | lia |].
        rewrite take_ge in Hwin by (rewrite length_drop; lia).
        replace (Z.to_nat (Z.of_nat (s_len messages) - w - o))
          with (length ps - Z.to_nat (w + o)) in Hwin by lia.
        destruct (finish _ _ _ _ _ _ Hfresh Hcm Hwin)
          as (s' & h' & Hrun & Hext & Hview' & Hcells).
        exists s', h'. split; [|done].
        unfold mbind at 1, M_bind at 1. by rewrite Hsub.
      + destruct (subslice_view (with_system h m) messages ps 0
                    (0 + Z.of_nat (s_len messages)))
          as (win & Hsub & Hwin); [done | lia | lia | lia | lia |].
        rewrite take_ge in Hwin by (rewrite length_drop; lia).
        replace (length ps - Z.to_nat (w + o)) with 0 by lia.
        destruct (finish _ _ _ _ _ _ Hfresh Hcm Hwin)
          as (s' & h' & Hrun & Hext & Hview' & Hcells).
        exists s', h'. split; [|done].
        unfold mbind at 1, M_bind at 1. by rewrite Hsub. }
  exists s', h'. split; [done|]. split; [done|].
  simpl. eapply contents_system; [done | | exact Hv |].
  { rewrite Hc. apply lookup_snoc_length. }
  unfold last_n. rewrite Hlen'. by apply deref_drop.
Qed.


Lemma createSimpleSummary_nonempty (msgs : list Message) rnd :
  msgs <> [] -> String.eqb (createSimpleSummary msgs rnd) "" = false.
Proof. by destruct msgs. Qed.

Lemma subslice_store s lo hi h s' h2 :
  subslice s lo hi h = Some (s', h) -> subslice s lo hi h2 = Some (s', h2).
Proof.
  unfold subslice. destruct (_ && _)%bool; [|done]. by intros [= <-].
Qed.

(** Allocating a message leaves the slices as they are. *)
Lemma fresh_new_cell h0 h s m :
  fresh h0 h s ->
  fresh h0 {| cells := cells h ++ [m]; arrays := arrays h |} s.
Proof.
  intros ([Hc Ha] & Hs & Hwf). split; [|done].
  split; simpl; [by apply prefix_app_r | done].
Qed.

Lemma view_new_cell h s m :
  view {| cells := cells h ++ [m]; arrays := arrays h |} s = view h s.
Proof. done. Qed.

Lemma Summarize_correct h messages hist sp ap config rnd :
  contents h messages = Some hist -> s_len messages <= s_cap messages ->
  exists s h',
    Summarize_BuildContext sp ap messages config rnd h
      = Some ((s, (Summarize_spec sp ap hist config rnd).2), h') /\
    extends h h' /\
    contents h' s = Some (Summarize_spec sp ap hist config rnd).1.
Proof.
  intros (ps & Hview & Hderef)%contents_Some Hcap.
  unfold Summarize_BuildContext, Summarize_spec.
  set (mx := config_int config "max_context_length" 20).
  set (k := config_int config "keep_recent" 5).
  destruct (Z.leb_spec mx 0) as [Hbad|Hmx]; [apply fail_run|].
  destruct (Z.leb_spec k 0) as [Hbad|Hk]; [apply fail_run|].
  simpl orb. cbv iota.
  pose proof (view_length _ _ _ Hview) as Hlen.
  pose proof (deref_length _ _ _ Hderef) as Hlen'.
  set (m := system_message sp ap).
  destruct (system_slice_fresh h m) as [Hfresh Hcm].
  assert (extends h (with_system h m)) as Hext0 by apply Hfresh.
  assert (view (with_system h m) messages = Some ps) as Hview2
    by (eapply view_extends; done).
  unfold mbind at 1 2, M_bind at 1 2. simpl.
  fold (with_system h m). fold (system_slice h).
  rewrite Hlen', Hlen.
  destruct (Z.leb_spec (Z.of_nat (s_len messages)) mx) as [Hshort|Hlong].
  { destruct (finish _ _ _ _ _ _ Hfresh Hcm Hview2)
      as (s' & h' & Hrun & Hext & Hview' & Hcells).
    exists s', h'. split; [done|]. split; [done|]. simpl.
    eapply contents_system; [done | | exact Hview' | done].
    rewrite Hcells. apply lookup_snoc_length. }
  destruct (Z.leb_spec (Z.of_nat (s_len messages)) k) as [Hfew|Hmany].
  { assert ((Z.of_nat (s_len messages) - k <=? 0)%Z = true) as ->
      by (apply Z.leb_le; lia).
    destruct (finish _ _ _ _ _ _ Hfresh Hcm Hview2)
      as (s' & h' & Hrun & Hext & Hview' & Hcells).
    exists s', h'. split; [done|]. split; [done|]. simpl.
    eapply contents_system; [done | | exact Hview' | done].
    rewrite Hcells. apply lookup_snoc_length. }
  assert ((Z.of_nat (s_len messages) - k <=? 0)%Z = false) as ->
    by (apply Z.leb_gt; lia).
  simpl orb. cbv iota.
  set (n := length ps - Z.to_nat k).
  destruct (subslice_view h messages ps 0 (Z.of_nat (s_len messages) - k))
    as (olds & Hsub1 & Hold); [done | lia | lia | lia | lia |].
  replace (Z.to_nat (Z.of_nat (s_len messages) - k) - Z.to_nat 0) with n
    in Hold by lia.
  change (drop (Z.to_nat 0) ps) with ps in Hold.
  destruct (subslice_view h messages ps
              (Z.of_nat (s_len messages) - k) (Z.of_nat (s_len messages)))
    as (recents & Hsub2 & Hrecent); [done | lia | lia | lia | lia |].
  rewrite take_ge in Hrecent by (rewrite length_drop; lia).
  replace (Z.to_nat (Z.of_nat (s_len messages) - k)) with n in Hrecent by lia.
  unfold mbind at 1 2 3 4, M_bind at 1 2 3 4.
  rewrite (subslice_store _ _ _ _ _ _ Hsub1), (subslice_store _ _ _ _ _ _ Hsub2).
  unfold elements at 1. rewrite (view_extends _ _ _ _ Hext0 Hold).
  simpl fmap. cbv beta iota.
  rewrite load_all_deref.
  rewrite (deref_extends _ _ _ _ Hext0 (deref_take _ _ _ n Hderef)).
  simpl fmap. cbv beta iota.
  replace (s_len messages - Z.to_nat k) with n by lia.
  set (summary := createSimpleSummary (take n hist) rnd).
  assert (String.eqb summary "" = false) as Hne.
  { apply createSimpleSummary_nonempty. intros Hnil.
    apply (f_equal length) in Hnil. rewrite length_take in Hnil.
    simpl in Hnil. lia. }
  rewrite Hne. simpl negb. cbv iota.
  set (h3 := {| cells := cells (with_system h m) ++ [summary_message summary];
                arrays := arrays (with_system h m) |}).
  destruct (append_fresh h h3 (system_slice h) [Some (length (cells h))]
              [Some (length (cells (with_system h m)))])
    as (cm & h4 & Happ & Hfresh4 & Hview4 & Hcells4).
  { by apply fresh_new_cell. }
  { done. }
  unfold mbind at 1, M_bind at 1.
  match goal with
  | |- context [(?a ≫= ?f) (with_system h m)] =>
      assert ((a ≫= f) (with_system h m) = Some (cm, h4)) as -> by exact Happ
  end.
  assert (view h4 recents = Some (drop n ps)) as Hrecent4.
  { eapply view_extends; [apply Hfresh4 | exact Hrecent]. }
  destruct (finish _ _ _ _ _ _ Hfresh4 Hview4 Hrecent4)
    as (s' & h' & Hrun & Hext & Hview' & Hcells).
  exists s', h'. split; [exact Hrun|]. split; [done|]. simpl.
  apply contents_Some. eexists. split; [exact Hview'|].
  assert (cells h' = cells h ++ [m; summary_message summary]) as Hc.
  { rewrite Hcells, Hcells4. simpl. by rewrite <- app_assoc. }
  simpl. rewrite Hc, lookup_snoc_length.
  assert ((cells h ++ [m; summary_message summary])
            !! length (cells h ++ [m]) = Some (summary_message summary)) as ->.
  { rewrite length_app. simpl. rewrite lookup_app_r by lia.
    by replace (length (cells h) + 1 - length (cells h)) with 1 by lia. }
  unfold last_n. rewrite Hlen'. fold n.
  assert (deref h' (drop n ps) = Some (drop n hist)) as ->; [|done].
  eapply deref_extends; [exact Hext | by apply deref_drop].
Qed.


(** *** The topics of a summary, up to their order *)

Lemma mark_lookup (content : string) (l : list string)
    (words : gmap string bool) (t : string) :
  foldl (fun words topic =>
           if Contains content topic then <[topic := true]> words else words)
        words l !! t
  = if bool_decide (t ∈ l) && Contains content t then Some true
    else words !! t.
Proof.
  revert words. induction l as [|a l IH]; intros words; simpl; [done|].
  rewrite IH. destruct (decide (t = a)) as [->|Hne].
  - rewrite (bool_decide_eq_true_2 (a ∈ a :: l)) by by left.
    destruct (Contains content a) eqn:Ha; simpl.
    + rewrite andb_true_r. destruct (bool_decide (a ∈ l)); [done|].
      by rewrite lookup_insert_eq.
    + by rewrite andb_false_r.
  - assert (bool_decide (t ∈ a :: l) = bool_decide (t ∈ l)) as ->.
    { apply bool_decide_ext. rewrite elem_of_cons.
      split; [by intros [?|?] | by right]. }
    destruct (bool_decide (t ∈ l) && Contains content t); [done|].
    destruct (Contains content a); [by rewrite lookup_insert_ne | done].
Qed.

Lemma markTopics_lookup words msg c t :
  markTopics words msg c !! t
  = if Contains (ToLower (Content msg)) t then (fun _ => true) <$> words !! t
    else words !! t.
Proof.
  unfold markTopics. rewrite mark_lookup.
  destruct (Contains (ToLower (Content msg)) t); [|by rewrite andb_false_r].
  rewrite andb_true_r. destruct (words !! t) as [b|] eqn:Hw; simpl.
  - rewrite bool_decide_eq_true_2; [done|].
    apply list_elem_of_fmap. exists (t, b). split; [done|].
    rewrite MapRange_perm. by apply elem_of_map_to_list.
  - rewrite bool_decide_eq_false_2; [done|].
    intros ([t' b] & -> & Hin)%list_elem_of_fmap.
    rewrite MapRange_perm in Hin. apply elem_of_map_to_list in Hin.
    simpl in Hw. congruence.
Qed.

Lemma markTopics_order words msg c c' :
  markTopics words msg c = markTopics words msg c'.
Proof. apply map_eq. intros t. by rewrite !markTopics_lookup. Qed.

Lemma markAll_order words msgs rnd rnd' i i' :
  markAll words msgs rnd i = markAll words msgs rnd' i'.
Proof.
  revert words i i'. induction msgs as [|msg msgs IH]; intros; simpl; [done|].
  rewrite (markTopics_order words msg (rnd i) (rnd' i')). apply IH.
Qed.

Lemma extractTopics_order msgs rnd rnd' :
  extractTopics msgs rnd ≡ₚ extractTopics msgs rnd'.
Proof.
  unfold extractTopics. rewrite (markAll_order topicWords msgs rnd rnd' 0 0).
  by rewrite !MapRange_perm.
Qed.

Lemma run_correct call h s err h' l :
  call h = Some ((s, err), h') -> contents h' s = Some l ->
  run call h = Some (l, err).
Proof. intros Hcall Hl. unfold run. by rewrite Hcall, Hl. Qed.

(** Claim C6 (as amended).  For a history whose messages are [hist],
    each strategy returns, in a store that extends the one it was called
    in (no message and no array of the caller is written), the messages
    its specification computes from the prompts, [hist] and the
    configuration alone; for Summarize also from the runtime's choices
    of map iteration order, which change the summary by no more than the
    order of its topics. *)
Theorem strategies_functions_of_inputs h messages hist sp ap config rnd :
  contents h messages = Some hist -> s_len messages <= s_cap messages ->
  (exists s err h',
     LastN_BuildContext sp ap messages config h = Some ((s, err), h') /\
     extends h h' /\
     run (LastN_BuildContext sp ap messages config) h
       = Some (LastN_spec sp ap hist config)) /\
  (exists s err h',
     SlidingWindow_BuildContext sp ap messages config h
       = Some ((s, err), h') /\
     extends h h' /\
     run (SlidingWindow_BuildContext sp ap messages config) h
       = Some (SlidingWindow_spec sp ap hist config)) /\
  (exists s err h',
     Summarize_BuildContext sp ap messages config rnd h
       = Some ((s, err), h') /\
     extends h h' /\
     run (Summarize_BuildContext sp ap messages config rnd) h
       = Some (Summarize_spec sp ap hist config rnd)) /\
  (forall old rnd', extractTopics old rnd ≡ₚ extractTopics old rnd').
Proof.
  intros Hhist Hcap. repeat split.
  - destruct (LastN_correct h messages hist sp ap config Hhist Hcap)
      as (s & h' & Hcall & Hext & Hl).
    eexists s, _, h'. split; [exact Hcall|]. split; [done|].
    rewrite (run_correct _ _ _ _ _ _ Hcall Hl).
    by destruct (LastN_spec sp ap hist config).
  - destruct (SlidingWindow_correct h messages hist sp ap config Hhist Hcap)
      as (s & h' & Hcall & Hext & Hl).
    eexists s, _, h'. split; [exact Hcall|]. split; [done|].
    rewrite (run_correct _ _ _ _ _ _ Hcall Hl).
    by destruct (SlidingWindow_spec sp ap hist config).
  - destruct (Summarize_correct h messages hist sp ap config rnd Hhist Hcap)
      as (s & h' & Hcall & Hext & Hl).
    eexists s, _, h'. split; [exact Hcall|]. split; [done|].
    rewrite (run_correct _ _ _ _ _ _ Hcall Hl).
    by destruct (Summarize_spec sp ap hist config rnd).
  - intros old rnd'. apply extractTopics_order.
Qed.

(** Claim C7 (as amended).  For positive [max_context_length] and
    [keep_recent] and a history strictly longer than both, Summarize
    returns the system message, then one summary message of role system
    built from the older messages, then exactly the [keep_recent] most
    recent messages as they are. *)
Theorem Summarize_summary_then_recent h messages hist sp ap config rnd mx k :
  contents h messages = Some hist -> s_len messages <= s_cap messages ->
  config_int config "max_context_length" 20 = mx ->
  config_int config "keep_recent" 5 = k ->
  (0 < mx)%Z -> (0 < k)%Z ->
  (mx < Z.of_nat (length hist))%Z -> (k < Z.of_nat (length hist))%Z ->
  exists summary recent,
    run (Summarize_BuildContext sp ap messages config rnd) h
      = Some (system_message sp ap :: summary :: recent, None) /\
    Role (system_message sp ap) = "system" /\
    summary = summary_message
                (createSimpleSummary
                   (take (length hist - Z.to_nat k) hist) rnd) /\
    Role summary = "system" /\
    recent = drop (length hist - Z.to_nat k) hist /\
    Z.of_nat (length recent) = k.
Proof.
  intros Hhist Hcap Hmx Hk Hmx0 Hk0 Hlong Hmany.
  destruct (Summarize_correct h messages hist sp ap config rnd Hhist Hcap)
    as (s & h' & Hcall & _ & Hl).
  eexists _, _. split; [|repeat split].
  - rewrite (run_correct _ _ _ _ _ _ Hcall Hl).
    unfold Summarize_spec. rewrite Hmx, Hk.
    assert ((mx <=? 0)%Z = false) as -> by (apply Z.leb_gt; lia).
    assert ((k <=? 0)%Z = false) as -> by (apply Z.leb_gt; lia).
    assert ((Z.of_nat (length hist) <=? mx)%Z = false) as ->
      by (apply Z.leb_gt; lia).
    assert ((Z.of_nat (length hist) <=? k)%Z = false) as ->
      by (apply Z.leb_gt; lia).
    done.
  - unfold last_n. rewrite length_drop. lia.
Qed.

(** Claim C8.  For [0 < w] and [0 <= o < w], SlidingWindow returns the
    system message followed by a window of the history: for a history
    longer than [w + o], its last [w + o] messages in their order,
    [1 + w + o] messages in all; for a shorter one, all of it. *)
Theorem SlidingWindow_window_and_overlap h messages hist sp ap config w o :
  contents h messages = Some hist -> s_len messages <= s_cap messages ->
  config_int config "window_size" 5 = w ->
  config_int config "overlap" 2 = o ->
  (0 < w)%Z -> (0 <= o)%Z -> (o < w)%Z ->
  exists window,
    run (SlidingWindow_BuildContext sp ap messages config) h
      = Some (system_message sp ap :: window, None) /\
    Role (system_message sp ap) = "system" /\
    ((w + o < Z.of_nat (length hist))%Z ->
       window = drop (length hist - Z.to_nat (w + o)) hist /\
       Z.of_nat (length (system_message sp ap :: window)) = (1 + w + o)%Z) /\
    ((Z.of_nat (length hist) <= w + o)%Z -> window = hist).
Proof.
  intros Hhist Hcap Hw Ho Hw0 Ho0 How.
  destruct (SlidingWindow_correct h messages hist sp ap config Hhist Hcap)
    as (s & h' & Hcall & _ & Hl).
  exists (last_n (w + o) hist). split; [|repeat split].
  - rewrite (run_correct _ _ _ _ _ _ Hcall Hl).
    unfold SlidingWindow_spec. rewrite Hw, Ho.
    assert ((w <=? 0)%Z = false) as -> by (apply Z.leb_gt; lia).
    assert ((o <? 0)%Z = false) as -> by (apply Z.ltb_ge; lia).
    assert ((w <=? o)%Z = false) as -> by (apply Z.leb_gt; lia).
    done.
  - simpl. unfold last_n. rewrite length_drop. lia.
  - intros Hshort. unfold last_n.
    by replace (length hist - Z.to_nat (w + o)) with 0 by lia.
Qed.

End StoreFacts.

Local Abbreviation TR := TestRuntime.runtime.

(** Claim C6 as stated fails for Summarize: two calls with the same
    prompts, history and configuration, between which the runtime visits
    the topic map in a different order, return different summaries. *)
Lemma Summarize_topic_order_varies :
  run (Summarize_BuildContext (RT:=TR) "You are helpful" ""
         (history_slice three) max_2_keep_1 (fun _ => 0)) (history_store three)
  = Some ([ msg "system" "You are helpful";
            msg "system" "Previous conversation summary: The conversation included 1 user messages and 1 assistant responses. Topics discussed: code, error, bug.";
            msg "user" "Here it is" ], None) /\
  run (Summarize_BuildContext (RT:=TR) "You are helpful" ""
         (history_slice three) max_2_keep_1 (fun _ => 1)) (history_store three)
  = Some ([ msg "system" "You are helpful";
            msg "system" "Previous conversation summary: The conversation included 1 user messages and 1 assistant responses. Topics discussed: bug, error, code.";
            msg "user" "Here it is" ], None).
Proof. split; by vm_compute. Qed.

Lemma strategies_functions_of_inputs_witness :
  contents (history_store three) (history_slice three) = Some three /\
  run (LastN_BuildContext (RT:=TR) "You are helpful" ""
         (history_slice three) ∅) (history_store three)
  = Some (LastN_spec "You are helpful" "" three ∅) /\
  run (SlidingWindow_BuildContext (RT:=TR) "You are helpful" ""
         (history_slice three) ∅) (history_store three)
  = Some (SlidingWindow_spec "You are helpful" "" three ∅) /\
  run (Summarize_BuildContext (RT:=TR) "You are helpful" ""
         (history_slice three) ∅ (fun _ => 0)) (history_store three)
  = Some (Summarize_spec (RT:=TR) "You are helpful" "" three ∅ (fun _ => 0)).
Proof.
  assert (contents (history_store three) (history_slice three) = Some three)
    as Hhist by by vm_compute.
  split; [exact Hhist|].
  destruct (strategies_functions_of_inputs (RT:=TR) (history_store three)
              (history_slice three) three "You are helpful" "" ∅
              (fun _ => 0) Hhist)
    as ((_ & _ & _ & _ & _ & H1) & (_ & _ & _ & _ & _ & H2)
        & (_ & _ & _ & _ & _ & H3) & _); [simpl; lia|].
  done.
Defined.

(** Claim C7 as stated fails when [keep_recent] is not below the length
    of the history: with [max_context_length] 1 and [keep_recent] 5, a
    history of three messages comes back whole, without a summary. *)
Lemma Summarize_keeps_all_without_summary :
  (0 < 1)%Z /\ (0 < 5)%Z /\ (1 < Z.of_nat (length three))%Z /\
  run (Summarize_BuildContext (RT:=TR) "You are helpful" ""
         (history_slice three) max_1_keep_5 (fun _ => 0)) (history_store three)
  = Some (msg "system" "You are helpful" :: three, None).
Proof. repeat split; by vm_compute. Qed.

Lemma Summarize_summary_then_recent_witness :
  exists summary,
    run (Summarize_BuildContext (RT:=TR) "You are helpful" ""
           (history_slice three) max_2_keep_1 (fun _ => 0))
        (history_store three)
    = Some ([msg "system" "You are helpful"; summary;
             msg "user" "Here it is"], None) /\
    Role summary = "system".
Proof.
  destruct (Summarize_summary_then_recent (RT:=TR) (history_store three)
              (history_slice three) three "You are helpful" ""
              max_2_keep_1 (fun _ => 0) 2 1)
    as (summary & recent & Hrun & _ & _ & Hrole & -> & _);
    [by vm_compute | simpl; lia | by vm_compute | by vm_compute
    | lia | lia | simpl; lia | simpl; lia |].
  exists summary. by split.
Defined.

Lemma SlidingWindow_window_and_overlap_witness :
  run (SlidingWindow_BuildContext (RT:=TR) "You are helpful" ""
         (history_slice twelve) window_3_overlap_1) (history_store twelve)
  = Some ([ msg "system" "You are helpful";
            msg "user" "Message 5"; msg "assistant" "Response 5";
            msg "user" "Message 6"; msg "assistant" "Response 6" ], None).
Proof.
  destruct (SlidingWindow_window_and_overlap (RT:=TR) (history_store twelve)
              (history_slice twelve) twelve "You are helpful" ""
              window_3_overlap_1 3 1)
    as (window & Hrun & _ & Hlong & _);
    [by vm_compute | simpl; lia | by vm_compute | by vm_compute
    | lia | lia | lia |].
  destruct Hlong as [-> _]; [simpl; lia|]. exact Hrun.
Defined.

End ContextProps.


(** ** Conversation turns with tool calls *)

Module ServicesProps.
Import Tools Services Samples.

Section TurnFacts.
Context `{RT : GoRuntime}.
Variable w : World.

(** *** What [Create] and the saving of tool messages leave alone *)

Lemma Create_chats st m : chats (Create w st m).2 = chats st.
Proof.
  unfold Create. destruct (String.eqb _ _); by destruct (w_create w (creates st)).
Qed.

Lemma Create_allToolCalls st m :
  allToolCalls (Create w st m).2 = allToolCalls st.
Proof.
  unfold Create. destruct (String.eqb _ _); by destruct (w_create w (creates st)).
Qed.

Lemma Create_conversation st m :
  conversationMessages (Create w st m).2 = conversationMessages st.
Proof.
  unfold Create. destruct (String.eqb _ _); by destruct (w_create w (creates st)).
Qed.

Lemma appendToolMessages_chats st sessionID toolMessages :
  chats (appendToolMessages w st sessionID toolMessages) = chats st.
Proof.
  revert st. induction toolMessages as [|tm rest IH]; intros st; simpl; [done|].
  pose proof (Create_chats st (tool_message sessionID tm)) as Hc.
  destruct (Create w st (tool_message sessionID tm)) as [[m|err] st'];
    rewrite IH; simpl in *; done.
Qed.

Lemma appendToolMessages_allToolCalls st sessionID toolMessages :
  allToolCalls (appendToolMessages w st sessionID toolMessages)
  = allToolCalls st.
Proof.
  revert st. induction toolMessages as [|tm rest IH]; intros st; simpl; [done|].
  pose proof (Create_allToolCalls st (tool_message sessionID tm)) as Hc.
  destruct (Create w st (tool_message sessionID tm)) as [[m|err] st'];
    rewrite IH; simpl in *; done.
Qed.

(** *** The loop makes at most five provider calls *)

Lemma iteration_chats session userMessage availableTools req st :
  match iteration w session userMessage availableTools req st with
  | Continue st' => chats st' = S (chats st)
  | Return _ st' => chats st' <= S (chats st)
  end.
Proof.
  unfold iteration.
  destruct (w_strategies w !! _) as [strategy|]; [|lia].
  destruct (BuildContext strategy _ _ _ _ _) as [contextMessages [err|]]; [lia|].
  destruct (w_providers w !! _) as [provider|]; [|lia].
  destruct (negb (IsAvailable provider (chats st))); [lia|].
  destruct (Chat provider (chats st) _) as [llmResponse|err]; [|simpl; lia].
  destruct (parseToolCallsFromResponse w _ _ _) as [toolCalls drawn].
  destruct toolCalls as [|call calls].
  - unfold saveAssistantMessage.
    match goal with
    | |- context [Create w ?s ?m] =>
        pose proof (Create_chats s m) as Hc;
        destruct (Create w s m) as [[m'|err] st']
    end; simpl in *; lia.
  - destruct (ExecuteToolCalls w _ _ _) as [d [toolResults|v]|];
      [|simpl; lia|simpl; lia].
    unfold saveAssistantMessageWithToolCalls.
    match goal with
    | |- context [Create w ?s ?m] =>
        pose proof (Create_chats s m) as Hc;
        destruct (Create w s m) as [[m'|err] st']
    end; simpl in *; [|lia].
    rewrite appendToolMessages_chats. simpl. lia.
Qed.

Lemma loop_chats remaining session userMessage availableTools req st :
  chats (loop w remaining session userMessage availableTools req st).2
  <= chats st + remaining.
Proof.
  revert st. induction remaining as [|n IH]; intros st; simpl; [lia|].
  pose proof (iteration_chats session userMessage availableTools req st) as Hi.
  destruct (iteration w session userMessage availableTools req st)
    as [st'|r st'].
  - specialize (IH st'). lia.
  - simpl. lia.
Qed.

(** *** Tool calls that return *)

Lemma executeSingleToolCall_returns sessionID toolCall c :
  tools_return w ->
  exists d r,
    executeSingleToolCall w sessionID toolCall c = Finishes d (Returns r) /\
    r_ID r = tc_ID toolCall /\ r_ToolName r = tc_Name toolCall.
Proof.
  intros Htools. unfold executeSingleToolCall.
  destruct (json_Unmarshal (tc_Arguments toolCall)) as [arguments|err];
    [|by eauto].
  destruct (getAgentIDFromSession w sessionID) as [agentID|err]; [|by eauto].
  unfold executeToolWithContext.
  destruct (w_tools w !! tc_Name toolCall) as [tool|] eqn:Htool; [|by eauto].
  destruct (negb (Tool_IsAvailable tool (w_ctx w))); [by eauto|].
  match goal with
  | |- context [Tool_Execute tool ?e ?i ?c] =>
      destruct (Htools _ tool e i c Htool) as (d & r & ->)
  end.
  by eauto.
Qed.


Lemma executeSingleToolCall_doomed sessionID toolCall c d r :
  executeSingleToolCall w sessionID toolCall c = Finishes d (Returns r) ->
  doomed w toolCall -> r_Success r = false /\ r_Error r <> "".
Proof.
  unfold executeSingleToolCall, doomed. intros Hrun Hdoomed.
  destruct (json_Unmarshal (tc_Arguments toolCall)) as [arguments|err].
  2:{ by injection Hrun as _ <-. }
  destruct (getAgentIDFromSession w sessionID) as [agentID|err].
  2:{ by injection Hrun as _ <-. }
  unfold executeToolWithContext in Hrun.
  destruct Hdoomed as [Hnone|[[err Herr]|(bt & args & err & Hbt & [= <-] & Hsan)]];
    [|done|].
  - rewrite Hnone in Hrun. by injection Hrun as _ <-.
  - rewrite Hbt in Hrun. simpl in Hrun.
    destruct (negb (available bt (w_ctx w))).
    { by injection Hrun as _ <-. }
    unfold BaseTool_Execute in Hrun. rewrite Hsan in Hrun.
    by injection Hrun as _ <-.
Qed.

Lemma ExecuteToolCalls_returns sessionID toolCalls c :
  tools_return w ->
  exists d toolResults,
    ExecuteToolCalls w sessionID toolCalls c
      = Finishes d (Returns toolResults) /\
    length toolResults = length toolCalls /\
    forall j toolCall, toolCalls !! j = Some toolCall ->
      exists r, toolResults !! j = Some r /\
        r_ID r = tc_ID toolCall /\
        (doomed w toolCall -> r_Success r = false /\ r_Error r <> "").
Proof.
  intros Htools. revert c.
  induction toolCalls as [|toolCall rest IH]; intros c; simpl.
  - exists 0%Z, []. repeat split. intros j ? Hj. by rewrite lookup_nil in Hj.
  - destruct (executeSingleToolCall_returns sessionID toolCall c Htools)
      as (d & r & Hrun & Hid & _).
    rewrite Hrun. destruct (IH (S c)) as (d' & results & -> & Hlen & Hres).
    exists (d + d')%Z, (r :: results). split; [done|].
    split; [simpl; by rewrite Hlen|].
    intros [|j] call Hj; simpl in Hj.
    + injection Hj as <-. exists r. split; [done|]. split; [done|].
      by apply (executeSingleToolCall_doomed _ _ _ _ _ Hrun).
    + by apply Hres.
Qed.

(** *** Saving messages *)

Lemma Create_succeeds st m :
  w_create w (creates st) = None ->
  exists m' st',
    Create w st m = (inl m', st') /\
    ContextStrategy.Role m' = ContextStrategy.Role m /\
    ContextStrategy.Content m' = ContextStrategy.Content m /\
    conversationMessages st' = conversationMessages st /\
    allToolCalls st' = allToolCalls st /\
    chats st' = chats st.
Proof.
  intros Hc. unfold Create. rewrite Hc.
  destruct (String.eqb _ _); by eexists _, _.
Qed.


Lemma appendToolMessages_conversation st sessionID toolMessages :
  (forall n, w_create w n = None) ->
  ConvertMessages
    (conversationMessages (appendToolMessages w st sessionID toolMessages))
  = ConvertMessages (conversationMessages st)
      ++ (tool_chat_message <$> toolMessages).
Proof.
  intros Hc. revert st.
  induction toolMessages as [|tm rest IH]; intros st; simpl.
  - by rewrite app_nil_r.
  - destruct (Create_succeeds st (tool_message sessionID tm) (Hc _))
      as (m' & st' & -> & Hrole & Hcontent & Hconv & _).
    rewrite IH. simpl. rewrite Hconv. unfold ConvertMessages.
    rewrite fmap_app, <- app_assoc. simpl.
    by rewrite Hrole, Hcontent.
Qed.

(** *** An iteration with tool calls goes on, whatever their results *)

(** Claim C5.  In an iteration whose provider response requests the tool
    calls [toolCalls], when every registered tool returns a result and
    the assistant message can be stored, the iteration ends in
    [Continue]: the turn is not aborted.  [ExecuteToolCalls] yields one
    result per requested call, in order and under the call's id, all of
    them appended to [allToolCalls]; the result of a call that names an
    unregistered tool, carries malformed arguments or fails the
    validation of its [BaseTool] has [Success = false] and an error
    text.  When the messages can be stored, the conversation of the next
    iteration is the old one, the assistant message and one tool message
    per result. *)
Theorem failed_tool_calls_continue session userMessage availableTools req st
    strategy contextMessages provider llmResponse toolCalls drawn :
  w_strategies w !! cs_ContextStrategy session = Some strategy ->
  BuildContext strategy
    (w_BuildSystemPrompt w (ag_SystemPrompt (cs_Agent session)) availableTools)
    "" (conversationMessages st) (cs_ContextConfig session) (chats st)
    = (contextMessages, None) ->
  w_providers w !! ag_Provider (cs_Agent session) = Some provider ->
  IsAvailable provider (chats st) = true ->
  (forall llmRequest, Chat provider (chats st) llmRequest = inl llmResponse) ->
  parseToolCallsFromResponse w (resp_Content llmResponse)
    (resp_Metadata llmResponse) (uuids st) = (toolCalls, drawn) ->
  toolCalls <> [] ->
  tools_return w ->
  w_create w (creates st) = None ->
  exists toolResults st',
    iteration w session userMessage availableTools req st = Continue st' /\
    allToolCalls st' = allToolCalls st ++ toolResults /\
    length toolResults = length toolCalls /\
    (forall j toolCall, toolCalls !! j = Some toolCall ->
       exists r, toolResults !! j = Some r /\
         r_ID r = tc_ID toolCall /\
         (doomed w toolCall -> r_Success r = false /\ r_Error r <> "")) /\
    ((forall n, w_create w n = None) ->
     ConvertMessages (conversationMessages st')
     = ConvertMessages (conversationMessages st)
         ++ {| cm_Role := "assistant"; cm_Content := resp_Content llmResponse |}
         :: (tool_chat_message <$> CreateToolResultMessages toolResults)).
Proof.
  intros Hstrategy Hbuild Hprovider Havailable Hchat Hparse Hcalls Htools
    Hcreate.
  destruct (ExecuteToolCalls_returns (cs_ID session) toolCalls (executions st)
              Htools) as (d & toolResults & Hrun & Hlen & Hres).
  destruct (Create_succeeds (after_tools (after_parse (after_chat st) drawn)
                               toolResults)
              (assistant_message (cs_ID session) llmResponse
                 (<["tool_call_details" :=
                      VMaps (tool_call_details toolCalls toolResults)]>
                  (with_usage llmResponse
                    (<["provider" := VString (resp_Model llmResponse)]>
                     (<["model" := VString (resp_Model llmResponse)]>
                     (<["context_length" :=
                          VInt (Z.of_nat (length contextMessages))]>
                     (<["strategy" :=
                          VString (cs_ContextStrategy session)]>
                     (<["tool_calls" :=
                          VInt (Z.of_nat (length toolCalls))]>
                     (<["finish_reason" := VString "tool_calls"]> ∅)))))))))
              Hcreate)
    as (assistant & st4 & Hsave & Hrole & Hcontent & Hconv & Hall & _).
  exists toolResults. eexists. split; [|split; [|split; [done|split; [done|]]]].
  - unfold iteration. rewrite Hstrategy, Hbuild, Hprovider, Havailable.
    simpl negb. cbv iota. rewrite Hchat.
    change (uuids (after_chat st)) with (uuids st). rewrite Hparse.
    destruct toolCalls as [|call calls]; [done|].
    change (executions (after_parse (after_chat st) drawn))
      with (executions st).
    rewrite Hrun. unfold saveAssistantMessageWithToolCalls.
    rewrite Hsave. done.
  - rewrite appendToolMessages_allToolCalls. simpl. by rewrite Hall.
  - intros Hall_creates.
    rewrite (appendToolMessages_conversation _ _ _ Hall_creates). simpl.
    rewrite Hconv. simpl. unfold ConvertMessages.
    rewrite fmap_app, <- app_assoc. simpl. by rewrite Hrole, Hcontent.
Qed.

(** *** A turn that never stops asking for tools *)

(** Claim C4.  A turn calls the provider at most 5 times, once per
    iteration of the loop of [processWithToolCalls].  When the history
    can be read, the strategy and the provider of the session are
    registered and do not fail, every provider response requests tool
    calls, every registered tool returns and the messages can be stored,
    the turn ends after exactly 5 provider calls with the error
    [MAX_ITERATIONS_EXCEEDED]. *)
Theorem loop_bounded session userMessage availableTools req st :
  chats (processWithToolCalls w session userMessage availableTools req st).2
    <= chats st + 5 /\
  forall strategy provider messages,
    w_history w (cs_ID session) = inl messages ->
    w_strategies w !! cs_ContextStrategy session = Some strategy ->
    (forall sp history c,
       (BuildContext strategy sp "" history (cs_ContextConfig session) c).2
       = None) ->
    w_providers w !! ag_Provider (cs_Agent session) = Some provider ->
    (forall n, IsAvailable provider n = true) ->
    (forall n llmRequest, exists llmResponse,
       Chat provider n llmRequest = inl llmResponse /\
       forall ids,
         (parseToolCallsFromResponse w (resp_Content llmResponse)
            (resp_Metadata llmResponse) ids).1 <> []) ->
    tools_return w ->
    (forall n, w_create w n = None) ->
    exists st',
      processWithToolCalls w session userMessage availableTools req st
        = (Err MAX_ITERATIONS_EXCEEDED, st') /\
      chats st' = chats st + 5.
Proof.
  split.
  { unfold processWithToolCalls.
    destruct (w_history w (cs_ID session)) as [messages|err]; [|simpl; lia].
    apply (loop_chats 5 _ _ _ _ (with_conversation st messages)). }
  intros strategy provider messages Hhistory Hstrategy Hbuild Hprovider
    Havailable Hchat Htools Hcreate.
  assert (forall st0, exists st1,
            iteration w session userMessage availableTools req st0
              = Continue st1 /\ chats st1 = S (chats st0)) as Hstep.
  { intros st0.
    assert (exists st1, iteration w session userMessage availableTools req st0
                        = Continue st1) as [st1 Hst1].
    { unfold iteration. rewrite Hstrategy.
      destruct (BuildContext strategy _ _ _ _ _) as [contextMessages err] eqn:Hb.
      pose proof (Hbuild
        (w_BuildSystemPrompt w (ag_SystemPrompt (cs_Agent session))
           availableTools) (conversationMessages st0) (chats st0)) as Hnone.
      rewrite Hb in Hnone. simpl in Hnone. subst err.
      rewrite Hprovider, Havailable. simpl negb. cbv iota.
      match goal with
      | |- context [Chat provider ?n ?r] =>
          destruct (Hchat n r) as (llmResponse & -> & Hparse)
      end.
      specialize (Hparse (uuids (after_chat st0))).
      destruct (parseToolCallsFromResponse w _ _ _) as [toolCalls drawn].
      simpl in Hparse. destruct toolCalls as [|call calls]; [done|].
      destruct (ExecuteToolCalls_returns (cs_ID session) (call :: calls)
                  (executions (after_parse (after_chat st0) drawn)) Htools)
        as (d & toolResults & -> & _).
      unfold saveAssistantMessageWithToolCalls.
      match goal with
      | |- context [Create w ?s ?m] =>
          destruct (Create_succeeds s m (Hcreate _)) as (m' & s' & -> & _)
      end.
      by eexists. }
    exists st1. split; [done|].
    pose proof (iteration_chats session userMessage availableTools req st0)
      as Hi.
    by rewrite Hst1 in Hi. }
  unfold processWithToolCalls. rewrite Hhistory.
  set (st0 := with_conversation st messages).
  assert (chats st0 = chats st) as <- by done.
  destruct (Hstep st0) as (st1 & H1 & C1).
  destruct (Hstep st1) as (st2 & H2 & C2).
  destruct (Hstep st2) as (st3 & H3 & C3).
  destruct (Hstep st3) as (st4 & H4 & C4).
  destruct (Hstep st4) as (st5 & H5 & C5).
  exists st5. split; [|lia].
  unfold maxIterations. simpl. by rewrite H1, H2, H3, H4, H5.
Qed.

End TurnFacts.

Local Abbreviation TR := TestRuntime.runtime.

Lemma test_world_tools_return : tools_return test_world.
Proof.
  intros name tool execCtx input c Htool.
  unfold test_world in Htool. simpl in Htool.
  apply lookup_singleton_Some in Htool as [_ <-].
  simpl. unfold BaseTool_Execute.
  destruct (SanitizeInput _ _) as [sanitized|err]; [|by eexists _, _].
  destruct (is_done _); [by eexists _, _|].
  unfold await. simpl.
  destruct (done_in (Ctx execCtx)) as [t|]; [|by eexists _, _].
  repeat (case_match; try by eexists _, _).
Qed.

Lemma failed_tool_calls_continue_witness :
  exists toolResults st',
    iteration (RT:=TR) test_world test_session user_message ["echo"]
      test_request start = Continue st' /\
    allToolCalls st' = toolResults /\
    length toolResults = 3 /\
    (exists r, toolResults !! 0 = Some r /\ r_ID r = "call-1" /\
               r_Success r = false /\ r_Error r <> "") /\
    (exists r, toolResults !! 1 = Some r /\ r_ID r = "call-2" /\
               r_Success r = false /\ r_Error r <> "") /\
    (cm_Role <$> ConvertMessages (conversationMessages st'))
      = ["user"; "assistant"; "tool"; "tool"; "tool"].
Proof.
  destruct (failed_tool_calls_continue (RT:=TR) test_world test_session
              user_message ["echo"] test_request start keep_all
              [user_message] insistent insistent_response requested_calls 0)
    as (toolResults & st' & Hiter & Hall & Hlen & Hres & Hconv);
    [reflexivity | reflexivity | reflexivity | reflexivity | reflexivity
    | reflexivity | discriminate | exact test_world_tools_return
    | reflexivity | ].
  exists toolResults, st'.
  split; [exact Hiter|]. split; [exact Hall|]. split; [exact Hlen|].
  split; [|split].
  - destruct (Hres 0 _ eq_refl) as (r & Hr & Hid & Hfailed).
    exists r. split; [exact Hr|]. split; [exact Hid|].
    apply Hfailed. left. reflexivity.
  - destruct (Hres 1 _ eq_refl) as (r & Hr & Hid & Hfailed).
    exists r. split; [exact Hr|]. split; [exact Hid|].
    apply Hfailed. right. left. eexists. reflexivity.
  - rewrite (Hconv (fun _ => eq_refl)).
    destruct toolResults as [|r1 [|r2 [|r3 [|]]]]; try discriminate Hlen.
    reflexivity.
Defined.

Lemma loop_bounded_witness :
  exists st',
    processWithToolCalls (RT:=TR) test_world test_session user_message
      ["echo"] test_request start = (Err MAX_ITERATIONS_EXCEEDED, st') /\
    chats st' = 5.
Proof.
  apply (proj2 (loop_bounded (RT:=TR) test_world test_session user_message
                  ["echo"] test_request start) keep_all insistent []);
    [reflexivity | reflexivity | reflexivity | reflexivity | reflexivity
    | | exact test_world_tools_return | reflexivity].
  intros n llmRequest. exists insistent_response.
  split; [reflexivity|]. intros ids. discriminate.
Defined.

End ServicesProps.


(** ** The tool registry *)

Module RegistryProps.
Import Tools.

Section RegistryFacts.
Context `{RT : GoRuntime}.

Lemma eqb_empty_false (s : string) : String.eqb s "" = false <-> s <> "".
Proof. by rewrite String.eqb_neq. Qed.

(** Property X1.  A successful [Register] files the tool under its name
    and nothing else changes: [Get] finds it, [Count] grows by one, the
    other names keep their tools, and the name is taken from then on. *)
Theorem Register_then_Get r tool r' :
  Register r (Some tool) = (r', None) ->
  Tool_Name tool <> "" /\
  Get r (Tool_Name tool) = None /\
  Get r' (Tool_Name tool) = Some tool /\
  Count r' = S (Count r) /\
  (forall name, name <> Tool_Name tool -> Get r' name = Get r name) /\
  (forall other, Tool_Name other = Tool_Name tool ->
     Register r' (Some other) = (r', Some ErrToolAlreadyExists)).
Proof.
  unfold Register, Get, Count.
  destruct (String.eqb (Tool_Name tool) "") eqn:Hname; [done|].
  destruct (r !! Tool_Name tool) eqn:Hget; [done|].
  intros [= <-]. apply eqb_empty_false in Hname.
  split; [done|]. split; [done|]. split; [|split; [|split]].
  - apply lookup_insert_eq.
  - by rewrite map_size_insert_None.
  - intros name Hne. by rewrite lookup_insert_ne.
  - intros other Hother. rewrite Hother.
    destruct (String.eqb (Tool_Name tool) "") eqn:Hname'.
    { by apply String.eqb_eq in Hname'. }
    by rewrite lookup_insert_eq.
Qed.

(** Property X2.  A [Register] that returns an error leaves the registry
    as it was; it does so for a nil tool, for a tool without a name and
    for a name that is taken, and in no other case. *)
Theorem Register_error_unchanged r tool :
  (forall r' err, Register r tool = (r', Some err) -> r' = r) /\
  ((Register r tool).2 = Some ErrNilTool <-> tool = None) /\
  ((Register r tool).2 = Some ErrEmptyToolName <->
     exists t, tool = Some t /\ Tool_Name t = "") /\
  ((Register r tool).2 = Some ErrToolAlreadyExists <->
     exists t, tool = Some t /\ Tool_Name t <> "" /\
               is_Some (Get r (Tool_Name t))) /\
  ((Register r tool).2 = None <->
     exists t, tool = Some t /\ Tool_Name t <> "" /\
               Get r (Tool_Name t) = None).
Proof.
  unfold Register, Get. destruct tool as [t|]; simpl.
  2:{ repeat split; try done; try by intros (t & ? & _).
      by intros ? ? [= <- _]. }
  destruct (String.eqb (Tool_Name t) "") eqn:Hname.
  - apply String.eqb_eq in Hname. simpl.
    repeat split; try done.
    + by intros ? ? [= <- _].
    + by exists t.
    + by intros (? & [= <-] & ? & _).
    + by intros (? & [= <-] & ? & _).
  - apply eqb_empty_false in Hname.
    destruct (r !! Tool_Name t) as [old|] eqn:Hget; simpl.
    + repeat split; try done.
      * by intros ? ? [= <- _].
      * by intros (? & [= <-] & ?).
      * intros _. exists t. by rewrite Hget.
      * intros (? & [= <-] & _ & Hnone). by rewrite Hget in Hnone.
    + repeat split; try done.
      * by intros (? & [= <-] & ?).
      * intros (? & [= <-] & _ & Hsome). rewrite Hget in Hsome.
        by destruct Hsome.
      * intros _. by exists t.
Qed.

(** Property X3.  [Remove] reports whether the name was registered;
    afterwards the name is free, the other names keep their tools, [Count]
    has dropped by one exactly when something was removed, and a tool of
    that name can be registered again. *)
Theorem Remove_then_Get r name :
  (Remove r name).2 = bool_decide (is_Some (Get r name)) /\
  Get (Remove r name).1 name = None /\
  (forall other, other <> name ->
     Get (Remove r name).1 other = Get r other) /\
  Count r = Count (Remove r name).1 + (if (Remove r name).2 then 1 else 0) /\
  (forall tool, Tool_Name tool = name -> name <> "" ->
     (Register (Remove r name).1 (Some tool)).2 = None).
Proof.
  unfold Remove, Get, Count, Register.
  destruct (r !! name) as [old|] eqn:Hget; simpl.
  - split; [done|]. split; [apply lookup_delete_eq|].
    split; [by intros; apply lookup_delete_ne|].
    split.
    + rewrite <- (insert_delete_id r name old) at 1 by done.
      rewrite map_size_insert_None by apply lookup_delete_eq. lia.
    + intros tool <- Hne. apply eqb_empty_false in Hne. rewrite Hne.
      by rewrite lookup_delete_eq.
  - split; [done|]. split; [done|]. split; [done|]. split; [lia|].
    intros tool <- Hne. apply eqb_empty_false in Hne. rewrite Hne.
    by rewrite Hget.
Qed.

(** Property X4.  [List] names every registered tool exactly once,
    whatever the order of the map, and [Count] is its length; after
    [Clear] both are empty. *)
Theorem List_names_once r c :
  NoDup (List r c) /\
  (forall name, name ∈ List r c <-> is_Some (Get r name)) /\
  length (List r c) = Count r /\
  List (Clear r) c = [] /\ Count (Clear r) = 0.
Proof.
  unfold List, Get, Count, Clear.
  pose proof (MapRange_perm _ c r) as Hperm.
  split; [|split; [|split; [|split]]].
  - rewrite Hperm. apply NoDup_fst_map_to_list.
  - intros name. rewrite Hperm. rewrite list_elem_of_fmap. split.
    + intros ([k t] & -> & Hin). apply elem_of_map_to_list in Hin. by eexists.
    + intros [t Ht]. exists (name, t). split; [done|].
      by apply elem_of_map_to_list.
  - rewrite length_fmap, Hperm. by rewrite length_map_to_list.
  - pose proof (MapRange_perm _ c (∅ : gmap string Tool)) as Hemp.
    rewrite map_to_list_empty in Hemp. apply Permutation_nil_r in Hemp.
    by rewrite Hemp.
  - apply map_size_empty.
Qed.

(** Property X5.  [GetSchemas] without names returns one schema per
    registered tool; with names it returns the schemas of the registered
    ones in the order asked, leaving out the names that are not
    registered. *)
Theorem GetSchemas_names r toolNames c :
  length (GetSchemas r [] c) = Count r /\
  (forall tool, (exists name, Get r name = Some tool) ->
     Tool_Schema tool ∈ GetSchemas r [] c) /\
  (toolNames <> [] ->
   GetSchemas r toolNames c
   = Tool_Schema <$> omap (Get r) toolNames) /\
  (toolNames <> [] ->
   (forall name, name ∈ toolNames -> Get r name = None) ->
   GetSchemas r toolNames c = []).
Proof.
  unfold GetSchemas, Get, Count.
  pose proof (MapRange_perm _ c r) as Hperm.
  split; [|split; [|split]].
  - rewrite length_fmap, Hperm. by rewrite length_map_to_list.
  - intros tool [name Hname]. apply list_elem_of_fmap.
    exists (name, tool). split; [done|]. rewrite Hperm.
    by apply elem_of_map_to_list.
  - destruct toolNames as [|n rest]; [done|]. intros _.
    generalize (n :: rest). intros l. induction l as [|x l IH]; [done|].
    cbn. destruct (r !! x); cbn; [f_equal|]; exact IH.
  - destruct toolNames as [|n rest]; [done|]. intros _.
    generalize (n :: rest). intros l Hall.
    induction l as [|x l IH]; [done|].
    cbn. rewrite (Hall x) by left. cbn. apply IH.
    intros name Hin. apply Hall. by right.
Qed.

(** Property X6.  From an empty registry on, every tool is filed under the
    name it reports, and never under the empty name. *)
Theorem Registry_filed_by_name r tool name :
  filed_by_name NewRegistry /\
  (filed_by_name r -> filed_by_name (Register r tool).1) /\
  (filed_by_name r -> filed_by_name (Remove r name).1) /\
  filed_by_name (Clear r).
Proof.
  unfold filed_by_name, NewRegistry, Clear.
  split; [by intros ? ? ?|]. split; [|split]; [| |by intros ? ? ?].
  - intros Hr n t. unfold Register.
    destruct tool as [new|]; simpl; [|apply Hr].
    destruct (String.eqb (Tool_Name new) "") eqn:Hname; simpl; [apply Hr|].
    apply eqb_empty_false in Hname.
    destruct (r !! Tool_Name new) eqn:Hget; simpl; [apply Hr|].
    destruct (decide (n = Tool_Name new)) as [->|Hne].
    + rewrite lookup_insert_eq. by intros [= <-].
    + rewrite lookup_insert_ne by done. apply Hr.
  - intros Hr n t. unfold Remove.
    destruct (r !! name) eqn:Hget; simpl; [|apply Hr].
    intros Hd. apply lookup_delete_Some in Hd as [_ Hd]. by apply Hr.
Qed.

End RegistryFacts.
Import Samples.
Local Abbreviation TR := TestRuntime.runtime.

Lemma Register_then_Get_witness :
  Get (Register NewRegistry
         (Some (BaseTool_Tool (RT:=TR) validation_tool))).1 "validation_tool"
    = Some (BaseTool_Tool (RT:=TR) validation_tool) /\
  Count (Register NewRegistry
           (Some (BaseTool_Tool (RT:=TR) validation_tool))).1 = 1.
Proof.
  destruct (Register_then_Get NewRegistry
              (BaseTool_Tool (RT:=TR) validation_tool) _ eq_refl)
    as (_ & _ & Hget & Hcount & _).
  split; [exact Hget | exact Hcount].
Defined.

End RegistryProps.


(** ** Validating and sanitizing, together *)

Module InputProps.
Import Tools ToolsProps.

Section InputFacts.
Context `{RT : GoRuntime}.

Lemma convertValue_valid param v :
  validateParameter param v = None ->
  exists converted,
    convertValue (Type_ param) v = inl converted /\
    validateParameter param converted = None.
Proof.
  intros Hv. pose proof Hv as Hc. apply validateParameter_conforms in Hc.
  unfold convertValue.
  destruct Hc as [Hreq|s Ht He Hp|v num Ht Hn Hr|b Ht|s Ht Hs|m Ht|fs Ht
                 |l Ht|l Ht|l Ht];
    simpl is_nil; cbv iota; rewrite ?Ht; simpl String.eqb; cbv iota;
    try (by eexists).
  - destruct (is_nil v) eqn:Hnil.
    { destruct v; try done. by eexists. }
    destruct Hn as [f|f|z|z|z|s f Hs]; try (by eexists).
    rewrite Hs. eexists. split; [done|].
    apply validateParameter_conforms.
    eapply conforms_number; [done|constructor|done].
  - destruct Hs as [Hs|Hs]; rewrite Hs; simpl; eexists; (split; [done|]);
      apply validateParameter_conforms; by constructor.
Qed.

Lemma convertValue_idempotent expectedType v converted :
  convertValue expectedType v = inl converted ->
  convertValue expectedType converted = inl converted.
Proof.
  unfold convertValue.
  destruct (is_nil v) eqn:Hnil; [by intros [= <-]|].
  destruct (String.eqb expectedType "string").
  { destruct v; intros [= <-]; done. }
  destruct (String.eqb expectedType "number").
  { destruct v; try done; try (by intros [= <-]).
    destruct (ParseFloat s); [|done]. by intros [= <-]. }
  destruct (String.eqb expectedType "boolean").
  { destruct v; try done; try (by intros [= <-]).
    destruct (String.eqb (ToLower s) "true"); [by intros [= <-]|].
    destruct (String.eqb (ToLower s) "false"); [by intros [= <-]|done]. }
  intros [= <-]. by rewrite Hnil.
Qed.

Lemma sanitizeLoop_present parameters input acc m param v :
  NoDup (Name <$> parameters) ->
  sanitizeLoop parameters input acc = inl m ->
  param ∈ parameters -> input !! Name param = Some v ->
  exists converted,
    convertValue (Type_ param) v = inl converted /\
    m !! Name param = Some converted.
Proof.
  revert acc. induction parameters as [|p ps IH]; intros acc Hnd Hrun Hin Hv.
  { by apply elem_of_nil in Hin. }
  rewrite fmap_cons in Hnd. apply NoDup_cons in Hnd as [Hp Hnd].
  simpl in Hrun. apply elem_of_cons in Hin as [->|Hin].
  - rewrite Hv in Hrun.
    destruct (convertValue (Type_ p) v) as [converted|msg]; [|done].
    exists converted. split; [done|].
    rewrite (sanitizeLoop_other _ _ _ _ (Name p) Hrun).
    + apply lookup_insert_eq.
    + intros q Hq Heq. apply Hp. rewrite <- Heq.
      by apply list_elem_of_fmap_2.
  - destruct (input !! Name p) as [w|].
    + destruct (convertValue (Type_ p) w); [|done]. by eapply IH.
    + destruct (negb (is_nil (Default p))); by eapply IH.
Qed.

Lemma sanitizeLoop_inr parameters input acc err :
  sanitizeLoop parameters input acc = inr err ->
  exists param v msg,
    param ∈ parameters /\ input !! Name param = Some v /\
    convertValue (Type_ param) v = inr msg /\
    err = NewValidationError (Name param) msg v.
Proof.
  revert acc. induction parameters as [|p ps IH]; intros acc Hrun; [done|].
  simpl in Hrun. destruct (input !! Name p) as [w|] eqn:Hw.
  - destruct (convertValue (Type_ p) w) as [converted|msg] eqn:Hc.
    + destruct (IH _ Hrun) as (param & v & msg & Hin & ?).
      exists param, v, msg. split; [by right | done].
    + injection Hrun as <-. exists p, w, msg. split; [by left | done].
  - assert (exists acc', sanitizeLoop ps input acc' = inr err) as [acc' Hrun'].
    { destruct (negb (is_nil (Default p))); by eexists. }
    destruct (IH _ Hrun') as (param & v & msg & Hin & ?).
    exists param, v, msg. split; [by right | done].
Qed.

Lemma sanitizeLoop_inl parameters input acc :
  (forall param v, param ∈ parameters -> input !! Name param = Some v ->
     exists converted, convertValue (Type_ param) v = inl converted) ->
  exists m, sanitizeLoop parameters input acc = inl m.
Proof.
  intros Hall.
  destruct (sanitizeLoop parameters input acc) as [m|err] eqn:Hrun;
    [by eexists|].
  apply sanitizeLoop_inr in Hrun as (param & v & msg & Hin & Hv & Hc & _).
  destruct (Hall param v Hin Hv) as [converted Hconv]. congruence.
Qed.

(** Property X7.  Whether [ValidateInput] accepts an input does not depend
    on the order in which the map is visited.  It rejects an input with a
    key the schema does not declare and an input that binds a required
    parameter to nil; a schema without parameters accepts the empty input
    only. *)
Theorem ValidateInput_rejects schema input c c' :
  (ValidateInput schema input c = None <->
   ValidateInput schema input c' = None) /\
  (forall k v, input !! k = Some v ->
     (forall param, param ∈ Parameters schema -> Name param <> k) ->
     ValidateInput schema input c <> None) /\
  (forall param, NoDup (Name <$> Parameters schema) ->
     param ∈ Parameters schema -> Required param = true ->
     input !! Name param = Some VNil ->
     ValidateInput schema input c <> None) /\
  (Parameters schema = [] ->
   (ValidateInput schema input c = None <-> input = ∅)).
Proof.
  split; [by rewrite !ValidateInput_None|]. split; [|split].
  - intros k v Hkv Hundeclared Hok.
    apply ValidateInput_None in Hok as [_ Hok].
    destruct (Hok k v Hkv) as (param & Hfind & _).
    apply findParameter_Some in Hfind as [Hin Hname].
    by apply (Hundeclared param).
  - intros param Hnd Hin Hreq Hnil Hok.
    apply ValidateInput_None in Hok as [_ Hok].
    destruct (Hok _ _ Hnil) as (param' & Hfind & Hconf).
    rewrite (findParameter_NoDup _ _ Hnd Hin) in Hfind.
    injection Hfind as <-.
    apply validateParameter_conforms in Hconf.
    unfold validateParameter in Hconf. simpl in Hconf.
    by rewrite Hreq in Hconf.
  - intros Hempty. rewrite ValidateInput_None, Hempty. split.
    + intros [_ Hok]. apply map_empty. intros k.
      destruct (input !! k) as [v|] eqn:Hkv; [|done].
      by destruct (Hok k v Hkv) as (param & Hfind & _).
    + intros ->. split; [by intros ? ?%elem_of_nil|].
      intros k v Hkv. by rewrite lookup_empty in Hkv.
Qed.

(** Property X8.  An input that [ValidateInput] accepts is one
    [SanitizeInput] can convert, and every value it supplies is still
    valid for its parameter after the conversion. *)
Theorem valid_input_sanitizes schema input c :
  NoDup (Name <$> Parameters schema) ->
  ValidateInput schema input c = None ->
  exists sanitized,
    SanitizeInput schema input = inl sanitized /\
    forall param v, param ∈ Parameters schema ->
      input !! Name param = Some v ->
      exists converted,
        sanitized !! Name param = Some converted /\
        convertValue (Type_ param) v = inl converted /\
        validateParameter param converted = None.
Proof.
  intros Hnd Hok. apply ValidateInput_None in Hok as [_ Hok].
  assert (forall param v, param ∈ Parameters schema ->
            input !! Name param = Some v ->
            validateParameter param v = None) as Hvalid.
  { intros param v Hin Hv. destruct (Hok _ _ Hv) as (param' & Hfind & Hconf).
    rewrite (findParameter_NoDup _ _ Hnd Hin) in Hfind.
    injection Hfind as <-. by apply validateParameter_conforms. }
  destruct (sanitizeLoop_inl (Parameters schema) input ∅) as [m Hm].
  { intros param v Hin Hv.
    destruct (convertValue_valid param v (Hvalid _ _ Hin Hv))
      as (converted & Hconv & _).
    by exists converted. }
  exists m. split; [done|]. intros param v Hin Hv.
  destruct (sanitizeLoop_present _ _ _ _ _ _ Hnd Hm Hin Hv)
    as (converted & Hconv & Hlookup).
  exists converted. split; [done|]. split; [done|].
  destruct (convertValue_valid param v (Hvalid _ _ Hin Hv))
    as (converted' & Hconv' & Hvalid').
  congruence.
Qed.

(** Property X9.  [SanitizeInput] fails exactly when a declared parameter
    is supplied with a value that cannot be converted to its type, and the
    error names such a parameter; a missing parameter, required or not, is
    no error.  When it succeeds every supplied declared parameter is bound
    to its converted value. *)
Theorem SanitizeInput_converts schema input :
  NoDup (Name <$> Parameters schema) ->
  (forall sanitized, SanitizeInput schema input = inl sanitized ->
     forall param v, param ∈ Parameters schema ->
       input !! Name param = Some v ->
       exists converted,
         convertValue (Type_ param) v = inl converted /\
         sanitized !! Name param = Some converted) /\
  (forall err, SanitizeInput schema input = inr err ->
     exists param v msg,
       param ∈ Parameters schema /\ input !! Name param = Some v /\
       convertValue (Type_ param) v = inr msg /\
       err = NewValidationError (Name param) msg v) /\
  ((forall param, param ∈ Parameters schema ->
      input !! Name param = None) ->
   exists sanitized, SanitizeInput schema input = inl sanitized).
Proof.
  intros Hnd. split; [|split].
  - intros m Hm param v Hin Hv.
    by apply (sanitizeLoop_present _ _ _ _ _ _ Hnd Hm Hin Hv).
  - intros err Herr. by apply sanitizeLoop_inr in Herr.
  - intros Hmissing. apply sanitizeLoop_inl.
    intros param v Hin Hv. rewrite (Hmissing param Hin) in Hv. done.
Qed.

(** Property X10.  Sanitizing twice is sanitizing once, for a schema whose
    defaults are values of their parameters' types. *)
Theorem SanitizeInput_idempotent schema input sanitized :
  NoDup (Name <$> Parameters schema) ->
  (forall param, param ∈ Parameters schema ->
     convertValue (Type_ param) (Default param) = inl (Default param)) ->
  SanitizeInput schema input = inl sanitized ->
  SanitizeInput schema sanitized = inl sanitized.
Proof.
  intros Hnd Hdefaults Hm. unfold SanitizeInput in *.
  assert (forall param, param ∈ Parameters schema ->
            match sanitized !! Name param with
            | Some v => convertValue (Type_ param) v = inl v
            | None => is_nil (Default param) = true
            end) as Hfix.
  { intros param Hin. destruct (input !! Name param) as [v|] eqn:Hv.
    - destruct (sanitizeLoop_present _ _ _ _ _ _ Hnd Hm Hin Hv)
        as (converted & Hconv & ->).
      by eapply convertValue_idempotent.
    - rewrite (sanitizeLoop_absent _ _ _ _ _ Hnd Hm Hin Hv).
      destruct (is_nil (Default param)) eqn:Hnil; [by rewrite lookup_empty|].
      by apply Hdefaults. }
  destruct (sanitizeLoop_inl (Parameters schema) sanitized ∅) as [m2 Hm2].
  { intros param v Hin Hv. specialize (Hfix param Hin). rewrite Hv in Hfix.
    by exists v. }
  rewrite Hm2. f_equal. apply map_eq. intros k.
  destruct (findParameter (Parameters schema) k) as [param|] eqn:Hfind.
  - apply findParameter_Some in Hfind as [Hin <-].
    specialize (Hfix param Hin).
    destruct (sanitized !! Name param) as [v|] eqn:Hv.
    + destruct (sanitizeLoop_present _ _ _ _ _ _ Hnd Hm2 Hin Hv)
        as (converted & Hconv & ->). congruence.
    + rewrite (sanitizeLoop_absent _ _ _ _ _ Hnd Hm2 Hin Hv).
      by rewrite Hfix, lookup_empty.
  - pose proof (proj1 (findParameter_None _ _) Hfind) as Hno.
    by rewrite (sanitizeLoop_other _ _ _ _ k Hm2 Hno),
      (sanitizeLoop_other _ _ _ _ k Hm Hno).
Qed.

Lemma ltb_nan (f : float) :
  PrimFloat.ltb nan f = false /\ PrimFloat.ltb f nan = false.
Proof.
  rewrite !ltb_spec. change (Prim2SF nan) with S754_nan.
  split; [done|]. by destruct (Prim2SF f).
Qed.

(** Property X11.  The range check of a number parameter never rejects
    NaN: whatever minimum and maximum the parameter declares, NaN is a
    valid value for it, and so is every input that is valid but for
    binding it to NaN. *)
Theorem number_range_accepts_NaN param :
  Type_ param = "number" ->
  validateParameter param (VFloat64 nan) = None /\
  forall schema input c,
    findParameter (Parameters schema) (Name param) = Some param ->
    ValidateInput schema input c = None ->
    ValidateInput schema (<[Name param := VFloat64 nan]> input) c = None.
Proof.
  intros Htype.
  assert (validateParameter param (VFloat64 nan) = None) as Hnan.
  { apply validateParameter_conforms.
    eapply conforms_number; [done | constructor |].
    split; intros ? _; apply ltb_nan. }
  split; [exact Hnan|].
  intros schema input c Hfind Hvalid.
  apply ValidateInput_None in Hvalid as [Hreq Hall].
  apply ValidateInput_None. split.
  - intros p Hin Hp. destruct (decide (Name p = Name param)) as [->|Hne].
    + rewrite lookup_insert_eq. by eexists.
    + rewrite lookup_insert_ne by done. by apply Hreq.
  - intros k v Hkv. apply lookup_insert_Some in Hkv as [[<- <-]|[_ Hkv]].
    + exists param. split; [done|]. by apply validateParameter_conforms.
    + by apply Hall.
Qed.

End InputFacts.
Import Samples.
Local Abbreviation TR := TestRuntime.runtime.

Lemma valid_input_sanitizes_witness :
  exists sanitized,
    SanitizeInput (RT:=TR) test_schema valid_input = inl sanitized /\
    sanitized !! "optional_number" = Some (VFloat64 50%float).
Proof.
  assert (NoDup (Name <$> Parameters test_schema)) as Hnd.
  { apply (bool_decide_unpack _). by vm_compute. }
  destruct (valid_input_sanitizes (RT:=TR) test_schema valid_input 0 Hnd)
    as (sanitized & Hrun & Hvalues); [by vm_compute|].
  exists sanitized. split; [exact Hrun|].
  destruct (Hvalues {| Name := "optional_number"; Type_ := "number";
                       Description := "An optional number parameter";
                       Required := false; Default := VNil; Enum := [];
                       Minimum := Some 0%float; Maximum := Some 100%float;
                       Pattern := "" |} (VFloat64 50%float))
    as (converted & Hlookup & Hconv & _);
    [right; by left | by vm_compute |].
  vm_compute in Hconv. injection Hconv as <-. exact Hlookup.
Defined.

Lemma SanitizeInput_converts_witness :
  exists sanitized,
    SanitizeInput (RT:=TR) sanitize_schema ∅ = inl sanitized.
Proof.
  assert (NoDup (Name <$> Parameters sanitize_schema)) as Hnd.
  { apply (bool_decide_unpack _). by vm_compute. }
  destruct (SanitizeInput_converts (RT:=TR) sanitize_schema ∅ Hnd)
    as (_ & _ & Hmissing).
  apply Hmissing. intros param _. apply lookup_empty.
Defined.

Lemma SanitizeInput_idempotent_witness :
  exists sanitized,
    SanitizeInput (RT:=TR) sanitize_schema defaults_input = inl sanitized /\
    SanitizeInput (RT:=TR) sanitize_schema sanitized = inl sanitized.
Proof.
  assert (NoDup (Name <$> Parameters sanitize_schema)) as Hnd.
  { apply (bool_decide_unpack _). by vm_compute. }
  eexists. split; [by vm_compute|].
  apply (SanitizeInput_idempotent (RT:=TR) sanitize_schema defaults_input);
    [exact Hnd | | by vm_compute].
  intros param Hin. simpl in Hin.
  repeat (apply elem_of_cons in Hin as [->|Hin]; [by vm_compute|]).
  by apply elem_of_nil in Hin.
Defined.

Lemma number_range_accepts_NaN_witness :
  ValidateInput (RT:=TR) test_schema
    (<["optional_number" := VFloat64 nan]> valid_input) 0 = None.
Proof.
  destruct (number_range_accepts_NaN (RT:=TR)
              {| Name := "optional_number"; Type_ := "number";
                 Description := "An optional number parameter";
                 Required := false; Default := VNil; Enum := [];
                 Minimum := Some 0%float; Maximum := Some 100%float;
                 Pattern := "" |} eq_refl) as [_ Hinput].
  apply (Hinput test_schema valid_input 0); by vm_compute.
Defined.

End InputProps.


(** ** Time and arguments of a tool call *)

Module ExecutionProps.
Import Tools ToolsProps ExecutorProps.

Section ExecutionBounds.
Context `{RT : GoRuntime}.

Lemma await_within sent ctx c t d r :
  done_in ctx = Some t ->
  await sent ctx c = Finishes d (Returns (Some r)) -> (d <= t)%Z.
Proof.
  unfold await. intros ->. destruct sent as [[d0 r0]|].
  - destruct (d0 <? t)%Z eqn:H1; [intros [= <- _]; lia|].
    destruct (t <? d0)%Z eqn:H2; [intros [= <- _]; lia|].
    destruct (SelectFirst c); intros [= <- _]; lia.
  - intros [= <- _]. lia.
Qed.

Lemma BaseTool_Execute_within bt ctx input c t d r :
  done_in (Ctx ctx) = Some t ->
  BaseTool_Execute bt ctx input c = Finishes d (Returns (Some r)) ->
  (d <= Z.max 0 t)%Z.
Proof.
  intros Ht. unfold BaseTool_Execute.
  destruct (SanitizeInput (schema bt) input); [|intros [= <- _]; lia].
  destruct (is_done (Ctx ctx)); [intros [= <- _]; lia|].
  intros Hrun. pose proof (await_within _ _ _ _ _ _ Ht Hrun). lia.
Qed.

Lemma Execute_BaseTool_bound e ctx bt toolName sessionID input c :
  registry e !! toolName = Some (BaseTool_Tool bt) ->
  exists d r,
    Execute e ctx toolName sessionID input c = Finishes d (Returns r) /\
    (d <= Z.max 0 (timeout e))%Z /\ Duration r = d.
Proof.
  intros Hreg. unfold Execute. rewrite Hreg. simpl.
  destruct (available bt ctx); simpl;
    [|eexists _, _; split; [done|]; simpl; split; [lia|done]].
  destruct (BaseTool_Validate bt input c);
    [eexists _, _; split; [done|]; simpl; split; [lia|done]|].
  set (t := match done_in ctx with
            | Some t => Z.min t (timeout e)
            | None => timeout e
            end).
  destruct (BaseTool_Execute_returns bt
              (newExecutionContext e ctx sessionID c) input c t eq_refl)
    as (d & r & Hrun).
  pose proof (BaseTool_Execute_within bt
                (newExecutionContext e ctx sessionID c) input c t d r
                eq_refl Hrun) as Hd.
  rewrite Hrun. exists d, (with_Duration r d). split; [done|].
  split; [|done]. subst t. destruct (done_in ctx); lia.
Qed.

(** Property X12.  A call of a tool built on [BaseTool] returns no later
    than the executor's timeout, whatever the tool body does, and the
    [Duration] of its result is the time the call took.  With a timeout
    that is not positive the call fails at once: the tool body is never
    run. *)
Theorem Execute_BaseTool_within_timeout e ctx bt toolName sessionID input c :
  registry e !! toolName = Some (BaseTool_Tool bt) ->
  exists d r,
    Execute e ctx toolName sessionID input c = Finishes d (Returns r) /\
    (d <= Z.max 0 (timeout e))%Z /\ Duration r = d /\
    ((timeout e <= 0)%Z -> d = 0%Z /\ Success r = false).
Proof.
  intros Hreg. unfold Execute. rewrite Hreg. simpl.
  destruct (available bt ctx); simpl;
    [|eexists _, _; split; [done|]; simpl; repeat split; lia].
  destruct (BaseTool_Validate bt input c);
    [eexists _, _; split; [done|]; simpl; repeat split; lia|].
  set (t := match done_in ctx with
            | Some t => Z.min t (timeout e)
            | None => timeout e
            end).
  destruct (BaseTool_Execute_returns bt
              (newExecutionContext e ctx sessionID c) input c t eq_refl)
    as (d & r & Hrun).
  pose proof (BaseTool_Execute_within bt
                (newExecutionContext e ctx sessionID c) input c t d r
                eq_refl Hrun) as Hd.
  rewrite Hrun. exists d, (with_Duration r d). split; [done|].
  split; [subst t; destruct (done_in ctx); lia|]. split; [done|].
  intros Htimeout. revert Hrun. unfold BaseTool_Execute.
  destruct (SanitizeInput (schema bt) input); [|by intros [= <- <-]].
  assert (is_done (Ctx (newExecutionContext e ctx sessionID c)) = true) as ->.
  { unfold is_done. simpl. apply Z.leb_le. destruct (done_in ctx); lia. }
  by intros [= <- <-].
Qed.

Lemma Execute_unknown_bound e ctx toolName sessionID input c :
  registry e !! toolName = None ->
  exists r,
    Execute e ctx toolName sessionID input c = Finishes 0 (Returns r) /\
    ErrorCode r = "TOOL_NOT_FOUND".
Proof. intros Hreg. unfold Execute. rewrite Hreg. by eexists. Qed.

Lemma spawn_within e ctx sessionID calls cs i0 :
  (forall name tool, registry e !! name = Some tool ->
     exists bt, tool = BaseTool_Tool bt) ->
  exists d sent,
    spawn e ctx sessionID calls cs i0 = Finishes d (Returns sent) /\
    (0 <= d <= Z.max 0 (timeout e))%Z /\
    sent.*1 = CallID <$> calls.
Proof.
  intros Hbase. revert i0.
  induction calls as [|call rest IH]; intros i0; simpl.
  - exists 0%Z, []. split; [done|]. split; [lia|done].
  - assert (exists d r,
              Execute e ctx (ToolName call) sessionID (Arguments call) (cs i0)
                = Finishes d (Returns r) /\
              (d <= Z.max 0 (timeout e))%Z) as (d0 & r0 & H0 & Hd0).
    { destruct (registry e !! ToolName call) as [tool|] eqn:Hreg.
      - destruct (Hbase _ _ Hreg) as [bt ->].
        destruct (Execute_BaseTool_bound e ctx bt _ sessionID
                    (Arguments call) (cs i0) Hreg) as (d & r & ? & ? & _).
        by exists d, r.
      - destruct (Execute_unknown_bound e ctx _ sessionID (Arguments call)
                    (cs i0) Hreg) as (r & ? & _).
        exists 0%Z, r. split; [done | lia]. }
    rewrite H0. destruct (IH (S i0)) as (d & sent & -> & Hd & Hids).
    exists (Z.max d0 d), ((CallID call, r0) :: sent).
    split; [done|]. split; [lia|]. by rewrite !fmap_cons, Hids.
Qed.

Lemma collect_is_Some received k :
  is_Some (collect received !! k) <-> k ∈ received.*1.
Proof.
  induction received as [|[k' r'] received IH] using rev_ind.
  - unfold collect. simpl. rewrite lookup_empty. split.
    + by intros [? ?]. + by intros ?%elem_of_nil.
  - rewrite collect_snoc, fmap_app, elem_of_app. simpl.
    rewrite list_elem_of_singleton.
    destruct (decide (k' = k)) as [->|Hne].
    + rewrite lookup_insert_eq. split; [by right | by eexists].
    + rewrite lookup_insert_ne by done. rewrite IH.
      split; [by left|]. by intros [?|?].
Qed.

Lemma collect_size_le received : size (collect received) <= length received.
Proof.
  induction received as [|[k' r'] received IH] using rev_ind; [done|].
  rewrite collect_snoc, length_app. simpl.
  destruct (collect received !! k') eqn:Hk.
  - rewrite map_size_insert_Some by done. lia.
  - rewrite map_size_insert_None by done. lia.
Qed.

(** Property X13.  With only tools built on [BaseTool] registered,
    [ExecuteMultiple] returns within the executor's timeout however many
    calls it is given: the calls run side by side.  The map it returns has
    an entry under every submitted call id and under nothing else, so at
    most one entry per call. *)
Theorem ExecuteMultiple_within_timeout e ctx sessionID calls cs c :
  (forall name tool, registry e !! name = Some tool ->
     exists bt, tool = BaseTool_Tool bt) ->
  exists d results,
    ExecuteMultiple e ctx sessionID calls cs c
      = Finishes d (Returns results) /\
    (0 <= d <= Z.max 0 (timeout e))%Z /\
    (forall k, is_Some (results !! k) <-> k ∈ CallID <$> calls) /\
    size results <= length calls.
Proof.
  intros Hbase. unfold ExecuteMultiple.
  destruct (spawn_within e ctx sessionID calls cs 0 Hbase)
    as (d & sent & -> & Hd & Hids).
  exists d, (collect (Arrival c sent)). split; [done|]. split; [done|].
  pose proof (Arrival_perm _ c sent) as Hperm. split.
  - intros k. rewrite collect_is_Some, Hperm. by rewrite Hids.
  - etransitivity; [apply collect_size_le|].
    rewrite Hperm. by rewrite <- (length_fmap fst), Hids, length_fmap.
Qed.

(** Property X14.  An argument the schema does not declare is ignored by
    [BaseTool.Execute], which runs as if it were not there, but makes
    [Executor.Execute] reject the call without running the tool. *)
Theorem undeclared_argument e ctx execCtx bt toolName sessionID input k v c :
  registry e !! toolName = Some (BaseTool_Tool bt) ->
  available bt ctx = true ->
  (forall param, param ∈ Parameters (schema bt) -> Name param <> k) ->
  BaseTool_Execute bt execCtx (<[k := v]> input) c
    = BaseTool_Execute bt execCtx input c /\
  exists r,
    Execute e ctx toolName sessionID (<[k := v]> input) c
      = Finishes 0 (Returns r) /\
    Success r = false /\ ErrorCode r = "VALIDATION_ERROR".
Proof.
  intros Hreg Havailable Hundeclared. split.
  - unfold BaseTool_Execute, SanitizeInput.
    by rewrite sanitizeLoop_insert_unknown.
  - unfold Execute. rewrite Hreg. simpl. rewrite Havailable. simpl.
    unfold BaseTool_Validate.
    destruct (ValidateInput (schema bt) (<[k := v]> input) c) as [err|] eqn:Hok;
      [by eexists|].
    apply ValidateInput_None in Hok as [_ Hok].
    destruct (Hok k v (lookup_insert_eq _ _ _)) as (param & Hfind & _).
    apply findParameter_Some in Hfind as [Hin Hname].
    by destruct (Hundeclared param Hin).
Qed.

(** Property X15.  A call that leaves out a required parameter is rejected
    by [Executor.Execute] at once with a VALIDATION_ERROR that names a
    missing required parameter, whatever else the input holds and whatever
    the tool would have done with it. *)
Theorem Execute_missing_required e ctx bt toolName sessionID input c param :
  registry e !! toolName = Some (BaseTool_Tool bt) ->
  available bt ctx = true ->
  param ∈ Parameters (schema bt) -> Required param = true ->
  input !! Name param = None ->
  exists missing,
    missing ∈ Parameters (schema bt) /\ Required missing = true /\
    input !! Name missing = None /\
    Execute e ctx toolName sessionID input c
      = Finishes 0 (Returns
          {| Success := false; Data := VNil;
             Error := "validation error for parameter '" +:+ Name missing
                        +:+ "': required parameter missing";
             ErrorCode := "VALIDATION_ERROR"; Metadata := ∅;
             Duration := 0 |}).
Proof.
  intros Hreg Havailable Hin Hreq Hmiss.
  unfold Execute. rewrite Hreg. simpl. rewrite Havailable. simpl.
  unfold BaseTool_Validate, ValidateInput.
  destruct (checkRequired (Parameters (schema bt)) input) as [err|] eqn:Hc.
  - apply checkRequired_Some in Hc
      as (Hmsg & missing & Hin' & Hreq' & Hmiss' & Hname).
    exists missing. split; [done|]. split; [done|]. split; [done|].
    unfold ValidationError_Error. by rewrite Hmsg, Hname.
  - pose proof (proj1 (checkRequired_None _ _) Hc param Hin Hreq) as [? ?].
    congruence.
Qed.

End ExecutionBounds.
Import Samples.
Local Abbreviation TR := TestRuntime.runtime.

Lemma Execute_BaseTool_within_timeout_witness :
  exists d r,
    Execute (RT:=TR) (base_executor (RT:=TR)) Background "slow_tool"
      "test-session" ∅ 0 = Finishes d (Returns r) /\
    (d <= 100 * millisecond)%Z /\ Duration r = d.
Proof.
  destruct (Execute_BaseTool_within_timeout (RT:=TR) (base_executor (RT:=TR))
              Background
              (NewBaseTool "slow_tool" (empty_schema "slow_tool")
                 (Some slow_body))
              "slow_tool" "test-session" ∅ 0 eq_refl)
    as (d & r & Hrun & Hd & Hduration & _).
  exists d, r. split; [exact Hrun|]. split; [|exact Hduration].
  simpl in Hd. unfold millisecond in *. lia.
Defined.

Lemma ExecuteMultiple_within_timeout_witness :
  exists d results,
    ExecuteMultiple (RT:=TR) (base_executor (RT:=TR)) Background
      "test-session" distinct_calls (fun _ => 0) 1
    = Finishes d (Returns results) /\
    (0 <= d <= 100 * millisecond)%Z /\
    is_Some (results !! "call1").
Proof.
  destruct (ExecuteMultiple_within_timeout (RT:=TR) (base_executor (RT:=TR))
              Background "test-session" distinct_calls (fun _ => 0) 1)
    as (d & results & Hrun & Hd & Hkeys & _).
  { intros name tool. unfold base_executor. simpl.
    intros [[_ <-]|[_ H]]%lookup_insert_Some; [by eexists|].
    apply lookup_insert_Some in H as [[_ <-]|[_ H]]; [by eexists|].
    apply lookup_insert_Some in H as [[_ <-]|[_ H]]; [by eexists|].
    by rewrite lookup_empty in H. }
  exists d, results. split; [exact Hrun|]. split.
  - simpl in Hd. unfold millisecond in *. lia.
  - apply Hkeys. simpl. right. by left.
Defined.

Lemma undeclared_argument_witness :
  BaseTool_Execute (RT:=TR) validation_tool
    (newExecutionContext (RT:=TR) validating_executor Background "s" 0)
    (<["surprise" := VInt 1]> with_required_param) 0
  = BaseTool_Execute (RT:=TR) validation_tool
      (newExecutionContext (RT:=TR) validating_executor Background "s" 0)
      with_required_param 0 /\
  exists r,
    Execute (RT:=TR) validating_executor Background "validation_tool" "s"
      (<["surprise" := VInt 1]> with_required_param) 0
    = Finishes 0 (Returns r) /\
    Success r = false /\ ErrorCode r = "VALIDATION_ERROR".
Proof.
  apply (undeclared_argument (RT:=TR) validating_executor Background
           (newExecutionContext (RT:=TR) validating_executor Background "s" 0)
           validation_tool "validation_tool" "s" with_required_param
           "surprise" (VInt 1) 0);
    [reflexivity | reflexivity |].
  intros param Hin. simpl in Hin.
  apply list_elem_of_singleton in Hin as ->. discriminate.
Defined.

Lemma Execute_missing_required_witness :
  exists r,
    Execute (RT:=TR) validating_executor Background "validation_tool" "s"
      ∅ 0 = Finishes 0 (Returns r) /\
    Error r = "validation error for parameter 'required_param': required parameter missing".
Proof.
  destruct (Execute_missing_required (RT:=TR) validating_executor Background
              validation_tool "validation_tool" "s" ∅ 0
              {| Name := "required_param"; Type_ := "string";
                 Description := ""; Required := true; Default := VNil;
                 Enum := []; Minimum := None; Maximum := None;
                 Pattern := "" |})
    as (missing & Hin & _ & _ & Hrun);
    [reflexivity | reflexivity | by left | reflexivity | apply lookup_empty |].
  simpl in Hin. apply list_elem_of_singleton in Hin as ->.
  eexists. split; [exact Hrun | reflexivity].
Defined.

End ExecutionProps.


(** ** What the context strategies share *)

Module StrategyProps.
Import ContextStrategy ContextProps.

Section StrategyFacts.
Context `{RT : GoRuntime}.

Lemma buildSystemMessage_nonempty sp ap : buildSystemMessage sp ap <> "".
Proof.
  unfold buildSystemMessage.
  destruct (String.eqb_spec sp ""), (String.eqb_spec ap ""); simpl; try done.
  destruct sp; done.
Qed.

Lemma last_n_keeps {A} (n : Z) (l : list A) :
  (0 < n)%Z -> last (last_n n l) = last l.
Proof.
  intros Hn. unfold last_n. rewrite !last_lookup, length_drop, lookup_drop.
  destruct l as [|x l]; [done|]. simpl length. f_equal. lia.
Qed.

Lemma last_n_suffix {A} (n : Z) (l : list A) : last_n n l `suffix_of` l.
Proof. apply suffix_drop. Qed.

Lemma LastN_spec_shaped sp ap hist config :
  well_shaped sp ap hist (LastN_spec sp ap hist config).
Proof.
  unfold well_shaped, LastN_spec.
  destruct (Z.leb_spec (config_int config "count" 10) 0) as [|Hn];
    cbn [fst snd]; [done|].
  eexists _, _. split; [done|]. split; [apply buildSystemMessage_nonempty|].
  split; [|split; [apply last_n_suffix | by left]].
  intros m Hm. by rewrite last_cons, last_n_keeps, Hm.
Qed.

Lemma SlidingWindow_spec_shaped sp ap hist config :
  well_shaped sp ap hist (SlidingWindow_spec sp ap hist config).
Proof.
  unfold well_shaped, SlidingWindow_spec.
  destruct (Z.leb_spec (config_int config "window_size" 5) 0) as [|Hw];
    cbn [fst snd]; [done|].
  destruct (Z.ltb_spec (config_int config "overlap" 2) 0) as [|Ho];
    cbn [fst snd orb]; [done|].
  destruct (Z.leb_spec (config_int config "window_size" 5)
              (config_int config "overlap" 2)); cbn [fst snd]; [done|].
  eexists _, _. split; [done|]. split; [apply buildSystemMessage_nonempty|].
  split; [|split; [apply last_n_suffix | by left]].
  intros m Hm. by rewrite last_cons, last_n_keeps, Hm by lia.
Qed.

Lemma Summarize_spec_shaped sp ap hist config rnd :
  well_shaped sp ap hist (Summarize_spec sp ap hist config rnd).
Proof.
  unfold well_shaped, Summarize_spec.
  destruct (Z.leb_spec (config_int config "max_context_length" 20) 0);
    cbn [fst snd orb]; [done|].
  destruct (Z.leb_spec (config_int config "keep_recent" 5) 0) as [|Hk];
    cbn [fst snd orb]; [done|].
  destruct (_ || _); cbn [fst snd].
  - eexists _, hist. split; [done|].
    split; [apply buildSystemMessage_nonempty|].
    split; [|split; [done | by left]].
    intros m Hm. by rewrite last_cons, Hm.
  - eexists _, _. split; [done|].
    split; [apply buildSystemMessage_nonempty|].
    split; [|split; [apply last_n_suffix | right; by eexists]].
    intros m Hm. by rewrite !last_cons, last_n_keeps, Hm.
Qed.

(** Property X16.  Whenever a strategy returns without an error, the
    context starts with the system message, whose content is not empty,
    and the messages after it, or after the summary that follows it, are
    the latest messages of the history, in their order: if the history is
    not empty the context ends with its latest message.  With an error the
    context is empty. *)
Theorem context_keeps_latest h messages hist sp ap config rnd :
  contents h messages = Some hist -> s_len messages <= s_cap messages ->
  (exists out, run (LastN_BuildContext sp ap messages config) h = Some out /\
               well_shaped sp ap hist out) /\
  (exists out, run (SlidingWindow_BuildContext sp ap messages config) h
                 = Some out /\
               well_shaped sp ap hist out) /\
  (exists out, run (Summarize_BuildContext sp ap messages config rnd) h
                 = Some out /\
               well_shaped sp ap hist out).
Proof.
  intros Hhist Hcap. split; [|split].
  - destruct (LastN_correct h messages hist sp ap config Hhist Hcap)
      as (s & h' & Hrun & _ & Hout).
    eexists. split; [by eapply run_correct|]. apply LastN_spec_shaped.
  - destruct (SlidingWindow_correct h messages hist sp ap config Hhist Hcap)
      as (s & h' & Hrun & _ & Hout).
    eexists. split; [by eapply run_correct|]. apply SlidingWindow_spec_shaped.
  - destruct (Summarize_correct h messages hist sp ap config rnd Hhist Hcap)
      as (s & h' & Hrun & _ & Hout).
    eexists. split; [by eapply run_correct|]. apply Summarize_spec_shaped.
Qed.

Lemma last_n_length {A} (n : Z) (l : list A) :
  length (last_n n l) <= Z.to_nat n.
Proof. unfold last_n. rewrite length_drop. lia. Qed.

(** Property X17.  The registry of [NewStrategyRegistry] holds the three
    strategies, each under its own name, and each of them accepts its own
    default configuration: on every history [BuildContext] returns without
    an error the system message followed by at most 20 messages. *)
Theorem default_strategies_accept_defaults :
  (forall name,
     is_Some (Get NewStrategyRegistry name) <->
     name ∈ ["last_n"; "sliding_window"; "summarize"]) /\
  (forall name strategy h messages hist sp ap rnd,
     Get NewStrategyRegistry name = Some strategy ->
     contents h messages = Some hist -> s_len messages <= s_cap messages ->
     Strategy_Name strategy = name /\
     exists rest,
       run (Strategy_BuildContext strategy sp ap messages
              (Strategy_DefaultConfig strategy) rnd) h
         = Some (system_message sp ap :: rest, None) /\
       length rest <= 20).
Proof.
  assert (forall name strategy,
            Get NewStrategyRegistry name = Some strategy ->
            (name = "last_n" /\ strategy = LastNStrategy) \/
            (name = "sliding_window" /\ strategy = SlidingWindowStrategy) \/
            (name = "summarize" /\ strategy = SummarizeStrategy)) as Hcases.
  { intros name strategy. unfold Get, NewStrategyRegistry, Register.
    intros [[<- <-]|[_ H]]%lookup_insert_Some; [by right; right|].
    apply lookup_insert_Some in H as [[<- <-]|[_ H]]; [by right; left|].
    apply lookup_insert_Some in H as [[<- <-]|[_ H]]; [by left|].
    by rewrite lookup_empty in H. }
  split.
  - intros name. split.
    + intros [strategy Hget].
      destruct (Hcases _ _ Hget) as [[-> _]|[[-> _]|[-> _]]];
        repeat constructor.
    + intros Hin. repeat (apply elem_of_cons in Hin as [->|Hin]);
        [by eexists..|by apply elem_of_nil in Hin].
  - intros name strategy h messages hist sp ap rnd Hget Hhist Hcap.
    destruct (Hcases _ _ Hget) as [[-> ->]|[[-> ->]|[-> ->]]];
      (split; [done|]); simpl.
    + destruct (LastN_correct h messages hist sp ap {["count" := VInt 10]}
                  Hhist Hcap) as (s & h' & Hrun & _ & Hout).
      exists (last_n 10 hist).
      split; [by eapply run_correct|].
      pose proof (last_n_length 10 hist). lia.
    + destruct (SlidingWindow_correct h messages hist sp ap
                  (<["window_size" := VInt 5]> (<["overlap" := VInt 2]> ∅))
                  Hhist Hcap) as (s & h' & Hrun & _ & Hout).
      exists (last_n 7 hist).
      split; [by eapply run_correct|].
      pose proof (last_n_length 7 hist). lia.
    + destruct (Summarize_correct h messages hist sp ap
                  (<["max_context_length" := VInt 20]>
                   (<["keep_recent" := VInt 5]>
                   (<["summary_model" := VString "gpt-3.5-turbo"]> ∅)))
                  rnd Hhist Hcap) as (s & h' & Hrun & _ & Hout).
      pose proof (run_correct _ _ _ _ _ _ Hrun Hout) as Hres.
      unfold Summarize_spec in Hres.
      change (config_int _ "max_context_length" 20) with 20%Z in Hres.
      change (config_int _ "keep_recent" 5) with 5%Z in Hres.
      cbn [Z.leb Z.compare orb] in Hres.
      destruct (Z.leb_spec (Z.of_nat (length hist)) 20) as [Hshort|Hlong].
      * exists hist. split; [exact Hres | lia].
      * destruct (Z.leb_spec (Z.of_nat (length hist)) 5); [lia|].
        cbn [orb] in Hres. eexists. split; [exact Hres|].
        simpl. pose proof (last_n_length 5 hist). lia.
Qed.

Lemma markAll_lookup words msgs rnd i t :
  markAll words msgs rnd i !! t
  = (fun b => b || existsb (fun msg => Contains (ToLower (Content msg)) t) msgs)
      <$> words !! t.
Proof.
  revert words i. induction msgs as [|msg msgs IH]; intros words i; simpl.
  - destruct (words !! t) as [b|]; simpl; [|done]. by rewrite orb_false_r.
  - rewrite IH, markTopics_lookup.
    destruct (Contains (ToLower (Content msg)) t); [|done].
    destruct (words !! t) as [b|]; simpl; [|done]. by rewrite orb_true_r.
Qed.

Lemma topicWords_lookup t :
  topicWords !! t =
    if bool_decide (t ∈ ["code"; "programming"; "bug"; "error"; "help";
                         "question"; "problem"; "solution"])
    then Some false else None.
Proof.
  unfold topicWords.
  destruct (bool_decide_reflect
              (t ∈ ["code"; "programming"; "bug"; "error"; "help";
                    "question"; "problem"; "solution"])) as [Hin|Hout].
  - repeat (apply elem_of_cons in Hin as [->|Hin]; [done|]).
    by apply elem_of_nil in Hin.
  - repeat (rewrite lookup_insert_ne;
              [|intros <-; apply Hout; repeat constructor]).
    apply lookup_empty.
Qed.

(** Property X18.  [extractTopics] returns each of the eight topic words
    that occurs in the lower-cased content of some message, once, and
    nothing else, in an order that is the runtime's. *)
Theorem extractTopics_found msgs rnd :
  NoDup (extractTopics msgs rnd) /\
  forall t,
    t ∈ extractTopics msgs rnd <->
    t ∈ ["code"; "programming"; "bug"; "error"; "help"; "question";
         "problem"; "solution"] /\
    exists msg, msg ∈ msgs /\ Contains (ToLower (Content msg)) t = true.
Proof.
  unfold extractTopics.
  set (words := markAll topicWords msgs rnd 0).
  pose proof (MapRange_perm _ (rnd (length msgs)) words) as Hperm.
  split.
  - rewrite Hperm. apply NoDup_fmap_fst.
    + intros k b b' Hb Hb'. apply list_elem_of_filter in Hb as [_ Hb].
      apply list_elem_of_filter in Hb' as [_ Hb'].
      apply elem_of_map_to_list in Hb, Hb'. congruence.
    + apply NoDup_filter, NoDup_map_to_list.
  - intros t. rewrite Hperm, list_elem_of_fmap.
    assert (words !! t = Some true <->
            t ∈ ["code"; "programming"; "bug"; "error"; "help"; "question";
                 "problem"; "solution"] /\
            exists msg, msg ∈ msgs /\
                        Contains (ToLower (Content msg)) t = true) as <-.
    { unfold words. rewrite markAll_lookup, topicWords_lookup.
      destruct (bool_decide_reflect
                  (t ∈ ["code"; "programming"; "bug"; "error"; "help";
                        "question"; "problem"; "solution"])) as [Hin|Hout];
        simpl.
      - split.
        + intros [= Hex]. split; [done|].
          apply existsb_exists in Hex as (msg & Hmsg & ?).
          exists msg. split; [by apply list_elem_of_In | done].
        + intros [_ (msg & Hmsg & Hc)]. f_equal.
          apply existsb_exists. exists msg.
          split; [by apply list_elem_of_In | done].
      - split; [done | by intros [? _]]. }
    split.
    + intros ([k b] & -> & Hin). apply list_elem_of_filter in Hin as [Hb Hin].
      simpl in Hb. subst b. by apply elem_of_map_to_list in Hin.
    + intros Ht. exists (t, true). split; [done|].
      apply list_elem_of_filter. split; [done|]. by apply elem_of_map_to_list.
Qed.

Lemma finish_fresh h0 h cm cur t elems :
  fresh h0 h cm -> view h cm = Some cur -> view h t = Some elems ->
  exists s' h',
    (elems ← elements t;
     contextMessages ← append cm elems;
     mret (contextMessages, None)) h
    = Some ((s', @None string), h') /\
    fresh h0 h' s' /\ view h' s' = Some (cur ++ elems) /\ cells h' = cells h.
Proof.
  intros Hfresh Hcm Ht.
  destruct (append_fresh h0 h cm cur elems Hfresh Hcm)
    as (s' & h' & Happ & Hfresh' & Hview & Hcells).
  exists s', h'. split; [|done].
  unfold mbind, M_bind, elements. rewrite Ht. simpl. by rewrite Happ.
Qed.

(** Property X19.  [LastN] and [SlidingWindow] never look inside a message
    and copy none: on any history slice, nil pointers included, they
    allocate the system message and nothing else, and return a slice of
    their own whose first element points to it and whose other elements
    are the latest pointers of the history themselves. *)
Theorem windows_share_messages h messages ps sp ap config :
  view h messages = Some ps -> s_len messages <= s_cap messages ->
  ((0 < config_int config "count" 10)%Z ->
   exists s h',
     LastN_BuildContext sp ap messages config h = Some ((s, None), h') /\
     cells h' = cells h ++ [system_message sp ap] /\
     view h' s
       = Some (Some (length (cells h))
                 :: last_n (config_int config "count" 10) ps) /\
     fresh h h' s) /\
  ((0 < config_int config "window_size" 5)%Z ->
   (0 <= config_int config "overlap" 2 < config_int config "window_size" 5)%Z ->
   exists s h',
     SlidingWindow_BuildContext sp ap messages config h
       = Some ((s, None), h') /\
     cells h' = cells h ++ [system_message sp ap] /\
     view h' s
       = Some (Some (length (cells h))
                 :: last_n (config_int config "window_size" 5
                            + config_int config "overlap" 2) ps) /\
     fresh h h' s).
Proof.
  intros Hview Hcap.
  pose proof (view_length _ _ _ Hview) as Hlen.
  set (m := system_message sp ap).
  destruct (system_slice_fresh h m) as [Hfresh Hcm].
  assert (view (with_system h m) messages = Some ps) as Hview2
    by (eapply view_extends; [apply Hfresh | done]).
  split.
  - intros Hcount. unfold LastN_BuildContext.
    set (count := config_int config "count" 10) in *.
    assert ((count <=? 0)%Z = false) as -> by (apply Z.leb_gt; lia).
    set (startIndex := if (count <? Z.of_nat (s_len messages))%Z
                       then (Z.of_nat (s_len messages) - count)%Z else 0%Z).
    assert (0 <= startIndex <= Z.of_nat (s_len messages))%Z as Hstart.
    { unfold startIndex.
      destruct (Z.ltb_spec count (Z.of_nat (s_len messages))); lia. }
    assert (Z.to_nat startIndex = length ps - Z.to_nat count) as Hidx.
    { unfold startIndex.
      destruct (Z.ltb_spec count (Z.of_nat (s_len messages))); lia. }
    destruct (subslice_view (with_system h m) messages ps startIndex
                (Z.of_nat (s_len messages))) as (tl & Hsub & Htl);
      [done | lia | lia | lia | lia |].
    rewrite take_ge in Htl by (rewrite length_drop; lia).
    destruct (finish_fresh _ _ _ _ _ _ Hfresh Hcm Htl)
      as (s' & h' & Hrun & Hfresh' & Hview' & Hcells).
    exists s', h'. split; [|split; [done|split; [|done]]].
    + unfold mbind at 1 2 3, M_bind at 1 2 3. simpl.
      fold (system_slice h). fold startIndex.
      change {| cells := cells h ++ [system_message sp ap];
                arrays := arrays h ++ [[Some (length (cells h))]] |}
        with (with_system h m).
      by rewrite Hsub.
    + rewrite Hview'. unfold last_n. by rewrite Hidx.
  - intros Hw Ho. unfold SlidingWindow_BuildContext.
    set (w := config_int config "window_size" 5) in *.
    set (o := config_int config "overlap" 2) in *.
    assert ((w <=? 0)%Z = false) as -> by (apply Z.leb_gt; lia).
    assert ((o <? 0)%Z = false) as -> by (apply Z.ltb_ge; lia).
    assert ((w <=? o)%Z = false) as -> by (apply Z.leb_gt; lia).
    simpl orb. cbv iota.
    unfold mbind at 1 2, M_bind at 1 2. simpl.
    fold (system_slice h).
    change {| cells := cells h ++ [system_message sp ap];
              arrays := arrays h ++ [[Some (length (cells h))]] |}
      with (with_system h m).
    unfold last_n.
    destruct (Z.leb_spec (Z.of_nat (s_len messages)) w) as [Hshort|Hlong].
    + replace (length ps - Z.to_nat (w + o)) with 0 by lia.
      destruct (finish_fresh _ _ _ _ _ _ Hfresh Hcm Hview2)
        as (s' & h' & Hrun & Hfresh' & Hview' & Hcells).
      by exists s', h'.
    + destruct (Z.ltb_spec o (Z.of_nat (s_len messages) - w)) as [Hov|Hov].
      * destruct (subslice_view (with_system h m) messages ps
                    (Z.of_nat (s_len messages) - w - o)
                    (Z.of_nat (s_len messages) - w - o + (w + o)))
          as (win & Hsub & Hwin); [done | lia | lia | lia | lia |].
        rewrite take_ge in Hwin by (rewrite length_drop; lia).
        replace (Z.to_nat (Z.of_nat (s_len messages) - w - o))
          with (length ps - Z.to_nat (w + o)) in Hwin by lia.
        destruct (finish_fresh _ _ _ _ _ _ Hfresh Hcm Hwin)
          as (s' & h' & Hrun & Hfresh' & Hview' & Hcells).
        exists s', h'. split; [|done].
        unfold mbind at 1, M_bind at 1. by rewrite Hsub.
      * destruct (subslice_view (with_system h m) messages ps 0
                    (0 + Z.of_nat (s_len messages)))
          as (win & Hsub & Hwin); [done | lia | lia | lia | lia |].
        rewrite take_ge in Hwin by (rewrite length_drop; lia).
        replace (length ps - Z.to_nat (w + o)) with 0 by lia.
        destruct (finish_fresh _ _ _ _ _ _ Hfresh Hcm Hwin)
          as (s' & h' & Hrun & Hfresh' & Hview' & Hcells).
        exists s', h'. split; [|done].
        unfold mbind at 1, M_bind at 1. by rewrite Hsub.
Qed.

End StrategyFacts.
Import Samples.
Local Abbreviation TR := TestRuntime.runtime.

Lemma context_keeps_latest_witness :
  exists out,
    run (LastN_BuildContext (RT:=TR) "You are helpful" ""
           (history_slice twelve) ∅) (history_store twelve) = Some out /\
    last out.1 = Some (msg "assistant" "Response 6").
Proof.
  destruct (context_keeps_latest (RT:=TR) (history_store twelve)
              (history_slice twelve) twelve "You are helpful" "" ∅
              (fun _ => 0))
    as ((out & Hrun & Hshape) & _); [by vm_compute | simpl; lia |].
  exists out. split; [exact Hrun|].
  unfold well_shaped in Hshape.
  destruct out as [l [err|]]; simpl in *.
  - vm_compute in Hrun. discriminate.
  - destruct Hshape as (rest & kept & _ & _ & Hlast & _).
    by apply Hlast.
Defined.

Lemma windows_share_messages_witness :
  exists s h',
    LastN_BuildContext (RT:=TR) "You are helpful" "" (history_slice three)
      {[ "count" := VInt 2 ]} (history_store three) = Some ((s, None), h') /\
    view h' s = Some [Some 3; Some 1; Some 2].
Proof.
  destruct (windows_share_messages (RT:=TR) (history_store three)
              (history_slice three) [Some 0; Some 1; Some 2]
              "You are helpful" "" {[ "count" := VInt 2 ]})
    as [Hlast _]; [by vm_compute | simpl; lia |].
  destruct Hlast as (s & h' & Hrun & _ & Hview & _); [by vm_compute|].
  exists s, h'. split; [exact Hrun | exact Hview].
Defined.

End StrategyProps.


(** ** What a turn returns and stores *)

Module TurnProps.
Import Tools Services ToolsProps ServicesProps InputProps ExecutionProps.

Section TurnAccounts.
Context `{RT : GoRuntime}.
Variable w : World.

(** *** Parsing the provider's tool calls *)

Lemma parseOllama_ids toolCallsArray ids :
  length (parseOllama w toolCallsArray ids) <= length toolCallsArray /\
  forall j call, parseOllama w toolCallsArray ids !! j = Some call ->
    tc_ID call = w_uuid w (ids + j).
Proof.
  revert ids. induction toolCallsArray as [|tcData rest IH]; intros ids.
  { split; [done|]. intros j call Hj. simpl in Hj.
    by rewrite lookup_nil in Hj. }
  simpl.
  assert (length (parseOllama w rest ids) <= S (length rest) /\
          forall j call, parseOllama w rest ids !! j = Some call ->
            tc_ID call = w_uuid w (ids + j)) as Hskip.
  { destruct (IH ids) as [Hlen Hids]. split; [lia | done]. }
  destruct (lookup_field tcData "function") as [[]|]; try exact Hskip.
  destruct (json_Marshal _) as [argumentsJSON|]; [|exact Hskip].
  destruct (IH (S ids)) as [Hlen Hids]. split; [simpl; lia|].
  intros [|j] call Hj; simpl in Hj.
  - injection Hj as <-. simpl. f_equal. lia.
  - rewrite (Hids j call Hj). f_equal. lia.
Qed.

(** Property X20.  Tool calls are read from the "tool_calls" entry of the
    response metadata and never from its content.  Calls that come as a
    list of maps get fresh identifiers, one after the other, so that they
    are pairwise distinct when the generator never repeats itself; an
    entry without a "function" map is skipped. *)
Theorem parsed_calls_ids content metadata ids :
  (forall content',
     parseToolCallsFromResponse w content' metadata ids
     = parseToolCallsFromResponse w content metadata ids) /\
  (metadata !! "tool_calls" = None ->
   parseToolCallsFromResponse w content metadata ids = ([], 0)) /\
  (forall toolCallsArray,
     metadata !! "tool_calls" = Some (VMaps toolCallsArray) ->
     exists toolCalls,
       parseToolCallsFromResponse w content metadata ids
         = (toolCalls, length toolCalls) /\
       length toolCalls <= length toolCallsArray /\
       (forall j call, toolCalls !! j = Some call ->
          tc_ID call = w_uuid w (ids + j)) /\
       ((forall i j, w_uuid w i = w_uuid w j -> i = j) ->
        NoDup (tc_ID <$> toolCalls))).
Proof.
  split; [done|]. split.
  { intros Hnone. unfold parseToolCallsFromResponse. by rewrite Hnone. }
  intros toolCallsArray Hsome. unfold parseToolCallsFromResponse.
  rewrite Hsome. destruct (parseOllama_ids toolCallsArray ids) as [Hlen Hids].
  eexists. split; [done|]. split; [done|]. split; [done|].
  intros Hinj. apply NoDup_alt. intros i j id Hi Hj.
  rewrite list_lookup_fmap in Hi, Hj.
  destruct (parseOllama w toolCallsArray ids !! i) as [ci|] eqn:Hci; [|done].
  destruct (parseOllama w toolCallsArray ids !! j) as [cj|] eqn:Hcj; [|done].
  simpl in Hi, Hj. injection Hi as <-. injection Hj as Hj.
  rewrite (Hids _ _ Hci), (Hids _ _ Hcj) in Hj.
  apply Hinj in Hj. lia.
Qed.

(** *** Tool calls of one iteration *)

(** Property X21.  [ExecuteToolCalls] answers the calls in the order they
    were asked: result [j] is the result of call [j] on its own and
    carries its identifier and tool name, and tool message [j] carries the
    same identifier. *)
Theorem ExecuteToolCalls_in_order sessionID toolCalls c d toolResults :
  ExecuteToolCalls w sessionID toolCalls c
    = Finishes d (Returns toolResults) ->
  r_ID <$> toolResults = tc_ID <$> toolCalls /\
  r_ToolName <$> toolResults = tc_Name <$> toolCalls /\
  tm_ToolCallID <$> CreateToolResultMessages toolResults
    = tc_ID <$> toolCalls /\
  (forall toolMsg, toolMsg ∈ CreateToolResultMessages toolResults ->
     tm_Role toolMsg = "tool") /\
  (forall j call, toolCalls !! j = Some call ->
     exists dj rj,
       executeSingleToolCall w sessionID call (c + j)
         = Finishes dj (Returns rj) /\
       toolResults !! j = Some rj).
Proof.
  revert c d toolResults.
  induction toolCalls as [|call rest IH]; intros c d toolResults; simpl.
  { intros [= <- <-]. split; [done|]. split; [done|]. split; [done|]. split.
    - by intros ? ?%elem_of_nil.
    - intros j ? Hj. by rewrite lookup_nil in Hj. }
  destruct (executeSingleToolCall w sessionID call c)
    as [d0 [r0|v]|] eqn:Hfirst; [|done|done].
  assert (r_ID r0 = tc_ID call /\ r_ToolName r0 = tc_Name call) as [Hid Hname].
  { revert Hfirst. unfold executeSingleToolCall.
    destruct (json_Unmarshal _); [|by intros [= <- <-]].
    destruct (getAgentIDFromSession w sessionID); [|by intros [= <- <-]].
    destruct (executeToolWithContext w _ _ _ _ _) as [? [[?|]|?]|];
      try done. by intros [= <- <-]. }
  destruct (ExecuteToolCalls w sessionID rest (S c))
    as [d' [results|v]|] eqn:Hrest; [|done|done].
  intros [= <- <-].
  destruct (IH _ _ _ Hrest) as (Hids & Hnames & Hmsgs & Hroles & Hres).
  split; [|split; [|split; [|split]]].
  - by rewrite !fmap_cons, Hid, Hids.
  - by rewrite !fmap_cons, Hname, Hnames.
  - unfold CreateToolResultMessages in *. rewrite !fmap_cons. simpl.
    by rewrite Hid, Hmsgs.
  - intros toolMsg. unfold CreateToolResultMessages in *. rewrite fmap_cons.
    intros [->|Hin]%elem_of_cons; [done | by apply Hroles].
  - intros [|j] call' Hj; simpl in Hj.
    + injection Hj as <-. exists d0, r0. by rewrite Nat.add_0_r.
    + destruct (Hres j call' Hj) as (dj & rj & Hrun & Hlookup).
      exists dj, rj. by rewrite <- Nat.add_succ_comm.
Qed.

(** *** What a turn stores and returns *)

Lemma Create_stored st m :
  stored st `prefix_of` stored (Create w st m).2 /\
  (w_create w (creates st) = None ->
   length (stored (Create w st m).2) = S (length (stored st))).
Proof.
  unfold Create. destruct (String.eqb _ _);
    destruct (w_create w (creates st)); simpl;
    (split; [try done; by apply prefix_app_r | try done]);
    intros _; rewrite length_app; simpl; lia.
Qed.

Lemma appendToolMessages_stored st sessionID toolMessages :
  stored st `prefix_of`
    stored (appendToolMessages w st sessionID toolMessages) /\
  ((forall n, w_create w n = None) ->
   length (stored (appendToolMessages w st sessionID toolMessages))
   = length (stored st) + length toolMessages).
Proof.
  revert st. induction toolMessages as [|tm rest IH]; intros st; simpl.
  { split; [done | lia]. }
  pose proof (Create_stored st (tool_message sessionID tm)) as [Hp Hl].
  destruct (Create w st (tool_message sessionID tm)) as [[m|err] st1];
    simpl in *.
  - destruct (IH (with_conversation st1 (conversationMessages st1 ++ [m])))
      as [Hp' Hl'].
    split; [by etransitivity|]. intros Hc. rewrite (Hl' Hc). simpl.
    rewrite (Hl (Hc _)). lia.
  - destruct (IH st1) as [Hp' Hl'].
    split; [by etransitivity|]. intros Hc. rewrite (Hl' Hc).
    rewrite (Hl (Hc _)). lia.
Qed.

Lemma accounted_trans st1 st2 st3 :
  accounted w st1 st2 -> accounted w st2 st3 -> accounted w st1 st3.
Proof.
  intros (Ha & Hs & Hc & He) (Ha' & Hs' & Hc' & He').
  split; [by etransitivity|]. split; [by etransitivity|]. split; [lia|].
  intros Hcreate. specialize (He Hcreate). specialize (He' Hcreate). lia.
Qed.

Lemma getFinishReason_nonempty llmResponse b :
  getFinishReason llmResponse b <> "".
Proof.
  unfold getFinishReason. destruct b; [done|].
  destruct (String.eqb_spec (resp_FinishReason llmResponse) ""); simpl; done.
Qed.

Lemma iteration_accounted session userMessage availableTools req st :
  match iteration w session userMessage availableTools req st with
  | Continue st' => accounted w st st' /\ chats st' = S (chats st)
  | Return (Ok resp) st' =>
      accounted w st st' /\ chats st' = S (chats st) /\
      ToolCalls resp = allToolCalls st' /\
      FinishReason resp <> "" /\
      UserMessageID resp = ContextStrategy.ID userMessage
  | Return _ st' =>
      allToolCalls st `prefix_of` allToolCalls st' /\
      stored st `prefix_of` stored st'
  end.
Proof.
  unfold iteration, accounted.
  destruct (w_strategies w !! _) as [strategy|]; [|done].
  destruct (BuildContext strategy _ _ _ _ _) as [contextMessages [err|]];
    [done|].
  destruct (w_providers w !! _) as [provider|]; [|done].
  destruct (negb (IsAvailable provider (chats st))); [done|].
  destruct (Chat provider (chats st) _) as [llmResponse|err]; [|done].
  destruct (parseToolCallsFromResponse w _ _ _) as [toolCalls drawn].
  destruct toolCalls as [|call calls].
  - unfold saveAssistantMessage.
    match goal with
    | |- context [Create w ?s ?m] =>
        pose proof (Create_stored s m) as [Hp Hl];
        pose proof (Create_allToolCalls w s m) as Ha;
        pose proof (Create_chats w s m) as Hc;
        destruct (Create w s m) as [[m'|err] st']
    end; simpl in *.
    + split; [|split; [done|split; [done|split; [|done]]]].
      * split; [by rewrite Ha|]. split; [done|]. split; [lia|].
        intros Hcreate. rewrite (Hl (Hcreate _)), Ha, Hc. lia.
      * apply (getFinishReason_nonempty llmResponse false).
    + by rewrite Ha.
  - destruct (ExecuteToolCalls w _ _ _) as [d [toolResults|v]|];
      [|done|done].
    unfold saveAssistantMessageWithToolCalls.
    match goal with
    | |- context [Create w ?s ?m] =>
        pose proof (Create_stored s m) as [Hp Hl];
        pose proof (Create_allToolCalls w s m) as Ha;
        pose proof (Create_chats w s m) as Hc;
        destruct (Create w s m) as [[m'|err] st']
    end; simpl in *.
    + match goal with
      | |- context [appendToolMessages w ?s ?i ?l] =>
          pose proof (appendToolMessages_stored s i l) as [Hp' Hl'];
          rewrite (appendToolMessages_chats w s i l),
                  (appendToolMessages_allToolCalls w s i l)
      end.
      simpl in *. split; [|lia].
      split; [rewrite Ha; by apply prefix_app_r|].
      split; [by etransitivity|]. split; [lia|].
      intros Hcreate. rewrite (Hl' Hcreate), (Hl (Hcreate _)), Ha, Hc.
      unfold CreateToolResultMessages. rewrite length_fmap, length_app. lia.
    + split; [rewrite Ha; by apply prefix_app_r | done].
Qed.

Lemma loop_accounted remaining session userMessage availableTools req st :
  match loop w remaining session userMessage availableTools req st with
  | (Ok resp, st') =>
      accounted w st st' /\ chats st < chats st' /\
      ToolCalls resp = allToolCalls st' /\
      FinishReason resp <> "" /\
      UserMessageID resp = ContextStrategy.ID userMessage
  | (_, st') =>
      allToolCalls st `prefix_of` allToolCalls st' /\
      stored st `prefix_of` stored st'
  end.
Proof.
  revert st. induction remaining as [|n IH]; intros st; simpl; [done|].
  pose proof (iteration_accounted session userMessage availableTools req st)
    as Hi.
  destruct (iteration w session userMessage availableTools req st)
    as [st1|r st1].
  - destruct Hi as [Hacc Hchats]. specialize (IH st1).
    destruct (loop w n session userMessage availableTools req st1)
      as [[resp| | |] st'].
    + destruct IH as (Hacc' & Hlt & ?). split; [by eapply accounted_trans|].
      split; [lia | done].
    + destruct Hacc as (? & ? & _), IH. split; by etransitivity.
    + destruct Hacc as (? & ? & _), IH. split; by etransitivity.
    + destruct Hacc as (? & ? & _), IH. split; by etransitivity.
  - destruct r as [resp| | |]; try done.
    destruct Hi as (? & ? & ?). split; [done|]. split; [lia | done].
Qed.

(** Property X23.  A turn that succeeds returns every tool result of the
    turn, in the order the tools ran, after at least one and at most five
    provider calls, with a finish reason that is not empty.  Tool results
    and stored messages are only ever added; when every message can be
    stored, the turn has stored one message for every provider call and
    one for every tool result. *)
Theorem turn_accounts session userMessage availableTools req st resp st' :
  processWithToolCalls w session userMessage availableTools req st
    = (Ok resp, st') ->
  ToolCalls resp = allToolCalls st' /\
  allToolCalls st `prefix_of` allToolCalls st' /\
  stored st `prefix_of` stored st' /\
  UserMessageID resp = ContextStrategy.ID userMessage /\
  FinishReason resp <> "" /\
  chats st < chats st' <= chats st + 5 /\
  ((forall n, w_create w n = None) ->
   length (stored st') - length (stored st)
   = (chats st' - chats st)
     + (length (allToolCalls st') - length (allToolCalls st))).
Proof.
  intros Hrun. unfold processWithToolCalls in Hrun.
  destruct (w_history w (cs_ID session)) as [messages|err]; [|done].
  pose proof (loop_chats w maxIterations session userMessage availableTools
                req (with_conversation st messages)) as Hbound.
  rewrite Hrun in Hbound. unfold maxIterations in Hbound. simpl in Hbound.
  pose proof (loop_accounted maxIterations session userMessage availableTools
                req (with_conversation st messages)) as Hloop.
  rewrite Hrun in Hloop. simpl in Hloop.
  destruct Hloop as ((Ha & Hs & Hc & He) & Hlt & Hcalls & Hfinish & Huser).
  simpl in *. split; [done|]. split; [done|]. split; [done|]. split; [done|].
  split; [done|]. split; [lia|].
  intros Hcreate. specialize (He Hcreate).
  apply prefix_length in Ha, Hs. lia.
Qed.

(** Property X24.  A turn whose first provider response asks for no tool
    ends there: the provider was called once, no tool ran, the response is
    the provider's content and the assistant message is the one message
    stored. *)
Theorem single_answer_turn session userMessage availableTools req st
    messages strategy contextMessages provider llmResponse :
  w_history w (cs_ID session) = inl messages ->
  w_strategies w !! cs_ContextStrategy session = Some strategy ->
  BuildContext strategy
    (w_BuildSystemPrompt w (ag_SystemPrompt (cs_Agent session)) availableTools)
    "" messages (cs_ContextConfig session) (chats st)
    = (contextMessages, None) ->
  w_providers w !! ag_Provider (cs_Agent session) = Some provider ->
  IsAvailable provider (chats st) = true ->
  (forall llmRequest, Chat provider (chats st) llmRequest = inl llmResponse) ->
  resp_Metadata llmResponse !! "tool_calls" = None ->
  w_create w (creates st) = None ->
  exists resp st' assistantMessage,
    processWithToolCalls w session userMessage availableTools req st
      = (Ok resp, st') /\
    Response resp = resp_Content llmResponse /\
    ToolCalls resp = allToolCalls st /\
    FinishReason resp = getFinishReason llmResponse false /\
    AssistantMessageID resp = ContextStrategy.ID assistantMessage /\
    chats st' = S (chats st) /\
    executions st' = executions st /\
    stored st' = stored st ++ [assistantMessage] /\
    ContextStrategy.Role assistantMessage = "assistant" /\
    ContextStrategy.Content assistantMessage = resp_Content llmResponse.
Proof.
  intros Hhistory Hstrategy Hbuild Hprovider Havailable Hchat Hnone Hcreate.
  unfold processWithToolCalls. rewrite Hhistory.
  change maxIterations with 5. cbn [loop].
  unfold iteration. rewrite Hstrategy. cbn [conversationMessages
    with_conversation chats]. rewrite Hbuild, Hprovider, Havailable.
  cbn [negb]. rewrite Hchat.
  unfold parseToolCallsFromResponse. rewrite Hnone.
  unfold saveAssistantMessage, Create. cbn [creates after_parse after_chat
    with_conversation ContextStrategy.ID assistant_message].
  rewrite Hcreate. cbn [String.eqb].
  eexists _, _, _. split; [reflexivity|]. by repeat split.
Qed.

(** Property X26.  The metadata of the provider's response overrides what
    the service records about the message: the stored assistant message
    carries every entry of the response metadata unchanged.  As tool calls
    are only ever found under the "tool_calls" entry of that metadata, the
    number of calls the service writes under the same key is never what is
    stored. *)
Theorem provider_metadata_wins st sessionID llmResponse content ids
    toolCalls drawn toolResults contextLength strategy m st' :
  parseToolCallsFromResponse w content (resp_Metadata llmResponse) ids
    = (toolCalls, drawn) ->
  toolCalls <> [] ->
  saveAssistantMessageWithToolCalls w st sessionID llmResponse toolCalls
    toolResults contextLength strategy = (inl m, st') ->
  (forall k v, resp_Metadata llmResponse !! k = Some v ->
     ContextStrategy.Metadata m !! k = Some v) /\
  ContextStrategy.Metadata m !! "tool_calls"
    <> Some (VInt (Z.of_nat (length toolCalls))) /\
  (resp_Metadata llmResponse !! "tool_call_details" = None ->
   ContextStrategy.Metadata m !! "tool_call_details"
   = Some (VMaps (tool_call_details toolCalls toolResults))).
Proof.
  intros Hparse Hcalls Hsave.
  assert (ContextStrategy.Metadata m
          = ContextStrategy.Metadata
              (assistant_message sessionID llmResponse
                 (<["tool_call_details" :=
                      VMaps (tool_call_details toolCalls toolResults)]>
                  (with_usage llmResponse
                    (<["provider" := VString (resp_Model llmResponse)]>
                     (<["model" := VString (resp_Model llmResponse)]>
                     (<["context_length" := VInt (Z.of_nat contextLength)]>
                     (<["strategy" := VString strategy]>
                     (<["tool_calls" :=
                          VInt (Z.of_nat (length toolCalls))]>
                     (<["finish_reason" := VString "tool_calls"]> ∅))))))))))
    as Hmeta.
  { revert Hsave. unfold saveAssistantMessageWithToolCalls, Create.
    destruct (String.eqb _ _); destruct (w_create w (creates st));
      try done; by intros [= <- _]. }
  rewrite Hmeta. unfold assistant_message. cbn [ContextStrategy.Metadata].
  split; [|split].
  - intros k v Hk. by apply lookup_union_Some_l.
  - revert Hparse. unfold parseToolCallsFromResponse.
    destruct (resp_Metadata llmResponse !! "tool_calls") as [v|] eqn:Hv;
      [|by intros [= <- _]].
    erewrite lookup_union_Some_l by exact Hv.
    destruct v; try (by intros [= <- _]); done.
  - intros Hnone. rewrite lookup_union_r by done. apply lookup_insert_eq.
Qed.

Lemma omap_length_le {A B : Type} (f : A -> option B) (l : list A) :
  length (omap f l) <= length l.
Proof.
  induction l as [|x l IH]; [done|]. cbn. destruct (f x); simpl; lia.
Qed.

(** Property X27.  [GetToolDefinitions] describes registered tools that
    are available, and no others: a name that is not registered and a tool
    that is not available are left out without an error.  Asked for names,
    it looks at those names only and answers for every one of them that is
    registered and available. *)
Theorem GetToolDefinitions_available toolNames :
  (forall definition, definition ∈ GetToolDefinitions w toolNames ->
     td_Type definition = "function" /\
     exists name tool,
       w_tools w !! name = Some tool /\
       Tool_IsAvailable tool (w_ctx w) = true /\
       td_Name definition = SchemaName (Tool_Schema tool) /\
       td_Parameters definition = Tool_Schema tool /\
       (toolNames <> [] -> name ∈ toolNames)) /\
  (forall name tool,
     name ∈ toolNames -> w_tools w !! name = Some tool ->
     Tool_IsAvailable tool (w_ctx w) = true ->
     exists definition,
       definition ∈ GetToolDefinitions w toolNames /\
       td_Parameters definition = Tool_Schema tool) /\
  (toolNames <> [] ->
   length (GetToolDefinitions w toolNames) <= length toolNames).
Proof.
  unfold GetToolDefinitions.
  set (names := match toolNames with
                | [] => (map_to_list (w_tools w)).*1
                | _ :: _ => toolNames
                end).
  assert (toolNames <> [] -> names = toolNames) as Hnames.
  { by destruct toolNames. }
  split; [|split].
  - intros definition Hin. apply list_elem_of_omap in Hin as (name & Hname & Hd).
    destruct (w_tools w !! name) as [tool|] eqn:Htool; [|done].
    destruct (Tool_IsAvailable tool (w_ctx w)) eqn:Havailable; [|done].
    injection Hd as <-. split; [done|]. exists name, tool.
    repeat split; try done. intros Hne. by rewrite <- (Hnames Hne).
  - intros name tool Hin Htool Havailable.
    exists {| td_Type := "function";
              td_Name := SchemaName (Tool_Schema tool);
              td_Description := SchemaDescription (Tool_Schema tool);
              td_Parameters := Tool_Schema tool |}.
    split; [|reflexivity].
    apply list_elem_of_omap. exists name. split.
    + rewrite Hnames; [done|]. intros ->. by apply elem_of_nil in Hin.
    + by rewrite Htool, Havailable.
  - intros Hne. rewrite (Hnames Hne). apply omap_length_le.
Qed.

(** *** Testing a tool *)

Lemma int64_small (z : Z) :
  (- 2 ^ 63 <= z < 2 ^ 63)%Z -> int64 z = z.
Proof. intros Hz. unfold int64. rewrite Z.mod_small; lia. Qed.

(** Property X28.  [TestTool] on a tool built on [BaseTool] returns within
    the timeout of the request, within 30 seconds when the request sets
    none.  A timeout of zero seconds, or a negative one, does not lift the
    limit: the call is cancelled before the tool body runs. *)
Theorem TestTool_timeout req c bt :
  w_tools w !! ttr_ToolName req = Some (BaseTool_Tool bt) ->
  exists d resp,
    TestTool w req c = Finishes d (Returns resp) /\
    (d <= Z.max 0 (testTimeout req))%Z /\
    (ttr_Timeout req = None -> (d <= 30 * second)%Z) /\
    (forall seconds,
       ttr_Timeout req = Some seconds ->
       (-9223372036 <= seconds <= 0)%Z ->
       available bt (w_ctx w) = true ->
       NoDup (Name <$> Parameters (schema bt)) ->
       ValidateInput (schema bt) (ttr_Arguments req) c = None ->
       d = 0%Z /\ tt_Success resp = false /\
       tt_Error resp = "execution cancelled" /\ tt_Validation resp = []).
Proof.
  intros Htool. unfold TestTool.
  destruct (Execute_BaseTool_bound
              (NewExecutor (w_tools w) (testTimeout req)) (w_ctx w) bt
              (ttr_ToolName req) "test-session" (ttr_Arguments req) c Htool)
    as (d & r & Hrun & Hd & Hduration).
  simpl in Hd.
  rewrite Hrun. eexists d, _. split; [reflexivity|]. split; [exact Hd|].
  split.
  { intros Hnone. unfold testTimeout in Hd. rewrite Hnone in Hd.
    unfold second in *. lia. }
  intros seconds Hsome Hrange Havailable Hnd Hvalid.
  assert (testTimeout req <= 0)%Z as Htimeout.
  { unfold testTimeout. rewrite Hsome. rewrite int64_small; unfold second; lia. }
  assert (exists sanitized,
            SanitizeInput (schema bt) (ttr_Arguments req) = inl sanitized)
    as [sanitized Hsanitized].
  { apply sanitizeLoop_inl. intros param v Hin Hv.
    apply ValidateInput_None in Hvalid as [_ Hvalid].
    destruct (Hvalid _ _ Hv) as (param' & Hfind & Hconf).
    rewrite (findParameter_NoDup _ _ Hnd Hin) in Hfind.
    injection Hfind as <-. apply validateParameter_conforms in Hconf.
    destruct (convertValue_valid _ _ Hconf) as (converted & ? & _).
    by exists converted. }
  revert Hrun. unfold Execute. simpl. rewrite Htool. simpl.
  rewrite Havailable. simpl. unfold BaseTool_Validate. rewrite Hvalid.
  unfold BaseTool_Execute. rewrite Hsanitized.
  assert (is_done (Ctx (newExecutionContext
                          (NewExecutor (w_tools w) (testTimeout req))
                          (w_ctx w) "test-session" c)) = true) as ->.
  { unfold is_done. simpl. apply Z.leb_le.
    destruct (done_in (w_ctx w)); lia. }
  intros [= <- <-]. by simpl.
Qed.

(** Property X22.  [ExecuteToolCalls] runs the calls one after the other:
    the time of two batches adds up, and when a call of the first batch
    panics or never returns, no call of the second batch is run. *)
Theorem ExecuteToolCalls_app sessionID toolCalls moreCalls c :
  ExecuteToolCalls w sessionID (toolCalls ++ moreCalls) c
  = match ExecuteToolCalls w sessionID toolCalls c with
    | Finishes d (Returns toolResults) =>
        match ExecuteToolCalls w sessionID moreCalls
                (c + length toolCalls) with
        | Finishes d' (Returns moreResults) =>
            Finishes (d + d') (Returns (toolResults ++ moreResults))
        | Finishes d' (Panics v) => Finishes (d + d') (Panics v)
        | Blocks => Blocks
        end
    | Finishes d (Panics v) => Finishes d (Panics v)
    | Blocks => Blocks
    end.
Proof.
  revert c. induction toolCalls as [|call rest IH]; intros c; simpl.
  - rewrite Nat.add_0_r.
    by destruct (ExecuteToolCalls w sessionID moreCalls c) as [d' [?|?]|].
  - destruct (executeSingleToolCall w sessionID call c) as [d0 [r0|v]|];
      [|done|done].
    rewrite IH, <- Nat.add_succ_comm.
    destruct (ExecuteToolCalls w sessionID rest (S c)) as [d1 [r1|v]|];
      [|done|done].
    destruct (ExecuteToolCalls w sessionID moreCalls (S c + length rest))
      as [d2 [r2|v]|]; [|by rewrite Z.add_assoc|done].
    by rewrite Z.add_assoc.
Qed.

(** Property X25.  The tool messages that join the conversation are the
    ones that could be stored, in their order: a tool message whose
    [Create] fails is left out of what the provider is sent next, and the
    turn goes on all the same.  Every message is tried once. *)
Theorem unstored_tool_messages_dropped st sessionID toolMessages :
  exists added,
    conversationMessages (appendToolMessages w st sessionID toolMessages)
      = conversationMessages st ++ added /\
    stored (appendToolMessages w st sessionID toolMessages)
      = stored st ++ added /\
    creates (appendToolMessages w st sessionID toolMessages)
      = creates st + length toolMessages /\
    length added <= length toolMessages /\
    ((forall n, w_create w n = None) ->
     length added = length toolMessages) /\
    ((forall n, w_create w n <> None) -> added = []).
Proof.
  revert st. induction toolMessages as [|tm rest IH]; intros st; simpl.
  { exists []. rewrite !app_nil_r. repeat split; (done || simpl; lia). }
  unfold Create.
  destruct (String.eqb _ _); destruct (w_create w (creates st)) as [err|] eqn:Hc.
  all: match goal with
       | |- context [appendToolMessages w ?s _ _] =>
           destruct (IH s) as (added & Hconv & Hstored & Hcreates & Hlen
                               & Hall & Hnone)
       end; simpl in *.
  all: try (exists added; rewrite Hconv, Hstored, Hcreates;
            split; [done|]; split; [done|]; split; [lia|]; split; [lia|];
            split; [intros Hok; by rewrite Hok in Hc | done]).
  all: eexists (_ :: added); rewrite Hconv, Hstored, Hcreates,
         <- !app_assoc; simpl;
       (split; [reflexivity|]); (split; [reflexivity|]); (split; [lia|]);
       (split; [lia|]);
       (split; [intros Hok; by rewrite (Hall Hok)
               | intros Hbad; by destruct (Hbad (creates st))]).
Qed.

End TurnAccounts.
Import Samples.
Local Abbreviation TR := TestRuntime.runtime.

Lemma ExecuteToolCalls_in_order_witness :
  exists d toolResults,
    ExecuteToolCalls (RT:=TR) test_world "session-1" requested_calls 0
      = Finishes d (Returns toolResults) /\
    r_ID <$> toolResults = ["call-1"; "call-2"; "call-3"] /\
    tm_ToolCallID <$> CreateToolResultMessages (RT:=TR) toolResults
      = ["call-1"; "call-2"; "call-3"].
Proof.
  eexists _, _. split; [reflexivity|].
  destruct (ExecuteToolCalls_in_order (RT:=TR) test_world "session-1"
              requested_calls 0 _ _ eq_refl) as (Hids & _ & Hmsgs & _).
  split; [exact Hids | exact Hmsgs].
Defined.

Lemma single_answer_turn_witness :
  exists resp st',
    processWithToolCalls (RT:=TR) quiet_world test_session user_message
      ["echo"] test_request start = (Ok resp, st') /\
    Response resp = "Hello!" /\ FinishReason resp = "stop" /\
    chats st' = 1.
Proof.
  destruct (single_answer_turn (RT:=TR) quiet_world test_session user_message
              ["echo"] test_request start [user_message] keep_all
              [user_message] plain plain_response)
    as (resp & st' & assistantMessage & Hrun & Hresponse & _ & Hfinish & _
        & Hchats & _);
    [reflexivity | reflexivity | reflexivity | reflexivity | reflexivity
    | reflexivity | reflexivity | reflexivity |].
  exists resp, st'. split; [exact Hrun|]. split; [exact Hresponse|].
  split; [exact Hfinish | exact Hchats].
Defined.

Lemma turn_accounts_witness :
  exists resp st',
    processWithToolCalls (RT:=TR) quiet_world test_session user_message
      ["echo"] test_request start = (Ok resp, st') /\
    ToolCalls resp = allToolCalls st' /\
    length (stored st') - length (stored start)
    = (chats st' - chats start)
      + (length (allToolCalls st') - length (allToolCalls start)).
Proof.
  eexists _, _. split; [reflexivity|].
  destruct (turn_accounts (RT:=TR) quiet_world test_session user_message
              ["echo"] test_request start _ _ eq_refl)
    as (Hcalls & _ & _ & _ & _ & _ & Hbooks).
  split; [exact Hcalls|]. apply Hbooks. reflexivity.
Defined.

Lemma provider_metadata_wins_witness :
  exists m st',
    saveAssistantMessageWithToolCalls test_world start "session-1"
      insistent_response requested_calls [] 1 "keep_all" = (inl m, st') /\
    ContextStrategy.Metadata m !! "tool_calls" = Some (VString "[3 calls]").
Proof.
  destruct (saveAssistantMessageWithToolCalls test_world start "session-1"
              insistent_response requested_calls [] 1 "keep_all")
    as [[m|err] st'] eqn:Hsave; [|by vm_compute in Hsave].
  exists m, st'. split; [reflexivity|].
  destruct (provider_metadata_wins (RT:=TR) test_world start "session-1"
              insistent_response "calling tools" 0 requested_calls 0 [] 1
              "keep_all" m st') as (Hwins & _);
    [reflexivity | discriminate | exact Hsave |].
  apply Hwins. reflexivity.
Defined.

Lemma TestTool_timeout_witness :
  exists d resp,
    TestTool (RT:=TR) test_world zero_timeout_request 0
      = Finishes d (Returns resp) /\
    d = 0%Z /\ tt_Error resp = "execution cancelled".
Proof.
  destruct (TestTool_timeout (RT:=TR) test_world zero_timeout_request 0 echo
              eq_refl) as (d & resp & Hrun & _ & _ & Hzero).
  exists d, resp. split; [exact Hrun|].
  destruct (Hzero 0%Z eq_refl) as (Hd & _ & Herror & _);
    [lia | reflexivity | apply NoDup_nil_2 | reflexivity |].
  split; [exact Hd | exact Herror].
Defined.

End TurnProps.
